(** * exodia-dao-bot: the bond claim-and-stake watch loop

    A shallow embedding of [src/index.ts] (both revisions of the tick
    handler) and of the static class [Tools] of [src/tools.ts].

    The bot is a sequence of [await]s on remote objects (contracts, the
    wallet, the redeem helper).  A program is therefore modelled as a tree
    of remote calls: each [Await] node names the call and continues with
    the way the call settled.  The remote side is a [World]: a function
    from the events so far and the call to a rejection or a value, so
    answers may change over time.  The recursive [attempt] closures of
    [tools.ts] retry for ever; here they carry a fuel and end in [Stall]
    when it is used up.  The 2 second [sleep] between two attempts, the
    floating point rates and the layout of the status report are not
    modelled; the difference of two block numbers is the double that
    JavaScript computes.  The handlers of successive ticks are first
    taken to run one after the other ([step], [run]); the timer does not
    wait for a handler, and module [Timer] lets handlers overlap at their
    awaits, sharing the ledger and the timer.  Module [Startup] has the
    constants read from the environment, the checks on them and the
    wallet file. *)

From Stdlib Require Import ZArith QArith List Ascii String Bool Lia.
Import ListNotations.

Local Open Scope string_scope.
Local Open Scope list_scope.
Local Open Scope Z_scope.

(** ** JavaScript [Map]: insertion ordered, [set] overwrites in place *)

Module JsMap.
Section Ops.
Context {K V : Type}.
Variable eqb : K -> K -> bool.

Definition t : Type := list (K * V).

Definition empty : t := [].

Fixpoint get (m : t) (k : K) : option V :=
  match m with
  | [] => None
  | (k', v) :: rest => if eqb k' k then Some v else get rest k
  end.

Definition has (m : t) (k : K) : bool :=
  match get m k with
  | Some _ => true
  | None => false
  end.

Fixpoint set (m : t) (k : K) (v : V) : t :=
  match m with
  | [] => [(k, v)]
  | (k', v') :: rest =>
      if eqb k' k then (k', v) :: rest else (k', v') :: set rest k v
  end.

Definition keys (m : t) : list K := map fst m.

Definition size (m : t) : nat := List.length m.
End Ops.
End JsMap.

(** ** Values exchanged with the remote side *)

Definition address := string.

Module ethers.
(** [ethers.ContractReceipt], the two fields the bot reads. *)
Record ContractReceipt : Type := mkReceipt
  { transactionHash : string;
    blockNumber : Z }.
End ethers.

Module DAO.
(** [DAO.Bond]: a loaded bond contract. *)
Record Bond : Type := mkBond
  { contract_address : address }.

(** What [DAO.BondInformationHelper.symbol] resolves to. *)
Record Symbols : Type := mkSymbols
  { symbol0 : string;
    symbol1 : string }.

(** What [DAO.Bond.terms()] resolves to, the field the bot reads. *)
Record Terms : Type := mkTerms
  { vestingTerm : Z }.

(** What [DAO.Staking.epoch()] resolves to. *)
Record Epoch : Type := mkEpoch
  { distribute : Z;
    _length : Z;
    number : Z;
    endBlock : Z }.
End DAO.

(** The values of the [Bonds] map of [tools.ts]. *)
Record BondEntry : Type := mkEntry
  { name : string;
    bond : DAO.Bond;
    redeemHelper : bool }.

Module DAOInformationHelper.
(** What [info] resolves to; the [BigNumber] fields are integers,
    [blockPrecision] and [stakedDecimals] are plain numbers. *)
Record Info : Type := mkInfo
  { blockAverage : Z;
    blockPrecision : Z;
    epochLength : Z;
    epochDistribute : Z;
    stakedCirculatingSupply : Z;
    epochNumber : Z;
    epochEndBlock : Z;
    blockNumber : Z;
    stakingBalance : Z;
    stakingIndex : Z;
    stakedDecimals : Z }.
End DAOInformationHelper.

(** A transaction handed to [execute]. *)
Inductive transaction : Type :=
| redeemAll (recipient : address) (stake : bool)
| redeem (bond_address : address) (recipient : address) (stake : bool).

(** The remote calls the bot awaits, each with the type of what it resolves
    to.  [submit tx] is the call of a contract method, which resolves to
    the transaction (here its hash); [tx_wait] is [wait] on it; [execute]
    does both. *)
Inductive call : Type -> Type :=
| redeemHelper_getBonds (maxBonds : Z) : call (list address)
| load_contract (contract : address) : call DAO.Bond
| connectWallet (contract : address) : call unit
| helper_symbol (contract : address) : call DAO.Symbols
| bond_terms (contract : address) : call DAO.Terms
| pendingPayoutFor (contract : address) (wallet : address) : call Z
| helper_info (staking stakedToken timetracker wallet : address)
  : call DAOInformationHelper.Info
| wallet_getBalance : call Z
| execute (tx : transaction) (confirmations : Z) : call ethers.ContractReceipt
| provider_getBlockNumber : call Z
| staking_epoch : call DAO.Epoch
| stakedToken_circulatingSupply : call Z
| timetracker_average : call Q
| submit (tx : transaction) : call string
| tx_wait (hash : string) (confirmations : Z) : call ethers.ContractReceipt.

(** A promise settles: it is rejected with a reason or resolves to a
    value. *)
Definition settled (X : Type) : Type := (string + X)%type.

Definition rejected {X : Type} (reason : string) : settled X := inl reason.
Definition resolved {X : Type} (x : X) : settled X := inr x.

Inductive level : Type := lvl_info | lvl_warn | lvl_error | lvl_debug.

(** An argument of a log line. *)
Inductive arg : Type :=
| str (s : string)
| num (z : Z).

(** What an observer of the bot sees: the calls it issues and the lines it
    logs (format string and arguments). *)
Inductive event : Type :=
| Called {X : Type} (c : call X)
| Logged (l : level) (format : string) (args : list arg).

Definition trace : Type := list event.

(** The remote side: how a call settles, given everything seen so far
    (oldest event first). *)
Definition World : Type := forall X : Type, trace -> call X -> settled X.

(** ** Programs *)

Inductive prog (A : Type) : Type :=
| Ret (a : A)
| Throw (e : string)
| Stall
| Await {X : Type} (c : call X) (k : settled X -> prog A)
| Log (l : level) (format : string) (args : list arg) (k : prog A).

Arguments Ret {A} a.
Arguments Throw {A} e.
Arguments Stall {A}.
Arguments Await {A X} c k.
Arguments Log {A} l format args k.

Fixpoint bind {A B : Type} (p : prog A) (f : A -> prog B) : prog B :=
  match p with
  | Ret a => f a
  | Throw e => Throw e
  | Stall => Stall
  | Await c k => Await c (fun r => bind (k r) f)
  | Log l s args k => Log l s args (bind k f)
  end.

(** [try { p } catch (e) { handler e }] *)
Fixpoint try_catch {A : Type} (p : prog A) (handler : string -> prog A) : prog A :=
  match p with
  | Ret a => Ret a
  | Throw e => handler e
  | Stall => Stall
  | Await c k => Await c (fun r => try_catch (k r) handler)
  | Log l s args k => Log l s args (try_catch k handler)
  end.

Declare Scope prog_scope.
Delimit Scope prog_scope with prog.
Notation "x <- p ;; q" := (bind p (fun x => q))
  (at level 61, p at next level, right associativity) : prog_scope.
Notation "p ;;; q" := (bind p (fun _ => q))
  (at level 61, right associativity) : prog_scope.
Local Open Scope prog_scope.

(** [await]: a rejected promise throws its reason. *)
Definition await {X : Type} (c : call X) : prog X :=
  Await c (fun r => match r with
                    | inl reason => Throw reason
                    | inr x => Ret x
                    end).

Definition log (l : level) (format : string) (args : list arg) : prog unit :=
  Log l format args (Ret tt).

Inductive outcome (A : Type) : Type :=
| Done (a : A)
| Thrown (e : string)
| Stalled.

Arguments Done {A} a.
Arguments Thrown {A} e.
Arguments Stalled {A}.

(** Running a program against a world after the events [h]: its outcome and
    the events it adds, in order. *)
Fixpoint exec {A : Type} (w : World) (h : trace) (p : prog A) : outcome A * trace :=
  match p with
  | Ret a => (Done a, [])
  | Throw e => (Thrown e, [])
  | Stall => (Stalled, [])
  | Await c k =>
      let (o, ev) := exec w (h ++ [Called c]) (k (w _ h c)) in
      (o, Called c :: ev)
  | Log l s args k =>
      let (o, ev) := exec w (h ++ [Logged l s args]) k in
      (o, Logged l s args :: ev)
  end.

(** ** [BigNumber] and number helpers *)

Definition MAX_SAFE_INTEGER : Z := 2 ^ 53 - 1.

(** [BigNumber.toNumber()]: throws outside the safe integer range. *)
Definition toNumber (z : Z) : prog Z :=
  if Z.abs z <=? MAX_SAFE_INTEGER then Ret z else Throw "overflow".

(** A JavaScript number is a double.  [nearest_double z] is the double
    nearest to the integer [z], ties going to the even significand: what
    the arithmetic of JavaScript returns when the exact result is [z].
    Up to [2 ^ 53] in magnitude every integer is a double; beyond, 53
    significant bits are kept.  (Beyond [2 ^ 1024] the result would be an
    infinity; the bot's numbers stay below [2 ^ 54].) *)
Definition nearest_double (z : Z) : Z :=
  if Z.abs z <=? 2 ^ 53 then z
  else
    let ulp := 2 ^ (Z.log2 (Z.abs z) - 52) in
    let q := z / ulp in
    let r := z mod ulp in
    if 2 * r <? ulp then q * ulp
    else if ulp <? 2 * r then (q + 1) * ulp
    else if Z.even q then q * ulp
    else (q + 1) * ulp.

Arguments nearest_double : simpl never.

(** [parseFloat(ethers.utils.formatUnits(z, 'gwei'))]: [z] scaled down by
    nine decimals.  The JavaScript number is the double nearest to this
    rational; the rounding keeps zero and the sign, which is all the bot
    tests. *)
Definition formatUnits_gwei (z : Z) : Q := z # 1000000000.

(** [x > 0] on such a number. *)
Definition gt0 (x : Q) : bool := 0 <? Qnum x.

(** [Array.prototype.includes] on strings. *)
Definition includes (l : list string) (x : string) : bool :=
  existsb (String.eqb x) l.

(** [String.prototype.padStart(n, ' ')]. *)
Fixpoint spaces (n : nat) : string :=
  match n with
  | O => EmptyString
  | S n' => String " "%char (spaces n')
  end.

Definition padStart (n : nat) (s : string) : string :=
  (spaces (n - String.length s) ++ s)%string.

(** ** [tools.ts] *)

Module Tools.

Definition Bonds : Type := JsMap.t (K := address) (V := BondEntry).

Record StakingInformation : Type := mkStakingInformation
  { epochNumber : Z;
    blockNumber : Z;
    endBlock : Z;
    delta : Z;
    stakedTokenBalance : Q }.

(** [secondsToHuman]: [new Date(seconds * 1000).toISOString()] throws a
    [RangeError] outside the range of [Date]; the text it returns only
    goes to the log. *)
Definition secondsToHuman (seconds : Z) : prog unit :=
  if Z.abs (seconds * 1000) <=? 8640000000000000
  then Ret tt
  else Throw "RangeError: Invalid time value".

(** The recursive [attempt] closures: run the body; when it throws, log
    and run it again from scratch. *)
Fixpoint attempt {A : Type} (fuel : nat) (body : prog A) (on_error : prog unit)
  : prog A :=
  match fuel with
  | O => Stall
  | S fuel' =>
      try_catch body (fun _ => on_error ;;; attempt fuel' body on_error)
  end.

(** *** [getBonds] *)

Definition rule : string :=
  "---------------------------------------------------------------------------------".

Definition tag_of (vestingTerm : Z) : string :=
  if vestingTerm =? 345600 then "(4,4)" else "(1,1)".

Definition symbol_of (symbol0 symbol1 : string) : string :=
  if negb (String.length symbol1 =? 0)%nat
  then (symbol0 ++ "-" ++ symbol1 ++ " LP")%string
  else symbol0.

Definition name_of (symbol0 symbol1 : string) (vestingTerm : Z) : string :=
  (symbol_of symbol0 symbol1 ++ " " ++ tag_of vestingTerm)%string.

(** The body of the [try] block for one address. *)
Definition load_bond (additionalBonds : list address) (contract_address : address)
  : prog BondEntry :=
  bond <- await (load_contract contract_address) ;;
  await (connectWallet (DAO.contract_address bond)) ;;;
  symbols <- await (helper_symbol contract_address) ;;
  terms <- await (bond_terms (DAO.contract_address bond)) ;;
  vestingTerm <- toNumber (DAO.vestingTerm terms) ;;
  let name := name_of (DAO.symbol0 symbols) (DAO.symbol1 symbols) vestingTerm in
  let usesHelper := negb (includes additionalBonds (DAO.contract_address bond)) in
  Ret (mkEntry name bond usesHelper).

Fixpoint getBonds_each (fuel : nat) (additionalBonds : list address)
    (bond_addresses : list address) (result : Bonds) : prog Bonds :=
  match bond_addresses with
  | [] => Ret result
  | contract_address :: rest =>
      result' <- attempt fuel
        (entry <- load_bond additionalBonds contract_address ;;
         log lvl_info "Loaded bond for %s: %s"
           [str (padStart 20 (name entry)); str contract_address] ;;;
         Ret (JsMap.set String.eqb result contract_address entry))
        (log lvl_warn "Error loading bond ABI, pausing 2 seconds to try again..." []) ;;
      getBonds_each fuel additionalBonds rest result'
  end.

Definition getBonds (fuel : nat) (maxBonds : Z) (additionalBonds : list address)
  : prog Bonds :=
  log lvl_info rule [] ;;;
  log lvl_info "Fetching all Bond ABIs and loading them" [] ;;;
  log lvl_info "" [] ;;;
  bond_addresses <- await (redeemHelper_getBonds maxBonds) ;;
  let bond_addresses := bond_addresses ++ additionalBonds in
  result <- getBonds_each fuel additionalBonds bond_addresses JsMap.empty ;;
  log lvl_info "" [] ;;;
  log lvl_info "Loaded %s Bond ABIs" [num (Z.of_nat (JsMap.size result))] ;;;
  log lvl_info rule [] ;;;
  Ret result.

(** *** [checkBonds] *)

(** The [for (const [, elem] of bonds)] loop, [result] being the running
    [BigNumber]. *)
Fixpoint checkBonds_each (fuel : nat) (entries : list (address * BondEntry))
    (myStakingWallet : address) (ignoreAdditional : bool) (result : Z) : prog Z :=
  match entries with
  | [] => Ret result
  | (_, elem) :: rest =>
      if ignoreAdditional && negb (redeemHelper elem) then
        log lvl_debug "Skipping %s in pending payout check of all bonds"
          [str (DAO.contract_address (bond elem))] ;;;
        checkBonds_each fuel rest myStakingWallet ignoreAdditional result
      else
        result' <- attempt fuel
          (payout <- await (pendingPayoutFor (DAO.contract_address (bond elem))
                              myStakingWallet) ;;
           Ret (result + payout))
          (log lvl_warn "Error checking bond [%s] payout for %s"
             [str (name elem); str myStakingWallet]) ;;
        checkBonds_each fuel rest myStakingWallet ignoreAdditional result'
  end.

Definition checkBonds (fuel : nat) (bonds : Bonds) (myStakingWallet : address)
    (ignoreAdditional : bool) : prog Q :=
  result <- checkBonds_each fuel bonds myStakingWallet ignoreAdditional 0 ;;
  Ret (formatUnits_gwei result).

(** *** [getLoopData]

    The rates are floating point quotients and are left out; the
    [toNumber] conversions that feed them stay, since each may throw. *)
Definition getLoopData_body (staking stakedToken timetracker myStakingWallet : address)
  : prog StakingInformation :=
  result <- await (helper_info staking stakedToken timetracker myStakingWallet) ;;
  toNumber (DAOInformationHelper.blockAverage result) ;;;
  toNumber (DAOInformationHelper.epochLength result) ;;;
  toNumber (DAOInformationHelper.epochDistribute result) ;;;
  toNumber (DAOInformationHelper.stakedCirculatingSupply result) ;;;
  epochNumber <- toNumber (DAOInformationHelper.epochNumber result) ;;
  endBlock <- toNumber (DAOInformationHelper.epochEndBlock result) ;;
  blockNumber <- toNumber (DAOInformationHelper.blockNumber result) ;;
  let delta := nearest_double (endBlock - blockNumber) in
  let stakedTokenBalance := formatUnits_gwei (DAOInformationHelper.stakingBalance result) in
  toNumber (DAOInformationHelper.stakingIndex result) ;;;
  blockNumber <- toNumber (DAOInformationHelper.blockNumber result) ;;
  Ret (mkStakingInformation epochNumber blockNumber endBlock delta stakedTokenBalance).

Definition getLoopData (fuel : nat)
    (staking stakedToken timetracker myStakingWallet : address)
  : prog StakingInformation :=
  attempt fuel
    (getLoopData_body staking stakedToken timetracker myStakingWallet)
    (log lvl_warn "Error pulling current data" []).

(** *** [redeemBonds] *)

Definition getBond (bonds : Bonds) (contract : address) : option DAO.Bond :=
  if JsMap.has String.eqb bonds contract then
    match JsMap.get String.eqb bonds contract with
    | Some data => Some (bond data)
    | None => None
    end
  else None.

Definition attemptRedeemAll (myStakingWallet : address) : prog ethers.ContractReceipt :=
  await (execute (redeemAll myStakingWallet true) 2).

Definition attemptRedeemSingle (bond : DAO.Bond) (myStakingWallet : address)
  : prog ethers.ContractReceipt :=
  await (execute (redeem (DAO.contract_address bond) myStakingWallet true) 2).

(** The [for (const bond_contract of additionalBonds)] loop. *)
Fixpoint redeem_each (myStakingWallet : address) (bonds : Bonds)
    (additionalBonds : list address) (receipts : list ethers.ContractReceipt)
  : prog (list ethers.ContractReceipt) :=
  match additionalBonds with
  | [] => Ret receipts
  | bond_contract :: rest =>
      match getBond bonds bond_contract with
      | Some bond =>
          payout <- await (pendingPayoutFor (DAO.contract_address bond) myStakingWallet) ;;
          if 0 <? payout then
            log lvl_warn "Awaiting Redeem & Stake: %s" [str (DAO.contract_address bond)] ;;;
            receipt <- attemptRedeemSingle bond myStakingWallet ;;
            log lvl_warn "Redeem & Stake [%s] Completed: %s"
              [str (DAO.contract_address bond);
               str (ethers.transactionHash receipt)] ;;;
            redeem_each myStakingWallet bonds rest (receipts ++ [receipt])
          else redeem_each myStakingWallet bonds rest receipts
      | None => redeem_each myStakingWallet bonds rest receipts
      end
  end.

Definition redeemBonds (fuel : nat) (myStakingWallet : address) (bonds : Bonds)
    (additionalBonds : list address) : prog (list ethers.ContractReceipt) :=
  pending <- checkBonds fuel bonds myStakingWallet true ;;
  receipts <-
    (if gt0 pending then
       log lvl_warn "Awaiting Redeem & Stake All Transaction" [] ;;;
       receipt <- attemptRedeemAll myStakingWallet ;;
       log lvl_warn "Redeem & Stake All Completed: %s"
         [str (ethers.transactionHash receipt)] ;;;
       Ret [receipt]
     else Ret []) ;;
  redeem_each myStakingWallet bonds additionalBonds receipts.

End Tools.

(** ** The watch loop *)

(** The constants of [index.ts] that the tick handler reads.  They come
    from the environment, except [ADDITIONAL_BONDS], a list written in the
    source. *)
Record Config : Type := mkConfig
  { myStakingWallet : address;
    STAKING_CONTRACT : address;
    STAKED_TOKEN_CONTRACT : address;
    BLOCK_TIME_TRACKER : address;
    ADDITIONAL_BONDS : list address }.

(** What the handler closes over and mutates: the [epochs] map and the
    pause flag of the [Metronome]. *)
Record Bot : Type := mkBot
  { epochs : JsMap.t (K := Z) (V := Z);
    paused : bool }.

(** [timer.toggle()] flips the pause flag. *)
Definition toggle (b : Bot) : Bot := mkBot (epochs b) (negb (paused b)).

Definition set_epoch (b : Bot) (epochNumber block : Z) : Bot :=
  mkBot (JsMap.set Z.eqb (epochs b) epochNumber block) (paused b).

(** A freshly started bot: no epoch recorded, timer running. *)
Definition start : Bot := mkBot JsMap.empty false.

Definition trigger_line : event :=
  Logged lvl_warn "Trying to Redeem & Stake all Bonds" [].

Definition error_line (e : string) : event :=
  Logged lvl_error "Error redeeming & staking bonds: %s" [str e].

(** The handler that goes through [Tools.getLoopData] and
    [Tools.redeemBonds]. *)
Module Index.
Section Handler.
Variable cfg : Config.
Variable bonds : Tools.Bonds.
Variable fuel : nat.

(** Everything the handler awaits before it tests the trigger. *)
Definition evaluate : prog (Tools.StakingInformation * Q) :=
  info <- Tools.getLoopData fuel (STAKING_CONTRACT cfg) (STAKED_TOKEN_CONTRACT cfg)
            (BLOCK_TIME_TRACKER cfg) (myStakingWallet cfg) ;;
  bondPayout <- Tools.checkBonds fuel bonds (myStakingWallet cfg) false ;;
  Tools.secondsToHuman (Tools.delta info) ;;;
  await wallet_getBalance ;;;
  Ret (info, bondPayout).

Definition trigger (info : Tools.StakingInformation) (bondPayout : Q) (b : Bot) : bool :=
  (Tools.delta info <=? 5 * 60)
  && negb (JsMap.has Z.eqb (epochs b) (Tools.epochNumber info))
  && gt0 bondPayout.

(** [for (const receipt of receipts)] *)
Fixpoint record (epochNumber : Z) (receipts : list ethers.ContractReceipt) (b : Bot)
  : prog Bot :=
  match receipts with
  | [] => Ret b
  | receipt :: rest =>
      let b := set_epoch b epochNumber (ethers.blockNumber receipt) in
      log lvl_info "Redeemed & Staked via %s in block %s"
        [str (ethers.transactionHash receipt); num (ethers.blockNumber receipt)] ;;;
      record epochNumber rest b
  end.

(** The [try] block. *)
Definition redeem_and_record (info : Tools.StakingInformation) (b : Bot) : prog Bot :=
  receipts <- Tools.redeemBonds fuel (myStakingWallet cfg) bonds (ADDITIONAL_BONDS cfg) ;;
  record (Tools.epochNumber info) receipts b.

Definition act (info : Tools.StakingInformation) (b : Bot) : prog Bot :=
  let b := toggle b in
  log lvl_warn "Trying to Redeem & Stake all Bonds" [] ;;;
  b <- try_catch (redeem_and_record info b)
         (fun e =>
            log lvl_error "Error redeeming & staking bonds: %s" [str e] ;;;
            Ret b) ;;
  Ret (toggle b).

Definition tick (b : Bot) : prog Bot :=
  x <- evaluate ;;
  if trigger (fst x) (snd x) b then act (fst x) b else Ret b.
End Handler.
End Index.

(** The handler that queries the staking contract itself and submits the
    bulk redeem directly.  The [Tools.checkBonds] it calls returns the
    [BigNumber] total and is not part of the sources at hand: it is a
    parameter here. *)
Module IndexDirect.
Section Handler.
Variable cfg : Config.
Variable bonds : Tools.Bonds.
Variable checkBonds : Tools.Bonds -> address -> prog Z.

Record Evaluation : Type := mkEvaluation
  { epochNumber : Z;
    delta : Z;
    bondPayout : Z }.

Definition evaluate : prog Evaluation :=
  blockNumber <- await provider_getBlockNumber ;;
  epoch <- await staking_epoch ;;
  supply <- await stakedToken_circulatingSupply ;;
  toNumber supply ;;;
  toNumber (DAO.distribute epoch) ;;;
  toNumber (DAO._length epoch) ;;;
  await timetracker_average ;;;
  epochNumber <- toNumber (DAO.number epoch) ;;
  endBlock <- toNumber (DAO.endBlock epoch) ;;
  let delta := nearest_double (endBlock - blockNumber) in
  bondPayout <- checkBonds bonds (myStakingWallet cfg) ;;
  Tools.secondsToHuman delta ;;;
  await wallet_getBalance ;;;
  Ret (mkEvaluation epochNumber delta bondPayout).

Definition trigger (x : Evaluation) (b : Bot) : bool :=
  (delta x <=? 5 * 60)
  && negb (JsMap.has Z.eqb (epochs b) (epochNumber x))
  && (0 <? bondPayout x).

(** The [try] block: submit, wait for two confirmations, record. *)
Definition redeem_and_record (x : Evaluation) (b : Bot) : prog Bot :=
  hash <- await (submit (redeemAll (myStakingWallet cfg) true)) ;;
  log lvl_warn "Waiting for transaction: %s" [str hash] ;;;
  receipt <- await (tx_wait hash 2) ;;
  let b := set_epoch b (epochNumber x) (ethers.blockNumber receipt) in
  log lvl_info "Redeemed & Staked All via %s in block %s"
    [str (ethers.transactionHash receipt); num (ethers.blockNumber receipt)] ;;;
  Ret b.

(** [catch {}] swallows the error; [finally] toggles in both cases. *)
Definition act (x : Evaluation) (b : Bot) : prog Bot :=
  let b := toggle b in
  log lvl_warn "Trying to Redeem & Stake all Bonds" [] ;;;
  b <- try_catch (redeem_and_record x b) (fun _ => Ret b) ;;
  Ret (toggle b).

Definition tick (b : Bot) : prog Bot :=
  x <- evaluate ;;
  if trigger x b then act x b else Ret b.
End Handler.
End IndexDirect.

(** ** Successive ticks

    The handlers run one after the other: the loop as it goes when every
    handler has ended by the time the next tick comes.  A tick that ends,
    normally or with a rejected promise, leaves the bot to the next one; a
    tick that never ends has no successor.  (The timer does not wait for
    a handler; handlers that overlap are the subject of [Timer] below.) *)

Section Loop.
Variable w : World.
Variable handler : Bot -> prog Bot.

Inductive step : trace * Bot -> trace * Bot -> Prop :=
| step_done h b b' ev :
    exec w h (handler b) = (Done b', ev) -> step (h, b) (h ++ ev, b')
| step_thrown h b e ev :
    exec w h (handler b) = (Thrown e, ev) -> step (h, b) (h ++ ev, b).

Inductive steps : trace * Bot -> trace * Bot -> Prop :=
| steps_refl s : steps s s
| steps_next s1 s2 s3 : step s1 s2 -> steps s2 s3 -> steps s1 s3.

Definition reachable (s : trace * Bot) : Prop := steps ([], start) s.

(** [n] ticks in a row, for running the loop on an example. *)
Fixpoint run (n : nat) (h : trace) (b : Bot) : trace * Bot :=
  match n with
  | O => (h, b)
  | S n' =>
      match exec w h (handler b) with
      | (Done b', ev) => run n' (h ++ ev) b'
      | (Thrown _, ev) => run n' (h ++ ev) b
      | (Stalled, _) => (h, b)
      end
  end.
End Loop.

(** ** Vocabulary of the statements *)

(** The transactions handed to [execute], in order. *)
Fixpoint executed (ev : trace) : list transaction :=
  match ev with
  | [] => []
  | Called (execute tx _) :: rest => tx :: executed rest
  | _ :: rest => executed rest
  end.

(** The sum of the pending payouts [p] over the positions that
    [checkBonds] queries. *)
Fixpoint pending_total (p : address -> Z) (ignoreAdditional : bool)
    (entries : list (address * BondEntry)) : Z :=
  match entries with
  | [] => 0
  | (_, elem) :: rest =>
      if ignoreAdditional && negb (redeemHelper elem)
      then pending_total p ignoreAdditional rest
      else p (DAO.contract_address (bond elem)) + pending_total p ignoreAdditional rest
  end.

(** The individual redemptions that are due: one for each listed address
    that is registered and has something pending. *)
Fixpoint due (p : address -> Z) (wallet : address) (bonds : Tools.Bonds)
    (additionalBonds : list address) : list transaction :=
  match additionalBonds with
  | [] => []
  | a :: rest =>
      match Tools.getBond bonds a with
      | Some b =>
          if 0 <? p (DAO.contract_address b)
          then redeem (DAO.contract_address b) wallet true :: due p wallet bonds rest
          else due p wallet bonds rest
      | None => due p wallet bonds rest
      end
  end.

(** The ledger only grows, and keeps one entry per epoch number. *)
Definition ledger_grows (b b' : Bot) : Prop :=
  (forall k, JsMap.has Z.eqb (epochs b) k = true ->
             JsMap.has Z.eqb (epochs b') k = true) /\
  (NoDup (JsMap.keys (epochs b)) -> NoDup (JsMap.keys (epochs b'))).

(** A world that always answers a payout query with [p]. *)
Definition answers_payout (w : World) (p : address -> Z) : Prop :=
  forall h b a, w _ h (pendingPayoutFor b a) = resolved (p b).

(** A world in which every executed transaction is confirmed, with
    receipt [rc]. *)
Definition confirms (w : World) (rc : transaction -> ethers.ContractReceipt) : Prop :=
  forall h tx n, w _ h (execute tx n) = resolved (rc tx).

Definition bulk_completed_line (receipt : ethers.ContractReceipt) : event :=
  Logged lvl_warn "Redeem & Stake All Completed: %s" [str (ethers.transactionHash receipt)].

(** ** Readings that the code refutes *)

(** [checkBonds] would return the plain sum of the payouts: 8 for 5, 0
    and 3. *)
Definition returns_plain_sum : Prop :=
  forall w p wallet fuel bonds h q ev,
    answers_payout w p ->
    exec w h (Tools.checkBonds fuel bonds wallet false) = (Done q, ev) ->
    (q == inject_Z (pending_total p false bonds))%Q.

(** A redeem procedure that throws after the bulk redeem was confirmed
    would still leave the epoch marked. *)
Definition partial_failure_marks_epoch : Prop :=
  forall cfg bonds fuel w h b info payout ev receipt e ev2 o ev',
    exec w h (Index.evaluate cfg bonds fuel) = (Done (info, payout), ev) ->
    Index.trigger info payout b = true ->
    exec w ((h ++ ev) ++ [trigger_line])
         (Tools.redeemBonds fuel (myStakingWallet cfg) bonds (ADDITIONAL_BONDS cfg))
    = (Thrown e, ev2) ->
    In (bulk_completed_line receipt) ev2 ->
    exec w h (Index.tick cfg bonds fuel b) = (o, ev') ->
    exists b',
      o = Done b' /\
      JsMap.has Z.eqb (epochs b') (Tools.epochNumber info) = true.

(** ** Scenarios *)

Module Scenario.

(** Epoch 12 ends at block 1000 and the chain is at block 998. *)
Definition helper_answer : DAOInformationHelper.Info :=
  DAOInformationHelper.mkInfo 1000000 6 200 500 1000000 12 1000 998 7000000000 1000000000 9.

Definition epoch_answer : DAO.Epoch := DAO.mkEpoch 500 200 12 1000.

Definition cfg : Config :=
  mkConfig "0xWALLET" "0xSTAKING" "0xSTAKED" "0xTRACKER" ["0xSUPP"].

(** One position redeemed in bulk, one redeemed on its own. *)
Definition bonds : Tools.Bonds :=
  [ ("0xBULK", mkEntry "DAI-wFTM LP (4,4)" (DAO.mkBond "0xBULK") true);
    ("0xSUPP", mkEntry "wFTM (1,1)" (DAO.mkBond "0xSUPP") false) ].

Definition bulk_receipt : ethers.ContractReceipt := ethers.mkReceipt "0xaa" 999.
Definition single_receipt : ethers.ContractReceipt := ethers.mkReceipt "0xbb" 1001.

Definition receipt_of (tx : transaction) : ethers.ContractReceipt :=
  match tx with
  | redeemAll _ _ => bulk_receipt
  | redeem _ _ _ => single_receipt
  end.

(** A world with fixed payouts [p] in which [execute] settles as [ex]. *)
Definition steady (p : address -> Z)
    (ex : transaction -> settled ethers.ContractReceipt) : World :=
  fun X _ c =>
    match c in call X return settled X with
    | helper_info _ _ _ _ => resolved helper_answer
    | pendingPayoutFor b _ => resolved (p b)
    | wallet_getBalance => resolved 1000000000000000000
    | execute tx _ => ex tx
    | provider_getBlockNumber => resolved 998
    | staking_epoch => resolved epoch_answer
    | stakedToken_circulatingSupply => resolved 1000000
    | timetracker_average => resolved 1%Q
    | submit _ => resolved "0xaa"
    | tx_wait _ _ => resolved bulk_receipt
    | redeemHelper_getBonds _ => resolved ["0xBULK"]
    | load_contract a => resolved (DAO.mkBond a)
    | connectWallet _ => resolved tt
    | helper_symbol a =>
        if String.eqb a "0xBULK" then resolved (DAO.mkSymbols "DAI" "wFTM")
        else resolved (DAO.mkSymbols "wFTM" "")
    | bond_terms a =>
        if String.eqb a "0xBULK" then resolved (DAO.mkTerms 345600)
        else resolved (DAO.mkTerms 86400)
    end.

Definition both_pending (b : address) : Z :=
  if String.eqb b "0xBULK" then 5 else if String.eqb b "0xSUPP" then 3 else 0.

Definition only_single_pending (b : address) : Z :=
  if String.eqb b "0xSUPP" then 5 else 0.

(** Every transaction is confirmed. *)
Definition healthy (p : address -> Z) : World :=
  steady p (fun tx => resolved (receipt_of tx)).

(** The bulk redeem is confirmed, the individual one reverts. *)
Definition single_reverts : World :=
  steady both_pending
    (fun tx =>
       match tx with
       | redeemAll _ _ => resolved bulk_receipt
       | redeem _ _ _ => rejected "execution reverted"
       end).

(** Someone else redeems between the bot's two looks: the payout query
    that follows the balance query (and the line that opens the action)
    finds nothing left, any other finds 5. *)
Definition last_is_balance (h : trace) : bool :=
  match rev h with
  | Called wallet_getBalance :: _ => true
  | Logged _ _ _ :: Called wallet_getBalance :: _ => true
  | _ => false
  end.

Definition raced : World :=
  fun X h c =>
    match c in call X return settled X with
    | pendingPayoutFor _ _ => if last_is_balance h then resolved 0 else resolved 5
    | c' => healthy both_pending _ h c'
    end.

Definition only_bulk : Tools.Bonds :=
  [ ("0xBULK", mkEntry "DAI-wFTM LP (4,4)" (DAO.mkBond "0xBULK") true) ].

Definition cfg_plain : Config :=
  mkConfig "0xWALLET" "0xSTAKING" "0xSTAKED" "0xTRACKER" [].

(** Three positions with 5, 0 and 3 pending. *)
Definition three : Tools.Bonds :=
  [ ("0xA", mkEntry "A (1,1)" (DAO.mkBond "0xA") true);
    ("0xB", mkEntry "B (1,1)" (DAO.mkBond "0xB") true);
    ("0xC", mkEntry "C (1,1)" (DAO.mkBond "0xC") true) ].

Definition five_zero_three (b : address) : Z :=
  if String.eqb b "0xA" then 5 else if String.eqb b "0xC" then 3 else 0.

(** The total that the directly querying handler takes as a parameter,
    here the running sum of [Tools.checkBonds]. *)
Definition total (fuel : nat) (bonds : Tools.Bonds) (wallet : address) : prog Z :=
  Tools.checkBonds_each fuel bonds wallet false 0.

(** What the evaluation of a tick sees in these worlds. *)
Definition info12 : Tools.StakingInformation :=
  Tools.mkStakingInformation 12 998 1000 2 (7000000000 # 1000000000).

Definition seen : trace :=
  [ Called (helper_info "0xSTAKING" "0xSTAKED" "0xTRACKER" "0xWALLET");
    Called (pendingPayoutFor "0xBULK" "0xWALLET");
    Called (pendingPayoutFor "0xSUPP" "0xWALLET");
    Called wallet_getBalance ].

Definition x12 : IndexDirect.Evaluation := IndexDirect.mkEvaluation 12 2 8.

Definition seen_direct : trace :=
  [ Called provider_getBlockNumber;
    Called staking_epoch;
    Called stakedToken_circulatingSupply;
    Called timetracker_average;
    Called (pendingPayoutFor "0xBULK" "0xWALLET");
    Called (pendingPayoutFor "0xSUPP" "0xWALLET");
    Called wallet_getBalance ].

(** The submitted transaction is never confirmed. *)
Definition unconfirmed : World :=
  fun X h c =>
    match c in call X return settled X with
    | tx_wait _ _ => rejected "timeout exceeded"
    | c' => healthy both_pending _ h c'
    end.

(** The loop after one tick in the raced world. *)
Definition raced_after_one : trace * Bot :=
  run raced (Index.tick cfg_plain only_bulk 1) 1 [] start.

(** The loop after one tick in the healthy world. *)
Definition after_one : trace * Bot :=
  run (healthy both_pending) (Index.tick cfg bonds 1) 1 [] start.

(** One more tick after that. *)
Definition after_two : trace * Bot :=
  run (healthy both_pending) (Index.tick cfg bonds 1) 1 (fst after_one) (snd after_one).

Definition after_one_direct : trace * Bot :=
  run (healthy both_pending) (IndexDirect.tick cfg bonds (total 1)) 1 [] start.

End Scenario.

(** ** Vocabulary of the further properties *)

(** The positions whose payout was asked for, in order. *)
Fixpoint queried (ev : trace) : list address :=
  match ev with
  | [] => []
  | Called (pendingPayoutFor a _) :: rest => a :: queried rest
  | _ :: rest => queried rest
  end.

(** How often the information helper was asked. *)
Fixpoint info_calls (h : trace) : nat :=
  match h with
  | [] => O
  | Called (helper_info _ _ _ _) :: rest => S (info_calls rest)
  | _ :: rest => info_calls rest
  end.

(** A world whose payout queries may fail, but never lie: a query that
    resolves, resolves to [p]. *)
Definition payout_or_rejected (w : World) (p : address -> Z) : Prop :=
  forall h b a,
    w _ h (pendingPayoutFor b a) = resolved (p b) \/
    exists e, w _ h (pendingPayoutFor b a) = rejected e.

(** A [BigNumber] that [toNumber] accepts. *)
Definition safe (z : Z) : Prop := Z.abs z <= MAX_SAFE_INTEGER.

(** The numbers of an answer of the helper that [getLoopData] converts. *)
Definition all_safe (i : DAOInformationHelper.Info) : Prop :=
  safe (DAOInformationHelper.blockAverage i) /\
  safe (DAOInformationHelper.epochLength i) /\
  safe (DAOInformationHelper.epochDistribute i) /\
  safe (DAOInformationHelper.stakedCirculatingSupply i) /\
  safe (DAOInformationHelper.epochNumber i) /\
  safe (DAOInformationHelper.epochEndBlock i) /\
  safe (DAOInformationHelper.blockNumber i) /\
  safe (DAOInformationHelper.stakingIndex i).

(** What [getLoopData] makes of an answer of the helper. *)
Definition reported (i : DAOInformationHelper.Info) : Tools.StakingInformation :=
  Tools.mkStakingInformation
    (DAOInformationHelper.epochNumber i)
    (DAOInformationHelper.blockNumber i)
    (DAOInformationHelper.epochEndBlock i)
    (nearest_double
       (DAOInformationHelper.epochEndBlock i - DAOInformationHelper.blockNumber i))
    (formatUnits_gwei (DAOInformationHelper.stakingBalance i)).

Definition retry_line : event := Logged lvl_warn "Error pulling current data" [].

(** Two more worlds: nothing can be reached; everything but the balance of
    the wallet can. *)
Definition offline : World := fun X _ _ => rejected "network error".

Definition no_balance : World :=
  fun X h c =>
    match c in call X return settled X with
    | wallet_getBalance => rejected "missing response"
    | c' => Scenario.healthy Scenario.both_pending _ h c'
    end.

(** What [secondsToHuman] throws. *)
Definition RangeError : string := "RangeError: Invalid time value".

(** An answer of the helper with safe numbers whose difference is not a
    double: the epoch ends at block [2 ^ 53 - 1] and the chain is at
    block [- 2]. *)
Definition far_answer : DAOInformationHelper.Info :=
  DAOInformationHelper.mkInfo 1000000 6 200 500 1000000 12 9007199254740991 (-2)
    7000000000 1000000000 9.

Definition far_apart : World :=
  fun X h c =>
    match c in call X return settled X with
    | helper_info _ _ _ _ => resolved far_answer
    | c' => Scenario.healthy Scenario.both_pending _ h c'
    end.

(** [n] failed tries of the information helper, each followed by the
    warning. *)
Fixpoint failed_tries (c : call DAOInformationHelper.Info) (n : nat) : trace :=
  match n with
  | O => []
  | S n' => Called c :: retry_line :: failed_tries c n'
  end.

(** The helper is out of reach for its first two calls. *)
Definition flaky : World :=
  fun X h c =>
    match c in call X return settled X with
    | helper_info _ _ _ _ =>
        if (info_calls h <? 2)%nat then rejected "timeout"
        else resolved Scenario.helper_answer
    | c' => Scenario.healthy Scenario.both_pending _ h c'
    end.

(** Every payout query fails on the first try and is answered on the
    second, that is right after a warning. *)
Definition after_warning (h : trace) : bool :=
  match rev h with
  | Logged lvl_warn _ _ :: _ => true
  | _ => false
  end.

Definition shaky (p : address -> Z) : World :=
  fun X h c =>
    match c in call X return settled X with
    | pendingPayoutFor b _ =>
        if after_warning h then resolved (p b) else rejected "timeout"
    | c' => Scenario.healthy p _ h c'
    end.

(** An individual redeem, in favour of [wallet] and with staking, of a
    position that is listed and registered. *)
Definition individual_redeem (wallet : address) (bonds : Tools.Bonds)
    (additionalBonds : list address) (tx : transaction) : Prop :=
  exists a bd,
    In a additionalBonds /\
    Tools.getBond bonds a = Some bd /\
    tx = redeem (DAO.contract_address bd) wallet true.

(** A world whose scanner, asked for the contract at an address, answers
    with a contract at that address. *)
Definition loads_faithfully (w : World) : Prop :=
  forall h a bd, w _ h (load_contract a) = resolved bd -> DAO.contract_address bd = a.

(** A registry in step with the list of additional positions: one entry
    per key, each filed under the address of its own contract and marked
    for the bulk redeem exactly when that address is not listed. *)
Definition registry_of (additionalBonds : list address) (bonds : Tools.Bonds) : Prop :=
  NoDup (JsMap.keys bonds) /\
  forall k e, In (k, e) bonds ->
    k = DAO.contract_address (bond e) /\
    redeemHelper e = negb (includes additionalBonds k).

(** What the loop of [getBonds] keeps true of every entry it has filed:
    the contract is one that the scanner loaded for the key, and the entry
    is marked for the bulk redeem exactly when the address of that
    contract is not listed. *)
Definition filed (w : World) (additionalBonds : list address) (k : address)
    (e : BondEntry) : Prop :=
  redeemHelper e = negb (includes additionalBonds (DAO.contract_address (bond e))) /\
  exists h, w _ h (load_contract k) = resolved (bond e).

(** A world in which the epoch stands still: the helper answers [i] every
    time it is asked, and the balance of the bot wallet can be read. *)
Definition steady_epoch (w : World) (cfg : Config) (i : DAOInformationHelper.Info)
  : Prop :=
  (forall h, w _ h (helper_info (STAKING_CONTRACT cfg) (STAKED_TOKEN_CONTRACT cfg)
                      (BLOCK_TIME_TRACKER cfg) (myStakingWallet cfg)) = resolved i) /\
  (forall h, exists v, w _ h wallet_getBalance = resolved v).

(** The transactions that the redeem procedure sends when every one is
    confirmed: the bulk redeem, when the bulk-eligible total is positive,
    and the individual redemptions that are due. *)
Definition to_send (p : address -> Z) (cfg : Config) (bonds : Tools.Bonds)
  : list transaction :=
  (if 0 <? pending_total p true bonds
   then [redeemAll (myStakingWallet cfg) true] else [])
  ++ due p (myStakingWallet cfg) bonds (ADDITIONAL_BONDS cfg).

(** * Start-up

    What [index.ts] does before the loop: the constants it reads from the
    environment, the checks on them, and the wallet file. *)

Module Startup.

(** [process.env] *)
Definition Env : Type := string -> option string.

Definition setenv (env : Env) (name value : string) : Env :=
  fun n => if String.eqb n name then Some value else env n.

(** [process.env.X || fallback]: unset and empty both give the fallback. *)
Definition or_default (v : option string) (fallback : string) : string :=
  match v with
  | Some s => if (String.length s =? 0)%nat then fallback else s
  | None => fallback
  end.

(** [process.env.X || undefined] *)
Definition or_undefined (v : option string) : option string :=
  match v with
  | Some s => if (String.length s =? 0)%nat then None else Some s
  | None => None
  end.

Record Settings : Type := mkSettings
  { DAO_INFORMATION_HELPER : string;
    myStakingWallet : option string;
    defaultWalletFilename : string;
    defaultWalletPassword : string;
    ftmScanAPIKey : option string;
    BOND_INFORMATION_HELPER : string;
    BLOCK_TIME_TRACKER : string;
    STAKED_TOKEN_CONTRACT : string;
    STAKING_CONTRACT : string;
    REDEEM_HELPER : string;
    TOKEN_SYMBOL : string;
    STAKED_TOKEN_SYMBOL : string;
    ADDITIONAL_BONDS : list string }.

Definition settings (env : Env) : Settings :=
  mkSettings
    (or_default (env "DAO_INFORMATION_HELPER") "0x260A5367c0e742a1fdE32cDB13973F67c92149Ed")
    (or_undefined (env "DAO_WALLET_ADDRESS"))
    (or_default (env "BOT_WALLET_FILENAME") "token.wallet")
    (or_default (env "BOT_WALLET_PASSWORD") "")
    (or_undefined (env "FTM_SCAN_API_KEY"))
    (or_default (env "BOND_INFORMATION_HELPER") "0xd915Aff2F6AFB96F4d8765C663b60c8a5AdC6729")
    (or_default (env "BLOCK_TIME_TRACKER") "0x706e05D2b47cc6B1fb615EE76DD3789d2329E22e")
    (or_default (env "STAKED_TOKEN_CONTARCT") "0x8de250c65636ef02a75e4999890c91cecd38d03d")
    (or_default (env "STAKING_CONTRACT") "0x8b8d40f98a2f14e2dd972b3f2e2a2cc227d1e3be")
    (or_default (env "REDEEM_HELPER") "0x9d1530475b6282bd92da5628e36052f70c56a208")
    (or_default (env "TOKEN_SYMBOL") "EXOD")
    (or_default (env "STAKED_TOKEN_SYMBOL") "sEXOD")
    [].

Definition no_wallet_lines : trace :=
  [ Logged lvl_error Tools.rule [];
    Logged lvl_error
      "You did not specify the staking wallet address in the DAO_WALLET_ADDRESS " [];
    Logged lvl_error "environment variable or in a .env file." [];
    Logged lvl_error
      "This must be done via: EXPORT DAO_WALLET_ADDRESS=<walletaddress> before starting" [];
    Logged lvl_error Tools.rule [] ].

Definition no_password_lines : trace :=
  [ Logged lvl_error Tools.rule [];
    Logged lvl_error
      "You did not specify a bot service wallet password in the BOT_WALLET_PASSWORD " [];
    Logged lvl_error "environment variable or in a .env file." [];
    Logged lvl_error "This is probably not a good idea..." [];
    Logged lvl_error Tools.rule [] ].

Definition no_key_lines : trace :=
  [ Logged lvl_warn Tools.rule [];
    Logged lvl_warn
      "You are using a community FTMscan API key. Please consider getting your own " [];
    Logged lvl_warn "API key from https://ftmscan.com/" [];
    Logged lvl_warn
      "Once you have that API key, you can export it as FTM_SCAN_API_KEY=<apikey>" [];
    Logged lvl_warn Tools.rule [] ].

(** The three checks at the top of the file.  [None] is [process.exit(1)];
    otherwise the constants that the loop works with. *)
Definition preflight (s : Settings) : trace * option Config :=
  match myStakingWallet s with
  | None => (no_wallet_lines, None)
  | Some wallet =>
      ((if (String.length (defaultWalletPassword s) =? 0)%nat
        then no_password_lines else [])
       ++ (match ftmScanAPIKey s with
           | None => no_key_lines
           | Some _ => []
           end),
       Some (mkConfig wallet (STAKING_CONTRACT s) (STAKED_TOKEN_CONTRACT s)
               (BLOCK_TIME_TRACKER s) (ADDITIONAL_BONDS s)))
  end.

(** ** [loadWallet] *)

(** An [ethers.Wallet], as far as the bot looks at it. *)
Record Wallet : Type := mkWallet
  { wallet_address : string;
    privateKey : string }.

(** The files of the working directory, by resolved path. *)
Definition Disk : Type := string -> option string.

Definition writeFileSync (d : Disk) (file data : string) : Disk :=
  fun f => if String.eqb f file then Some data else d f.

Section LoadWallet.
(** [Tools.path], which resolves against the working directory. *)
Variable path : string -> string.
(** The wallet that [ethers.Wallet.createRandom] comes up with. *)
Variable createRandom : Wallet.
Variable encrypt : Wallet -> string -> settled string.
Variable fromEncryptedJson : string -> string -> settled Wallet.
Variable s : Settings.

Definition save (wallet : Wallet) (d : Disk) : settled unit * Disk :=
  match encrypt wallet (defaultWalletPassword s) with
  | inl e => (rejected e, d)
  | inr json => (resolved tt, writeFileSync d (path (defaultWalletFilename s)) json)
  end.

Definition loadWallet (d : Disk) : settled Wallet * Disk * trace :=
  match d (path (defaultWalletFilename s)) with
  | None =>
      let wallet := createRandom in
      let line := Logged lvl_info "Created new wallet: %s" [str (wallet_address wallet)] in
      match save wallet d with
      | (inl e, d') => (rejected e, d', [line])
      | (inr _, d') => (resolved wallet, d', [line])
      end
  | Some file =>
      match fromEncryptedJson file (defaultWalletPassword s) with
      | inl e => (rejected e, d, [])
      | inr wallet =>
          (resolved wallet, d,
           [ Logged lvl_info "Wallet loaded from: %s" [str (path (defaultWalletFilename s))];
             Logged lvl_info "Wallet address: %s" [str (wallet_address wallet)] ])
      end
  end.
End LoadWallet.

End Startup.

(** A start on an empty disk, with a keystore that handles the one wallet
    0xBOT. *)
Module StartupScenario.

Definition env : Startup.Env :=
  Startup.setenv (fun _ => None) "DAO_WALLET_ADDRESS" "0xWALLET".

Definition path (value : string) : string := ("/home/bot/" ++ value)%string.

Definition bot_wallet : Startup.Wallet := Startup.mkWallet "0xBOT" "key".

Definition encrypt (wallet : Startup.Wallet) (password : string) : settled string :=
  if String.eqb (Startup.wallet_address wallet) "0xBOT"
  then resolved (Startup.privateKey wallet)
  else rejected "unsupported".

Definition fromEncryptedJson (json password : string) : settled Startup.Wallet :=
  resolved (Startup.mkWallet "0xBOT" json).

Definition empty_disk : Startup.Disk := fun _ => None.

(** The constants that the loop works with after this start. *)
Definition cfg : Config :=
  mkConfig "0xWALLET" "0x8b8d40f98a2f14e2dd972b3f2e2a2cc227d1e3be"
    "0x8de250c65636ef02a75e4999890c91cecd38d03d"
    "0x706e05D2b47cc6B1fb615EE76DD3789d2329E22e" [].

End StartupScenario.

(** * The timer and the handlers in flight

    [timer.on('tick', async () => ...)]: the timer emits a tick every
    minute unless it is paused, and it does not wait for the promise of
    the handler.  A handler that is still awaiting an answer when the
    next tick comes is joined by a second one, and the two share the
    ledger and the timer.  Between two awaits a handler runs alone; the
    timer is paused only by the handler that has found the trigger
    satisfied.  [step] and [run] above are the schedule in which every
    handler has ended when the next tick comes. *)

Module Timer.

(** The synchronous part of a program: what it logs before it awaits a
    call or ends, and what is left of it then. *)
Fixpoint sync {A : Type} (p : prog A) : trace * prog A :=
  match p with
  | Log l format args k =>
      let (ev, p') := sync k in (Logged l format args :: ev, p')
  | _ => ([], p)
  end.

(** A handler in flight: awaiting its status report, or inside the [try]
    block, awaiting [Tools.redeemBonds]. *)
Inductive task : Type :=
| Reporting (p : prog (Tools.StakingInformation * Q))
| Redeeming (info : Tools.StakingInformation)
            (p : prog (list ethers.ContractReceipt)).

Record System : Type := mkSystem
  { history : trace;
    bot : Bot;
    flight : list task }.

Inductive move : Type :=
| Tick                (* the timer emits a tick *)
| Answer (n : nat).   (* the call that handler [n] in flight awaits settles *)

Definition in_flight (t : option task) : list task :=
  match t with
  | Some t' => [t']
  | None => []
  end.

Section Handler.
Variable w : World.
Variable cfg : Config.
Variable bonds : Tools.Bonds.
Variable fuel : nat.

(** Inside the [try] block, up to the next await.  When [redeemBonds] has
    returned, the receipts are recorded in the ledger as it is now; when
    it has thrown, the error is logged; either way the timer is toggled
    and the handler ends. *)
Definition land_redeeming (h : trace) (b : Bot) (info : Tools.StakingInformation)
    (p : prog (list ethers.ContractReceipt)) : trace * Bot * option task :=
  let (ev, p') := sync p in
  match p' with
  | Ret receipts =>
      match exec w (h ++ ev) (Index.record (Tools.epochNumber info) receipts b) with
      | (Done b', ev') => ((h ++ ev) ++ ev', toggle b', None)
      | (_, ev') => ((h ++ ev) ++ ev', toggle b, None)
      end
  | Throw e => ((h ++ ev) ++ [error_line e], toggle b, None)
  | _ => (h ++ ev, b, Some (Redeeming info p'))
  end.

(** The status report, up to the next await.  When it is complete the
    trigger is tested against the ledger as it is now; a handler that
    finds it satisfied toggles the timer and enters the [try] block, any
    other ends.  A report that throws ends the handler. *)
Definition land_reporting (h : trace) (b : Bot)
    (p : prog (Tools.StakingInformation * Q)) : trace * Bot * option task :=
  let (ev, p') := sync p in
  match p' with
  | Ret x =>
      if Index.trigger (fst x) (snd x) b
      then land_redeeming ((h ++ ev) ++ [trigger_line]) (toggle b) (fst x)
             (Tools.redeemBonds fuel (myStakingWallet cfg) bonds (ADDITIONAL_BONDS cfg))
      else (h ++ ev, b, None)
  | Throw _ => (h ++ ev, b, None)
  | _ => (h ++ ev, b, Some (Reporting p'))
  end.

(** The call that a handler awaits settles, as the world has it after
    everything seen so far, and the handler runs on. *)
Definition resume (h : trace) (b : Bot) (t : task) : trace * Bot * option task :=
  match t with
  | Reporting (Await c k) => land_reporting (h ++ [Called c]) b (k (w _ h c))
  | Redeeming info (Await c k) => land_redeeming (h ++ [Called c]) b info (k (w _ h c))
  | _ => (h, b, Some t)
  end.

Definition play1 (s : System) (m : move) : System :=
  match m with
  | Tick =>
      if paused (bot s) then s
      else
        let '(h, b, t) :=
          land_reporting (history s) (bot s) (Index.evaluate cfg bonds fuel) in
        mkSystem h b (flight s ++ in_flight t)
  | Answer n =>
      match nth_error (flight s) n with
      | Some t =>
          let '(h, b, t') := resume (history s) (bot s) t in
          mkSystem h b (firstn n (flight s) ++ in_flight t' ++ skipn (S n) (flight s))
      | None => s
      end
  end.

Definition play (s : System) (ms : list move) : System := fold_left play1 ms s.

(** A schedule in which every tick finds no handler in flight. *)
Fixpoint orderly (s : System) (ms : list move) : bool :=
  match ms with
  | [] => true
  | Tick :: rest =>
      match flight s with
      | [] => orderly (play1 s Tick) rest
      | _ :: _ => false
      end
  | Answer n :: rest => orderly (play1 s (Answer n)) rest
  end.

(** What is left of a handler, as a program of its own: for comparing a
    handler that runs undisturbed with [Index.tick]. *)
Definition after_report (b : Bot) (p : prog (Tools.StakingInformation * Q)) : prog Bot :=
  x <- p ;;
  if Index.trigger (fst x) (snd x) b then Index.act cfg bonds fuel (fst x) b else Ret b.

Definition after_redeem (b : Bot) (info : Tools.StakingInformation)
    (p : prog (list ethers.ContractReceipt)) : prog Bot :=
  b' <- try_catch (receipts <- p ;; Index.record (Tools.epochNumber info) receipts b)
          (fun e => log lvl_error "Error redeeming & staking bonds: %s" [str e] ;;; Ret b) ;;
  Ret (toggle b').

Definition alone (h : trace) (b : Bot) (t : task) : outcome Bot * trace :=
  match t with
  | Reporting p => exec w h (after_report b p)
  | Redeeming info p => exec w h (after_redeem b info p)
  end.

(** Where a handler that ran undisturbed has left the loop, if it has
    ended: as [step] has it. *)
Definition final (h : trace) (b : Bot) (r : outcome Bot * trace) : option (trace * Bot) :=
  match r with
  | (Done b', ev) => Some (h ++ ev, b')
  | (Thrown _, ev) => Some (h ++ ev, b)
  | (Stalled, _) => None
  end.

Definition ending (x : trace * Bot * option task) : option (trace * Bot) :=
  let '(h, b, t) := x in
  match t with
  | None => Some (h, b)
  | Some t' => final h b (alone h b t')
  end.

(** No handler is in flight and the loop is at [q]; or one handler is, it
    was started at [q], and nothing else has happened since. *)
Definition undisturbed (s : System) (q : trace * Bot) : Prop :=
  match flight s with
  | [] => (history s, bot s) = q
  | [t] =>
      ending (history s, bot s, Some t)
      = final (fst q) (snd q) (exec w (fst q) (Index.tick cfg bonds fuel (snd q)))
  | _ => False
  end.
End Handler.

End Timer.

(** Two ticks in a row, each handler answered in turn: the second handler
    tests the trigger before the first has recorded the epoch. *)
Module Overlap.

(** Payouts as on the chain: 5 pending until a bulk redeem has been
    executed, nothing after. *)
Definition settling : World :=
  fun X h c =>
    match c in call X return settled X with
    | pendingPayoutFor _ _ =>
        match executed h with
        | [] => resolved 5
        | _ :: _ => resolved 0
        end
    | c' => Scenario.healthy Scenario.both_pending _ h c'
    end.

Definition begin : Timer.System := Timer.mkSystem [] start [].

Definition overlapping : list Timer.move :=
  [ Timer.Tick; Timer.Tick;
    Timer.Answer 0; Timer.Answer 0; Timer.Answer 0;
    Timer.Answer 1; Timer.Answer 1; Timer.Answer 1;
    Timer.Answer 0; Timer.Answer 1;
    Timer.Answer 0; Timer.Answer 0 ].

Definition one_by_one : list Timer.move :=
  [ Timer.Tick;
    Timer.Answer 0; Timer.Answer 0; Timer.Answer 0; Timer.Answer 0; Timer.Answer 0;
    Timer.Tick;
    Timer.Answer 0; Timer.Answer 0; Timer.Answer 0 ].

End Overlap.

(** Redeeming once per epoch whatever the schedule: what the loop would
    guarantee if a second handler could not get in the way. *)
Definition once_in_any_schedule : Prop :=
  forall (w : World) p rc cfg bonds fuel i s ms,
    steady_epoch w cfg i ->
    all_safe i ->
    answers_payout w p ->
    (forall a, 0 <= p a) ->
    confirms w rc ->
    registry_of (ADDITIONAL_BONDS cfg) bonds ->
    -8640000000000 <= Tools.delta (reported i) <= 300 ->
    0 < pending_total p false bonds ->
    JsMap.has Z.eqb (epochs (Timer.bot s)) (Tools.epochNumber (reported i)) = false ->
    Timer.flight s = [] ->
    Timer.flight (Timer.play w cfg bonds (S fuel) s ms) = [] ->
    executed (Timer.history (Timer.play w cfg bonds (S fuel) s ms))
    = executed (Timer.history s) \/
    executed (Timer.history (Timer.play w cfg bonds (S fuel) s ms))
    = executed (Timer.history s) ++ to_send p cfg bonds.

(** * Properties *)

(** ** The map *)

Section JsMapFacts.
Context {K V : Type}.
Variable eqb : K -> K -> bool.
Hypothesis eqb_spec : forall x y, reflect (x = y) (eqb x y).

Lemma get_set (m : JsMap.t) (k k' : K) (v : V) :
  JsMap.get eqb (JsMap.set eqb m k v) k' =
  if eqb k k' then Some v else JsMap.get eqb m k'.
Proof.
  induction m as [|[k0 v0] rest IH]; simpl.
  - reflexivity.
  - destruct (eqb_spec k0 k) as [->|Hne]; simpl.
    + destruct (eqb_spec k k'); reflexivity.
    + destruct (eqb_spec k0 k') as [->|Hne'].
      * destruct (eqb_spec k k'); [congruence | reflexivity].
      * exact IH.
Qed.

Lemma has_set (m : JsMap.t) (k k' : K) (v : V) :
  JsMap.has eqb (JsMap.set eqb m k v) k' = eqb k k' || JsMap.has eqb m k'.
Proof.
  unfold JsMap.has. rewrite get_set. destruct (eqb k k'); reflexivity.
Qed.

Lemma has_In_keys (m : JsMap.t (V := V)) (k : K) :
  JsMap.has eqb m k = true <-> In k (JsMap.keys m).
Proof.
  unfold JsMap.has.
  induction m as [|[k0 v0] rest IH]; simpl.
  - split; [discriminate | contradiction].
  - destruct (eqb_spec k0 k) as [->|Hne].
    + split; auto.
    + rewrite IH. split; [auto | intros [?|?]; [contradiction | assumption]].
Qed.

Lemma keys_set (m : JsMap.t) (k : K) (v : V) :
  JsMap.keys (JsMap.set eqb m k v) =
  if JsMap.has eqb m k then JsMap.keys m else JsMap.keys m ++ [k].
Proof.
  unfold JsMap.has.
  induction m as [|[k0 v0] rest IH]; simpl.
  - reflexivity.
  - destruct (eqb_spec k0 k) as [->|Hne]; simpl.
    + reflexivity.
    + rewrite IH. destruct (JsMap.get eqb rest k); reflexivity.
Qed.

(** [set] never creates a second entry for a key. *)
Lemma NoDup_keys_set (m : JsMap.t) (k : K) (v : V) :
  NoDup (JsMap.keys m) -> NoDup (JsMap.keys (JsMap.set eqb m k v)).
Proof.
  intros Hnd. rewrite keys_set.
  destruct (JsMap.has eqb m k) eqn:Hhas; [assumption|].
  apply NoDup_app; [assumption | repeat constructor; simpl; tauto |].
  intros x Hx [<-|[]]. apply has_In_keys in Hx. congruence.
Qed.
End JsMapFacts.

(** ** Running programs *)

Lemma exec_bind {A B : Type} (w : World) (p : prog A) (f : A -> prog B) (h : trace) :
  exec w h (bind p f) =
  match exec w h p with
  | (Done a, ev) => let (o, ev') := exec w (h ++ ev) (f a) in (o, ev ++ ev')
  | (Thrown e, ev) => (Thrown e, ev)
  | (Stalled, ev) => (Stalled, ev)
  end.
Proof.
  revert h. induction p as [a|e| |X c k IH|l s args k IH]; intros h; simpl.
  - rewrite app_nil_r. destruct (exec w h (f a)); reflexivity.
  - reflexivity.
  - reflexivity.
  - rewrite IH. destruct (exec w (h ++ [Called c]) (k (w X h c))) as [[a|e|] ev].
    + rewrite <- app_assoc. simpl.
      destruct (exec w (h ++ Called c :: ev) (f a)); reflexivity.
    + reflexivity.
    + reflexivity.
  - rewrite IH. destruct (exec w (h ++ [Logged l s args]) k) as [[a|e|] ev].
    + rewrite <- app_assoc. simpl.
      destruct (exec w (h ++ Logged l s args :: ev) (f a)); reflexivity.
    + reflexivity.
    + reflexivity.
Qed.

Lemma exec_try_catch {A : Type} (w : World) (p : prog A) (handler : string -> prog A)
    (h : trace) :
  exec w h (try_catch p handler) =
  match exec w h p with
  | (Done a, ev) => (Done a, ev)
  | (Thrown e, ev) => let (o, ev') := exec w (h ++ ev) (handler e) in (o, ev ++ ev')
  | (Stalled, ev) => (Stalled, ev)
  end.
Proof.
  revert h. induction p as [a|e| |X c k IH|l s args k IH]; intros h; simpl.
  - reflexivity.
  - rewrite app_nil_r. destruct (exec w h (handler e)); reflexivity.
  - reflexivity.
  - rewrite IH. destruct (exec w (h ++ [Called c]) (k (w X h c))) as [[a|e|] ev].
    + reflexivity.
    + rewrite <- app_assoc. simpl.
      destruct (exec w (h ++ Called c :: ev) (handler e)); reflexivity.
    + reflexivity.
  - rewrite IH. destruct (exec w (h ++ [Logged l s args]) k) as [[a|e|] ev].
    + reflexivity.
    + rewrite <- app_assoc. simpl.
      destruct (exec w (h ++ Logged l s args :: ev) (handler e)); reflexivity.
    + reflexivity.
Qed.

Lemma executed_app (ev1 ev2 : trace) :
  executed (ev1 ++ ev2) = executed ev1 ++ executed ev2.
Proof.
  induction ev1 as [|e rest IH]; simpl.
  - reflexivity.
  - destruct e as [X c|l s args]; [destruct c|]; simpl; rewrite ?IH; reflexivity.
Qed.

Lemma toggle_toggle (b : Bot) : toggle (toggle b) = b.
Proof. destruct b as [m p]. unfold toggle. simpl. rewrite negb_involutive. reflexivity. Qed.

(** ** The ledger along the loop *)

Lemma ledger_grows_refl (b : Bot) : ledger_grows b b.
Proof. split; auto. Qed.

Lemma ledger_grows_trans (b1 b2 b3 : Bot) :
  ledger_grows b1 b2 -> ledger_grows b2 b3 -> ledger_grows b1 b3.
Proof. intros [H1 H2] [H3 H4]. split; auto. Qed.

Lemma ledger_grows_set (b : Bot) (e block : Z) :
  ledger_grows b (set_epoch b e block).
Proof.
  split; simpl.
  - intros k Hk. rewrite (has_set Z.eqb Z.eqb_spec), Hk. apply orb_true_r.
  - apply (NoDup_keys_set Z.eqb Z.eqb_spec).
Qed.

Lemma ledger_grows_toggle (b : Bot) : ledger_grows b (toggle b).
Proof. split; auto. Qed.

Lemma has_set_epoch (b : Bot) (e block : Z) :
  JsMap.has Z.eqb (epochs (set_epoch b e block)) e = true.
Proof. simpl. rewrite (has_set Z.eqb Z.eqb_spec), Z.eqb_refl. reflexivity. Qed.

Section LoopFacts.
Variable w : World.
Variable handler : Bot -> prog Bot.
Hypothesis handler_grows :
  forall h b b' ev, exec w h (handler b) = (Done b', ev) -> ledger_grows b b'.

Lemma step_grows (s s' : trace * Bot) :
  step w handler s s' -> ledger_grows (snd s) (snd s').
Proof.
  intros Hstep. destruct Hstep as [h b b' ev Hex|h b e ev Hex]; simpl.
  - exact (handler_grows _ _ _ _ Hex).
  - apply ledger_grows_refl.
Qed.

Lemma steps_grow (s s' : trace * Bot) :
  steps w handler s s' -> ledger_grows (snd s) (snd s').
Proof.
  induction 1 as [s|s1 s2 s3 Hstep _ IH].
  - apply ledger_grows_refl.
  - eapply ledger_grows_trans; [apply step_grows; eassumption | exact IH].
Qed.

Lemma reachable_NoDup (s : trace * Bot) :
  reachable w handler s -> NoDup (JsMap.keys (epochs (snd s))).
Proof.
  intros Hr. apply steps_grow in Hr. destruct Hr as [_ Hnd].
  apply Hnd. constructor.
Qed.
End LoopFacts.

Lemma steps_trans (w : World) (handler : Bot -> prog Bot) (s1 s2 s3 : trace * Bot) :
  steps w handler s1 s2 -> steps w handler s2 s3 -> steps w handler s1 s3.
Proof.
  induction 1 as [s|s1 s2 s2' Hstep _ IH]; intros H23.
  - exact H23.
  - eapply steps_next; [exact Hstep | exact (IH H23)].
Qed.

Lemma run_steps (w : World) (handler : Bot -> prog Bot) (n : nat) (h : trace) (b : Bot) :
  steps w handler (h, b) (run w handler n h b).
Proof.
  revert h b. induction n as [|n IH]; intros h b; simpl.
  - constructor.
  - destruct (exec w h (handler b)) as [[b'|e|] ev] eqn:Hex.
    + eapply steps_next; [apply step_done; exact Hex | apply IH].
    + eapply steps_next; [eapply step_thrown; exact Hex | apply IH].
    + constructor.
Qed.

(** ** The handler built on [Tools] *)

Section IndexFacts.
Variable cfg : Config.
Variable bonds : Tools.Bonds.
Variable fuel : nat.
Variable w : World.

Lemma record_done (e : Z) (rs : list ethers.ContractReceipt) :
  forall (h : trace) (b : Bot),
  exists b' ev,
    exec w h (Index.record e rs b) = (Done b', ev) /\
    ledger_grows b b' /\
    paused b' = paused b /\
    (rs = [] -> b' = b) /\
    (rs <> [] ->
     exists r, In r rs /\
               JsMap.get Z.eqb (epochs b') e = Some (ethers.blockNumber r)) /\
    (forall k, JsMap.has Z.eqb (epochs b') k = true ->
               JsMap.has Z.eqb (epochs b) k = true \/ (k = e /\ rs <> [])).
Proof.
  induction rs as [|r rest IH]; intros h b.
  - exists b, []. simpl. repeat split; auto using ledger_grows_refl.
    intros H; contradiction.
  - simpl.
    set (line := Logged lvl_info "Redeemed & Staked via %s in block %s"
                   [str (ethers.transactionHash r); num (ethers.blockNumber r)]).
    set (b1 := set_epoch b e (ethers.blockNumber r)).
    destruct (IH (h ++ [line]) b1) as (b' & ev & Hex & Hgrow & Hp & Hnil & Hcons & Hback).
    exists b', (line :: ev). rewrite Hex.
    split; [reflexivity|].
    split; [eapply ledger_grows_trans; [apply ledger_grows_set | exact Hgrow]|].
    split; [rewrite Hp; reflexivity|].
    split; [discriminate|].
    split.
    + intros _. destruct rest as [|r' rest'].
      * exists r. split; [left; reflexivity|].
        rewrite (Hnil eq_refl). unfold b1. simpl.
        rewrite (get_set Z.eqb Z.eqb_spec), Z.eqb_refl. reflexivity.
      * destruct Hcons as (r0 & Hin & Hget); [discriminate|].
        exists r0. split; [right; exact Hin | exact Hget].
    + intros k Hk. destruct (Hback k Hk) as [Hb1|[-> _]].
      * unfold b1 in Hb1. simpl in Hb1.
        rewrite (has_set Z.eqb Z.eqb_spec) in Hb1.
        destruct (Z.eqb_spec e k) as [->|Hne].
        -- right. split; [reflexivity | discriminate].
        -- left. exact Hb1.
      * right. split; [reflexivity | discriminate].
Qed.

Lemma tick_exec (h : trace) (b : Bot) :
  exec w h (Index.tick cfg bonds fuel b) =
  match exec w h (Index.evaluate cfg bonds fuel) with
  | (Done x, ev) =>
      if Index.trigger (fst x) (snd x) b
      then let (o, ev') := exec w (h ++ ev) (Index.act cfg bonds fuel (fst x) b) in
           (o, ev ++ ev')
      else (Done b, ev)
  | (Thrown e, ev) => (Thrown e, ev)
  | (Stalled, ev) => (Stalled, ev)
  end.
Proof.
  unfold Index.tick. rewrite exec_bind.
  destruct (exec w h (Index.evaluate cfg bonds fuel)) as [[x|e|] ev]; try reflexivity.
  destruct (Index.trigger (fst x) (snd x) b); [reflexivity|].
  simpl. rewrite app_nil_r. reflexivity.
Qed.

Lemma act_exec (h : trace) (info : Tools.StakingInformation) (b : Bot) :
  exec w h (Index.act cfg bonds fuel info b) =
  match exec w (h ++ [trigger_line])
             (Index.redeem_and_record cfg bonds fuel info (toggle b)) with
  | (Done b1, ev) => (Done (toggle b1), trigger_line :: ev)
  | (Thrown e, ev) => (Done b, trigger_line :: ev ++ [error_line e])
  | (Stalled, ev) => (Stalled, trigger_line :: ev)
  end.
Proof.
  unfold Index.act. cbn [log bind exec]. fold trigger_line.
  rewrite exec_bind, exec_try_catch.
  destruct (exec w (h ++ [trigger_line])
              (Index.redeem_and_record cfg bonds fuel info (toggle b)))
    as [[b1|e|] ev]; cbn [log bind exec].
  - rewrite app_nil_r. reflexivity.
  - rewrite toggle_toggle. rewrite app_nil_r. reflexivity.
  - reflexivity.
Qed.

Section Triggered.
Variables (h : trace) (b : Bot) (info : Tools.StakingInformation) (payout : Q).
Variable ev : trace.
Hypothesis evaluated :
  exec w h (Index.evaluate cfg bonds fuel) = (Done (info, payout), ev).

Lemma tick_not_triggered :
  Index.trigger info payout b = false ->
  exec w h (Index.tick cfg bonds fuel b) = (Done b, ev).
Proof.
  intros Hno. rewrite tick_exec, evaluated. cbn [fst snd]. rewrite Hno. reflexivity.
Qed.

Hypothesis triggered : Index.trigger info payout b = true.

Lemma tick_redeem_done (rs : list ethers.ContractReceipt) (ev2 : trace) :
  exec w ((h ++ ev) ++ [trigger_line])
       (Tools.redeemBonds fuel (myStakingWallet cfg) bonds (ADDITIONAL_BONDS cfg))
  = (Done rs, ev2) ->
  exists b' ev3,
    exec w h (Index.tick cfg bonds fuel b) =
      (Done b', ev ++ trigger_line :: ev2 ++ ev3) /\
    ledger_grows b b' /\
    paused b' = paused b /\
    (rs = [] -> b' = b) /\
    (rs <> [] ->
     exists r, In r rs /\
               JsMap.get Z.eqb (epochs b') (Tools.epochNumber info)
               = Some (ethers.blockNumber r)) /\
    (forall k, JsMap.has Z.eqb (epochs b') k = true ->
               JsMap.has Z.eqb (epochs b) k = true \/
               (k = Tools.epochNumber info /\ rs <> [])).
Proof.
  intros Hred. rewrite tick_exec, evaluated. cbn [fst snd]. rewrite triggered.
  rewrite act_exec. unfold Index.redeem_and_record. rewrite exec_bind.
  rewrite Hred.
  destruct (record_done (Tools.epochNumber info) rs
              (((h ++ ev) ++ [trigger_line]) ++ ev2) (toggle b))
    as (b1 & ev3 & Hex & Hgrow & Hp & Hnil & Hcons & Hback).
  rewrite Hex. exists (toggle b1), ev3.
  split; [reflexivity|].
  split; [eapply ledger_grows_trans;
          [apply ledger_grows_toggle
          |eapply ledger_grows_trans; [exact Hgrow | apply ledger_grows_toggle]]|].
  split; [simpl; rewrite Hp; simpl; apply negb_involutive|].
  split; [intros Hrs; rewrite (Hnil Hrs); apply toggle_toggle|].
  split; assumption.
Qed.

Lemma tick_redeem_thrown (e : string) (ev2 : trace) :
  exec w ((h ++ ev) ++ [trigger_line])
       (Tools.redeemBonds fuel (myStakingWallet cfg) bonds (ADDITIONAL_BONDS cfg))
  = (Thrown e, ev2) ->
  exec w h (Index.tick cfg bonds fuel b) =
    (Done b, ev ++ trigger_line :: ev2 ++ [error_line e]).
Proof.
  intros Hred. rewrite tick_exec, evaluated. cbn [fst snd]. rewrite triggered.
  rewrite act_exec. unfold Index.redeem_and_record. rewrite exec_bind.
  rewrite Hred. reflexivity.
Qed.

Lemma tick_redeem_stalled (ev2 : trace) :
  exec w ((h ++ ev) ++ [trigger_line])
       (Tools.redeemBonds fuel (myStakingWallet cfg) bonds (ADDITIONAL_BONDS cfg))
  = (Stalled, ev2) ->
  exec w h (Index.tick cfg bonds fuel b) = (Stalled, ev ++ trigger_line :: ev2).
Proof.
  intros Hred. rewrite tick_exec, evaluated. cbn [fst snd]. rewrite triggered.
  rewrite act_exec. unfold Index.redeem_and_record. rewrite exec_bind.
  rewrite Hred. reflexivity.
Qed.
End Triggered.

Lemma tick_grows (h : trace) (b b' : Bot) (ev : trace) :
  exec w h (Index.tick cfg bonds fuel b) = (Done b', ev) -> ledger_grows b b'.
Proof.
  intros Hex.
  destruct (exec w h (Index.evaluate cfg bonds fuel)) as [[[info payout]|e|] ev1] eqn:Hev.
  - destruct (Index.trigger info payout b) eqn:Htr.
    + destruct (exec w ((h ++ ev1) ++ [trigger_line])
                  (Tools.redeemBonds fuel (myStakingWallet cfg) bonds
                     (ADDITIONAL_BONDS cfg)))
        as [[rs|e|] ev2] eqn:Hred.
      * destruct (tick_redeem_done h b info payout ev1 Hev Htr rs ev2 Hred)
          as (b1 & ev3 & Hex1 & Hgrow & _).
        rewrite Hex1 in Hex. injection Hex as <- _. exact Hgrow.
      * rewrite (tick_redeem_thrown h b info payout ev1 Hev Htr e ev2 Hred) in Hex.
        injection Hex as <- _. apply ledger_grows_refl.
      * rewrite (tick_redeem_stalled h b info payout ev1 Hev Htr ev2 Hred) in Hex.
        discriminate.
    + rewrite (tick_not_triggered h b info payout ev1 Hev Htr) in Hex.
      injection Hex as <- _. apply ledger_grows_refl.
  - rewrite tick_exec, Hev in Hex. discriminate.
  - rewrite tick_exec, Hev in Hex. discriminate.
Qed.
End IndexFacts.

(** ** The handler that redeems directly *)

Section DirectFacts.
Variable cfg : Config.
Variable bonds : Tools.Bonds.
Variable checkBonds : Tools.Bonds -> address -> prog Z.
Variable w : World.

Lemma direct_tick_exec (h : trace) (b : Bot) :
  exec w h (IndexDirect.tick cfg bonds checkBonds b) =
  match exec w h (IndexDirect.evaluate cfg bonds checkBonds) with
  | (Done x, ev) =>
      if IndexDirect.trigger x b
      then let (o, ev') := exec w (h ++ ev) (IndexDirect.act cfg x b) in
           (o, ev ++ ev')
      else (Done b, ev)
  | (Thrown e, ev) => (Thrown e, ev)
  | (Stalled, ev) => (Stalled, ev)
  end.
Proof.
  unfold IndexDirect.tick. rewrite exec_bind.
  destruct (exec w h (IndexDirect.evaluate cfg bonds checkBonds)) as [[x|e|] ev];
    try reflexivity.
  destruct (IndexDirect.trigger x b); [reflexivity|].
  simpl. rewrite app_nil_r. reflexivity.
Qed.

Lemma direct_act_exec (h : trace) (x : IndexDirect.Evaluation) (b : Bot) :
  exec w h (IndexDirect.act cfg x b) =
  match exec w (h ++ [trigger_line]) (IndexDirect.redeem_and_record cfg x (toggle b)) with
  | (Done b1, ev) => (Done (toggle b1), trigger_line :: ev)
  | (Thrown _, ev) => (Done b, trigger_line :: ev)
  | (Stalled, ev) => (Stalled, trigger_line :: ev)
  end.
Proof.
  unfold IndexDirect.act. cbn [log bind exec]. fold trigger_line.
  rewrite exec_bind, exec_try_catch.
  destruct (exec w (h ++ [trigger_line]) (IndexDirect.redeem_and_record cfg x (toggle b)))
    as [[b1|e|] ev]; cbn [log bind exec].
  - rewrite app_nil_r. reflexivity.
  - rewrite toggle_toggle. rewrite !app_nil_r. reflexivity.
  - reflexivity.
Qed.

(** The [try] block ends normally only with the epoch recorded at the
    block of the receipt. *)
Lemma direct_record_done (h : trace) (x : IndexDirect.Evaluation) (b b1 : Bot)
    (ev : trace) :
  exec w h (IndexDirect.redeem_and_record cfg x b) = (Done b1, ev) ->
  exists receipt,
    b1 = set_epoch b (IndexDirect.epochNumber x) (ethers.blockNumber receipt).
Proof.
  unfold IndexDirect.redeem_and_record. simpl.
  destruct (w _ h (submit (redeemAll (myStakingWallet cfg) true))); simpl;
    try discriminate.
  match goal with
  | |- context [w _ ?h' (tx_wait ?a ?n)] => destruct (w _ h' (tx_wait a n)); simpl
  end; try discriminate.
  intros Heq. injection Heq as <- _. eexists. reflexivity.
Qed.

Lemma direct_record_not_stalled (h : trace) (x : IndexDirect.Evaluation) (b : Bot)
    (ev : trace) :
  exec w h (IndexDirect.redeem_and_record cfg x b) <> (Stalled, ev).
Proof.
  unfold IndexDirect.redeem_and_record. simpl.
  destruct (w _ h (submit (redeemAll (myStakingWallet cfg) true))); simpl;
    try discriminate.
  match goal with
  | |- context [w _ ?h' (tx_wait ?a ?n)] => destruct (w _ h' (tx_wait a n)); simpl
  end; discriminate.
Qed.

Section Triggered.
Variables (h : trace) (b : Bot) (x : IndexDirect.Evaluation) (ev : trace).
Hypothesis evaluated :
  exec w h (IndexDirect.evaluate cfg bonds checkBonds) = (Done x, ev).

Lemma direct_tick_not_triggered :
  IndexDirect.trigger x b = false ->
  exec w h (IndexDirect.tick cfg bonds checkBonds b) = (Done b, ev).
Proof.
  intros Hno. rewrite direct_tick_exec, evaluated, Hno. reflexivity.
Qed.

Hypothesis triggered : IndexDirect.trigger x b = true.

Lemma direct_tick_redeem_done (b1 : Bot) (ev2 : trace) :
  exec w ((h ++ ev) ++ [trigger_line]) (IndexDirect.redeem_and_record cfg x (toggle b))
    = (Done b1, ev2) ->
  exists receipt,
    exec w h (IndexDirect.tick cfg bonds checkBonds b) =
      (Done (set_epoch b (IndexDirect.epochNumber x) (ethers.blockNumber receipt)),
       ev ++ trigger_line :: ev2).
Proof.
  intros Hred. rewrite direct_tick_exec, evaluated, triggered, direct_act_exec, Hred.
  destruct (direct_record_done _ _ _ _ _ Hred) as [receipt ->].
  exists receipt. f_equal. f_equal.
  destruct b as [m p]. unfold toggle, set_epoch. simpl.
  rewrite negb_involutive. reflexivity.
Qed.

Lemma direct_tick_redeem_thrown (e : string) (ev2 : trace) :
  exec w ((h ++ ev) ++ [trigger_line]) (IndexDirect.redeem_and_record cfg x (toggle b))
    = (Thrown e, ev2) ->
  exec w h (IndexDirect.tick cfg bonds checkBonds b) =
    (Done b, ev ++ trigger_line :: ev2).
Proof.
  intros Hred. rewrite direct_tick_exec, evaluated, triggered, direct_act_exec, Hred.
  reflexivity.
Qed.
End Triggered.

Lemma direct_tick_grows (h : trace) (b b' : Bot) (ev : trace) :
  exec w h (IndexDirect.tick cfg bonds checkBonds b) = (Done b', ev) ->
  ledger_grows b b'.
Proof.
  intros Hex.
  destruct (exec w h (IndexDirect.evaluate cfg bonds checkBonds))
    as [[x|e|] ev1] eqn:Hev.
  - destruct (IndexDirect.trigger x b) eqn:Htr.
    + destruct (exec w ((h ++ ev1) ++ [trigger_line])
                  (IndexDirect.redeem_and_record cfg x (toggle b)))
        as [[b1|e|] ev2] eqn:Hred.
      * destruct (direct_tick_redeem_done h b x ev1 Hev Htr b1 ev2 Hred)
          as (receipt & Hex1).
        rewrite Hex1 in Hex. injection Hex as <- _. apply ledger_grows_set.
      * rewrite (direct_tick_redeem_thrown h b x ev1 Hev Htr e ev2 Hred) in Hex.
        injection Hex as <- _. apply ledger_grows_refl.
      * exfalso. exact (direct_record_not_stalled _ _ _ _ Hred).
    + rewrite (direct_tick_not_triggered h b x ev1 Hev Htr) in Hex.
      injection Hex as <- _. apply ledger_grows_refl.
  - rewrite direct_tick_exec, Hev in Hex. discriminate.
  - rewrite direct_tick_exec, Hev in Hex. discriminate.
Qed.
End DirectFacts.

(** ** The trigger test *)

Lemma gt0_spec (x : Q) : gt0 x = true <-> (0 < x)%Q.
Proof.
  unfold gt0, Qlt. simpl. rewrite Z.ltb_lt, Z.mul_1_r. reflexivity.
Qed.

Lemma trigger_spec (info : Tools.StakingInformation) (payout : Q) (b : Bot) :
  Index.trigger info payout b = true <->
  Tools.delta info <= 300 /\
  JsMap.has Z.eqb (epochs b) (Tools.epochNumber info) = false /\
  (0 < payout)%Q.
Proof.
  unfold Index.trigger.
  rewrite !andb_true_iff, negb_true_iff, Z.leb_le, gt0_spec.
  change (5 * 60) with 300. tauto.
Qed.

Lemma direct_trigger_spec (x : IndexDirect.Evaluation) (b : Bot) :
  IndexDirect.trigger x b = true <->
  IndexDirect.delta x <= 300 /\
  JsMap.has Z.eqb (epochs b) (IndexDirect.epochNumber x) = false /\
  0 < IndexDirect.bondPayout x.
Proof.
  unfold IndexDirect.trigger.
  rewrite !andb_true_iff, negb_true_iff, Z.leb_le, Z.ltb_lt.
  change (5 * 60) with 300. tauto.
Qed.

Lemma tick_enters_iff (cfg : Config) (bonds : Tools.Bonds) (fuel : nat) (w : World)
    (h : trace) (b : Bot) (info : Tools.StakingInformation) (payout : Q) (ev : trace) :
  exec w h (Index.evaluate cfg bonds fuel) = (Done (info, payout), ev) ->
  exists o ev',
    exec w h (Index.tick cfg bonds fuel b) = (o, ev ++ ev') /\
    (In trigger_line ev' <-> Index.trigger info payout b = true) /\
    (~ In trigger_line ev' -> o = Done b /\ ev' = []).
Proof.
  intros Hev. rewrite tick_exec, Hev. cbn [fst snd].
  destruct (Index.trigger info payout b) eqn:Htr.
  - rewrite act_exec.
    destruct (exec w ((h ++ ev) ++ [trigger_line])
                (Index.redeem_and_record cfg bonds fuel info (toggle b)))
      as [[b1|e|] ev2];
      eexists; eexists; (split; [reflexivity|]);
      (split; [split; [reflexivity | intros _; left; reflexivity]
              | intros Hno; exfalso; apply Hno; left; reflexivity]).
  - exists (Done b), []. rewrite app_nil_r.
    split; [reflexivity|]. split; [|auto].
    split; [intros [] | discriminate].
Qed.

Lemma direct_tick_enters_iff (cfg : Config) (bonds : Tools.Bonds)
    (checkBonds : Tools.Bonds -> address -> prog Z) (w : World)
    (h : trace) (b : Bot) (x : IndexDirect.Evaluation) (ev : trace) :
  exec w h (IndexDirect.evaluate cfg bonds checkBonds) = (Done x, ev) ->
  exists o ev',
    exec w h (IndexDirect.tick cfg bonds checkBonds b) = (o, ev ++ ev') /\
    (In trigger_line ev' <-> IndexDirect.trigger x b = true) /\
    (~ In trigger_line ev' -> o = Done b /\ ev' = []).
Proof.
  intros Hev. rewrite direct_tick_exec, Hev.
  destruct (IndexDirect.trigger x b) eqn:Htr.
  - rewrite direct_act_exec.
    destruct (exec w ((h ++ ev) ++ [trigger_line])
                (IndexDirect.redeem_and_record cfg x (toggle b)))
      as [[b1|e|] ev2];
      eexists; eexists; (split; [reflexivity|]);
      (split; [split; [reflexivity | intros _; left; reflexivity]
              | intros Hno; exfalso; apply Hno; left; reflexivity]).
  - exists (Done b), []. rewrite app_nil_r.
    split; [reflexivity|]. split; [|auto].
    split; [intros [] | discriminate].
Qed.

(** C3: a tick enters the redeem-and-stake action exactly when the three
    conditions hold together: at most 300 blocks to the end of the epoch,
    no ledger entry for the current epoch number, and a positive pending
    payout.  Entering the action is: the timer is toggled, the line
    "Trying to Redeem & Stake all Bonds" is logged, [Tools.redeemBonds]
    is run, its receipts are recorded in the ledger of the toggled bot,
    and the timer is toggled again; when [redeemBonds] throws, the error
    is logged and the timer is toggled again.  (The handler of
    [src/index.ts] submits [redeemAll] for the wallet, waits for the
    receipt and records its block.)  When one of the conditions fails the
    tick ends right after its evaluation, with the bot as it was and
    nothing more logged or called.  A tick whose evaluation throws or
    stalls ends there and enters nothing.  Both handlers. *)
Theorem trigger_iff_all_three :
  (forall cfg bonds fuel w h b,
      (forall info payout ev,
          exec w h (Index.evaluate cfg bonds fuel) = (Done (info, payout), ev) ->
          (Tools.delta info <= 300 /\
           JsMap.has Z.eqb (epochs b) (Tools.epochNumber info) = false /\
           (0 < payout)%Q ->
           exists o2 ev2,
             exec w ((h ++ ev) ++ [trigger_line])
               (Tools.redeemBonds fuel (myStakingWallet cfg) bonds (ADDITIONAL_BONDS cfg))
             = (o2, ev2) /\
             match o2 with
             | Done receipts =>
                 exists b1 ev3,
                   exec w (((h ++ ev) ++ [trigger_line]) ++ ev2)
                     (Index.record (Tools.epochNumber info) receipts (toggle b))
                   = (Done b1, ev3) /\
                   paused b1 = negb (paused b) /\
                   exec w h (Index.tick cfg bonds fuel b)
                   = (Done (toggle b1), ev ++ trigger_line :: ev2 ++ ev3)
             | Thrown e =>
                 exec w h (Index.tick cfg bonds fuel b)
                 = (Done (toggle (toggle b)),
                    ev ++ trigger_line :: ev2 ++ [error_line e])
             | Stalled =>
                 exec w h (Index.tick cfg bonds fuel b)
                 = (Stalled, ev ++ trigger_line :: ev2)
             end) /\
          (~ (Tools.delta info <= 300 /\
              JsMap.has Z.eqb (epochs b) (Tools.epochNumber info) = false /\
              (0 < payout)%Q) ->
           exec w h (Index.tick cfg bonds fuel b) = (Done b, ev)) /\
          exists o ev',
            exec w h (Index.tick cfg bonds fuel b) = (o, ev ++ ev') /\
            (In trigger_line ev' <->
             Tools.delta info <= 300 /\
             JsMap.has Z.eqb (epochs b) (Tools.epochNumber info) = false /\
             (0 < payout)%Q) /\
            (~ In trigger_line ev' -> o = Done b /\ ev' = [])) /\
      (forall e ev,
          exec w h (Index.evaluate cfg bonds fuel) = (Thrown e, ev) ->
          exec w h (Index.tick cfg bonds fuel b) = (Thrown e, ev)) /\
      (forall ev,
          exec w h (Index.evaluate cfg bonds fuel) = (Stalled, ev) ->
          exec w h (Index.tick cfg bonds fuel b) = (Stalled, ev))) /\
  (forall cfg bonds checkBonds w h b,
      (forall x ev,
          exec w h (IndexDirect.evaluate cfg bonds checkBonds) = (Done x, ev) ->
          (IndexDirect.delta x <= 300 /\
           JsMap.has Z.eqb (epochs b) (IndexDirect.epochNumber x) = false /\
           0 < IndexDirect.bondPayout x ->
           exists o2 ev2,
             exec w ((h ++ ev) ++ [trigger_line])
               (IndexDirect.redeem_and_record cfg x (toggle b))
             = (o2, Called (submit (redeemAll (myStakingWallet cfg) true)) :: ev2) /\
             match o2 with
             | Done b1 =>
                 (exists receipt,
                     b1 = set_epoch (toggle b) (IndexDirect.epochNumber x)
                            (ethers.blockNumber receipt)) /\
                 exec w h (IndexDirect.tick cfg bonds checkBonds b)
                 = (Done (toggle b1),
                    ev ++ trigger_line
                       :: Called (submit (redeemAll (myStakingWallet cfg) true)) :: ev2)
             | Thrown _ =>
                 exec w h (IndexDirect.tick cfg bonds checkBonds b)
                 = (Done (toggle (toggle b)),
                    ev ++ trigger_line
                       :: Called (submit (redeemAll (myStakingWallet cfg) true)) :: ev2)
             | Stalled => False
             end) /\
          (~ (IndexDirect.delta x <= 300 /\
              JsMap.has Z.eqb (epochs b) (IndexDirect.epochNumber x) = false /\
              0 < IndexDirect.bondPayout x) ->
           exec w h (IndexDirect.tick cfg bonds checkBonds b) = (Done b, ev)) /\
          exists o ev',
            exec w h (IndexDirect.tick cfg bonds checkBonds b) = (o, ev ++ ev') /\
            (In trigger_line ev' <->
             IndexDirect.delta x <= 300 /\
             JsMap.has Z.eqb (epochs b) (IndexDirect.epochNumber x) = false /\
             0 < IndexDirect.bondPayout x) /\
            (~ In trigger_line ev' -> o = Done b /\ ev' = [])) /\
      (forall e ev,
          exec w h (IndexDirect.evaluate cfg bonds checkBonds) = (Thrown e, ev) ->
          exec w h (IndexDirect.tick cfg bonds checkBonds b) = (Thrown e, ev)) /\
      (forall ev,
          exec w h (IndexDirect.evaluate cfg bonds checkBonds) = (Stalled, ev) ->
          exec w h (IndexDirect.tick cfg bonds checkBonds b) = (Stalled, ev))).
Proof.
  split.
  - intros cfg bonds fuel w h b. split; [|split].
    + intros info payout ev Hev. rewrite <- trigger_spec. split; [|split].
      * intros Htr.
        destruct (exec w ((h ++ ev) ++ [trigger_line])
                    (Tools.redeemBonds fuel (myStakingWallet cfg) bonds
                       (ADDITIONAL_BONDS cfg))) as [o2 ev2] eqn:Hred.
        exists o2, ev2. split; [reflexivity|].
        rewrite tick_exec, Hev. cbn [fst snd]. rewrite Htr, act_exec.
        unfold Index.redeem_and_record. rewrite exec_bind, Hred.
        destruct o2 as [receipts|e|].
        -- destruct (record_done w (Tools.epochNumber info) receipts
                       (((h ++ ev) ++ [trigger_line]) ++ ev2) (toggle b))
             as (b1 & ev3 & Hrec & _ & Hpaused & _).
           exists b1, ev3. rewrite Hrec. auto.
        -- rewrite toggle_toggle. reflexivity.
        -- reflexivity.
      * intros Hno. rewrite tick_exec, Hev. cbn [fst snd].
        destruct (Index.trigger info payout b); [exfalso; auto | reflexivity].
      * destruct (tick_enters_iff cfg bonds fuel w h b info payout ev Hev)
          as (o & ev' & Hex & Hiff & Hno).
        exists o, ev'. rewrite <- ?trigger_spec. auto.
    + intros e ev Hev. rewrite tick_exec, Hev. reflexivity.
    + intros ev Hev. rewrite tick_exec, Hev. reflexivity.
  - intros cfg bonds checkBonds w h b. split; [|split].
    + intros x ev Hev. rewrite <- direct_trigger_spec. split; [|split].
      * intros Htr.
        rewrite direct_tick_exec, Hev, Htr, direct_act_exec.
        unfold IndexDirect.redeem_and_record. cbn [await log bind exec].
        destruct (w _ ((h ++ ev) ++ [trigger_line])
                    (submit (redeemAll (myStakingWallet cfg) true))) as [e|hash];
          cbn [log bind exec].
        -- eexists. eexists. split; [reflexivity|].
           rewrite toggle_toggle. reflexivity.
        -- match goal with
           | |- context [w _ ?h' (tx_wait hash 2)] =>
               destruct (w _ h' (tx_wait hash 2)) as [e|receipt]
           end; cbn [log bind exec].
           ++ eexists. eexists. split; [reflexivity|].
              rewrite toggle_toggle. reflexivity.
           ++ eexists. eexists. split; [reflexivity|].
              split; [exists receipt; reflexivity | reflexivity].
      * intros Hno. rewrite direct_tick_exec, Hev.
        destruct (IndexDirect.trigger x b); [exfalso; auto | reflexivity].
      * destruct (direct_tick_enters_iff cfg bonds checkBonds w h b x ev Hev)
          as (o & ev' & Hex & Hiff & Hno).
        exists o, ev'. rewrite <- ?direct_trigger_spec. auto.
    + intros e ev Hev. rewrite direct_tick_exec, Hev. reflexivity.
    + intros ev Hev. rewrite direct_tick_exec, Hev. reflexivity.
Qed.

Lemma trigger_iff_all_three_witness :
  (exec (Scenario.healthy Scenario.both_pending) []
        (Index.evaluate Scenario.cfg Scenario.bonds 1)
   = (Done (Scenario.info12, 8 # 1000000000), Scenario.seen) /\
   exists o2 ev2,
     exec (Scenario.healthy Scenario.both_pending) (([] ++ Scenario.seen) ++ [trigger_line])
       (Tools.redeemBonds 1 (myStakingWallet Scenario.cfg) Scenario.bonds
          (ADDITIONAL_BONDS Scenario.cfg))
     = (o2, ev2) /\
     match o2 with
     | Done receipts =>
         exists b1 ev3,
           exec (Scenario.healthy Scenario.both_pending)
             ((([] ++ Scenario.seen) ++ [trigger_line]) ++ ev2)
             (Index.record (Tools.epochNumber Scenario.info12) receipts (toggle start))
           = (Done b1, ev3) /\
           paused b1 = negb (paused start) /\
           exec (Scenario.healthy Scenario.both_pending) []
             (Index.tick Scenario.cfg Scenario.bonds 1 start)
           = (Done (toggle b1), Scenario.seen ++ trigger_line :: ev2 ++ ev3)
     | Thrown e =>
         exec (Scenario.healthy Scenario.both_pending) []
           (Index.tick Scenario.cfg Scenario.bonds 1 start)
         = (Done (toggle (toggle start)),
            Scenario.seen ++ trigger_line :: ev2 ++ [error_line e])
     | Stalled =>
         exec (Scenario.healthy Scenario.both_pending) []
           (Index.tick Scenario.cfg Scenario.bonds 1 start)
         = (Stalled, Scenario.seen ++ trigger_line :: ev2)
     end) /\
  (exec (Scenario.healthy Scenario.both_pending) []
        (IndexDirect.evaluate Scenario.cfg Scenario.bonds (Scenario.total 1))
   = (Done Scenario.x12, Scenario.seen_direct) /\
   exists o2 ev2,
     exec (Scenario.healthy Scenario.both_pending)
       (([] ++ Scenario.seen_direct) ++ [trigger_line])
       (IndexDirect.redeem_and_record Scenario.cfg Scenario.x12 (toggle start))
     = (o2, Called (submit (redeemAll (myStakingWallet Scenario.cfg) true)) :: ev2) /\
     match o2 with
     | Done b1 =>
         (exists receipt,
             b1 = set_epoch (toggle start) (IndexDirect.epochNumber Scenario.x12)
                    (ethers.blockNumber receipt)) /\
         exec (Scenario.healthy Scenario.both_pending) []
           (IndexDirect.tick Scenario.cfg Scenario.bonds (Scenario.total 1) start)
         = (Done (toggle b1),
            Scenario.seen_direct
            ++ trigger_line
               :: Called (submit (redeemAll (myStakingWallet Scenario.cfg) true)) :: ev2)
     | Thrown _ =>
         exec (Scenario.healthy Scenario.both_pending) []
           (IndexDirect.tick Scenario.cfg Scenario.bonds (Scenario.total 1) start)
         = (Done (toggle (toggle start)),
            Scenario.seen_direct
            ++ trigger_line
               :: Called (submit (redeemAll (myStakingWallet Scenario.cfg) true)) :: ev2)
     | Stalled => False
     end).
Proof.
  split.
  - split; [reflexivity|].
    apply (proj1 (proj1 (proj1 trigger_iff_all_three Scenario.cfg Scenario.bonds 1%nat
                           (Scenario.healthy Scenario.both_pending) [] start)
                    Scenario.info12 (8 # 1000000000) Scenario.seen eq_refl)).
    split; [vm_compute; discriminate|]. split; reflexivity.
  - split; [reflexivity|].
    apply (proj1 (proj1 (proj2 trigger_iff_all_three Scenario.cfg Scenario.bonds
                           (Scenario.total 1) (Scenario.healthy Scenario.both_pending)
                           [] start)
                    Scenario.x12 Scenario.seen_direct eq_refl)).
    split; [vm_compute; discriminate|]. split; reflexivity.
Defined.

(** ** Once per epoch *)

Lemma recorded_epoch_skipped (cfg : Config) (bonds : Tools.Bonds) (fuel : nat)
    (w : World) (h : trace) (b : Bot) (info : Tools.StakingInformation) (payout : Q)
    (ev : trace) :
  JsMap.has Z.eqb (epochs b) (Tools.epochNumber info) = true ->
  exec w h (Index.evaluate cfg bonds fuel) = (Done (info, payout), ev) ->
  exec w h (Index.tick cfg bonds fuel b) = (Done b, ev).
Proof.
  intros Hhas Hev. apply (tick_not_triggered cfg bonds fuel w h b info payout ev Hev).
  unfold Index.trigger. rewrite Hhas. simpl. rewrite andb_false_r. reflexivity.
Qed.

Lemma direct_recorded_epoch_skipped (cfg : Config) (bonds : Tools.Bonds)
    (checkBonds : Tools.Bonds -> address -> prog Z)
    (w : World) (h : trace) (b : Bot) (x : IndexDirect.Evaluation) (ev : trace) :
  JsMap.has Z.eqb (epochs b) (IndexDirect.epochNumber x) = true ->
  exec w h (IndexDirect.evaluate cfg bonds checkBonds) = (Done x, ev) ->
  exec w h (IndexDirect.tick cfg bonds checkBonds b) = (Done b, ev).
Proof.
  intros Hhas Hev.
  apply (direct_tick_not_triggered cfg bonds checkBonds w h b x ev Hev).
  unfold IndexDirect.trigger. rewrite Hhas. simpl. rewrite andb_false_r. reflexivity.
Qed.

(** C1: in every state the loop can reach the ledger has at most one
    entry per epoch number.  An epoch number that has an entry keeps it on
    every later tick, and a later tick that finds this epoch number
    current ends right after its evaluation with the bot unchanged,
    whatever the delta and the pending payout are: it logs no trigger
    line and hands no transaction to the chain.  Both handlers. *)
Theorem epoch_triggered_once :
  (forall cfg bonds fuel w,
      (forall s, reachable w (Index.tick cfg bonds fuel) s ->
                 NoDup (JsMap.keys (epochs (snd s)))) /\
      (forall s s' e,
          JsMap.has Z.eqb (epochs (snd s)) e = true ->
          steps w (Index.tick cfg bonds fuel) s s' ->
          JsMap.has Z.eqb (epochs (snd s')) e = true /\
          forall info payout ev,
            exec w (fst s') (Index.evaluate cfg bonds fuel) = (Done (info, payout), ev) ->
            Tools.epochNumber info = e ->
            exec w (fst s') (Index.tick cfg bonds fuel (snd s')) = (Done (snd s'), ev))) /\
  (forall cfg bonds checkBonds w,
      (forall s, reachable w (IndexDirect.tick cfg bonds checkBonds) s ->
                 NoDup (JsMap.keys (epochs (snd s)))) /\
      (forall s s' e,
          JsMap.has Z.eqb (epochs (snd s)) e = true ->
          steps w (IndexDirect.tick cfg bonds checkBonds) s s' ->
          JsMap.has Z.eqb (epochs (snd s')) e = true /\
          forall x ev,
            exec w (fst s') (IndexDirect.evaluate cfg bonds checkBonds) = (Done x, ev) ->
            IndexDirect.epochNumber x = e ->
            exec w (fst s') (IndexDirect.tick cfg bonds checkBonds (snd s'))
            = (Done (snd s'), ev))).
Proof.
  split.
  - intros cfg bonds fuel w. split.
    + intros s Hreach.
      apply (reachable_NoDup w (Index.tick cfg bonds fuel)); [|exact Hreach].
      intros h b b' ev. apply tick_grows.
    + intros s s' e Hhas Hsteps.
      assert (Hkept : JsMap.has Z.eqb (epochs (snd s')) e = true).
      { apply (steps_grow w (Index.tick cfg bonds fuel)) in Hsteps.
        - destruct Hsteps as [Hmono _]. apply Hmono. exact Hhas.
        - intros h b b' ev. apply tick_grows. }
      split; [exact Hkept|].
      intros info payout ev Hev <-.
      apply (recorded_epoch_skipped _ _ _ _ _ _ info payout); assumption.
  - intros cfg bonds checkBonds w. split.
    + intros s Hreach.
      apply (reachable_NoDup w (IndexDirect.tick cfg bonds checkBonds)); [|exact Hreach].
      intros h b b' ev. apply direct_tick_grows.
    + intros s s' e Hhas Hsteps.
      assert (Hkept : JsMap.has Z.eqb (epochs (snd s')) e = true).
      { apply (steps_grow w (IndexDirect.tick cfg bonds checkBonds)) in Hsteps.
        - destruct Hsteps as [Hmono _]. apply Hmono. exact Hhas.
        - intros h b b' ev. apply direct_tick_grows. }
      split; [exact Hkept|].
      intros x ev Hev <-.
      apply (direct_recorded_epoch_skipped _ _ _ _ _ _ x); assumption.
Qed.

Lemma epoch_triggered_once_witness :
  (JsMap.has Z.eqb (epochs (snd Scenario.after_one)) 12 = true /\
   exec (Scenario.healthy Scenario.both_pending) (fst Scenario.after_two)
        (Index.evaluate Scenario.cfg Scenario.bonds 1)
   = (Done (Scenario.info12, 8 # 1000000000), Scenario.seen) /\
   NoDup (JsMap.keys (epochs (snd Scenario.after_one))) /\
   JsMap.has Z.eqb (epochs (snd Scenario.after_two)) 12 = true /\
   exec (Scenario.healthy Scenario.both_pending) (fst Scenario.after_two)
        (Index.tick Scenario.cfg Scenario.bonds 1 (snd Scenario.after_two))
   = (Done (snd Scenario.after_two), Scenario.seen)) /\
  (JsMap.has Z.eqb (epochs (snd Scenario.after_one_direct)) 12 = true /\
   exec (Scenario.healthy Scenario.both_pending) (fst Scenario.after_one_direct)
        (IndexDirect.evaluate Scenario.cfg Scenario.bonds (Scenario.total 1))
   = (Done Scenario.x12, Scenario.seen_direct) /\
   NoDup (JsMap.keys (epochs (snd Scenario.after_one_direct))) /\
   exec (Scenario.healthy Scenario.both_pending) (fst Scenario.after_one_direct)
        (IndexDirect.tick Scenario.cfg Scenario.bonds (Scenario.total 1)
           (snd Scenario.after_one_direct))
   = (Done (snd Scenario.after_one_direct), Scenario.seen_direct)).
Proof.
  split.
  - destruct (proj1 epoch_triggered_once Scenario.cfg Scenario.bonds 1%nat
                (Scenario.healthy Scenario.both_pending)) as [Hnd Hlater].
    destruct (Hlater Scenario.after_one Scenario.after_two 12 eq_refl
                (run_steps _ _ 1 _ _)) as [Hkept Hskip].
    split; [reflexivity|]. split; [reflexivity|].
    split; [exact (Hnd Scenario.after_one (run_steps _ _ 1 [] start))|].
    split; [exact Hkept|].
    apply (Hskip Scenario.info12 (8 # 1000000000)); reflexivity.
  - destruct (proj2 epoch_triggered_once Scenario.cfg Scenario.bonds (Scenario.total 1)
                (Scenario.healthy Scenario.both_pending)) as [Hnd Hlater].
    destruct (Hlater Scenario.after_one_direct Scenario.after_one_direct 12 eq_refl
                (steps_refl _ _ _)) as [_ Hskip].
    split; [reflexivity|]. split; [reflexivity|].
    split; [exact (Hnd Scenario.after_one_direct (run_steps _ _ 1 [] start))|].
    apply (Hskip Scenario.x12); reflexivity.
Defined.

(** ** Errors while redeeming *)

(** C5: when the redeem procedure throws (the bulk redeem or an individual
    redeem fails), the handler catches the error and the tick ends
    normally with the bot exactly as it was before the tick: the ledger
    unchanged, so still without an entry for the current epoch, and the
    pause flag, flipped on entering the action, flipped back.  Both
    handlers. *)
Theorem redeem_error_leaves_epoch_unmarked :
  (forall cfg bonds fuel w h b info payout ev e ev2,
      exec w h (Index.evaluate cfg bonds fuel) = (Done (info, payout), ev) ->
      Index.trigger info payout b = true ->
      exec w ((h ++ ev) ++ [trigger_line])
           (Tools.redeemBonds fuel (myStakingWallet cfg) bonds (ADDITIONAL_BONDS cfg))
      = (Thrown e, ev2) ->
      exec w h (Index.tick cfg bonds fuel b)
      = (Done b, ev ++ trigger_line :: ev2 ++ [error_line e]) /\
      JsMap.has Z.eqb (epochs b) (Tools.epochNumber info) = false) /\
  (forall cfg bonds checkBonds w h b x ev e ev2,
      exec w h (IndexDirect.evaluate cfg bonds checkBonds) = (Done x, ev) ->
      IndexDirect.trigger x b = true ->
      exec w ((h ++ ev) ++ [trigger_line]) (IndexDirect.redeem_and_record cfg x (toggle b))
      = (Thrown e, ev2) ->
      exec w h (IndexDirect.tick cfg bonds checkBonds b)
      = (Done b, ev ++ trigger_line :: ev2) /\
      JsMap.has Z.eqb (epochs b) (IndexDirect.epochNumber x) = false).
Proof.
  split.
  - intros cfg bonds fuel w h b info payout ev e ev2 Hev Htr Hred. split.
    + exact (tick_redeem_thrown cfg bonds fuel w h b info payout ev Hev Htr e ev2 Hred).
    + apply trigger_spec in Htr. tauto.
  - intros cfg bonds checkBonds w h b x ev e ev2 Hev Htr Hred. split.
    + exact (direct_tick_redeem_thrown cfg bonds checkBonds w h b x ev Hev Htr e ev2 Hred).
    + apply direct_trigger_spec in Htr. tauto.
Qed.

Lemma redeem_error_leaves_epoch_unmarked_witness :
  (exists e ev2,
      exec Scenario.single_reverts ((([] : trace) ++ Scenario.seen) ++ [trigger_line])
           (Tools.redeemBonds 1 (myStakingWallet Scenario.cfg) Scenario.bonds
              (ADDITIONAL_BONDS Scenario.cfg))
      = (Thrown e, ev2) /\
      exec Scenario.single_reverts [] (Index.tick Scenario.cfg Scenario.bonds 1 start)
      = (Done start, Scenario.seen ++ trigger_line :: ev2 ++ [error_line e]) /\
      JsMap.has Z.eqb (epochs start) (Tools.epochNumber Scenario.info12) = false) /\
  (exists e ev2,
      exec Scenario.unconfirmed ((([] : trace) ++ Scenario.seen_direct) ++ [trigger_line])
           (IndexDirect.redeem_and_record Scenario.cfg Scenario.x12 (toggle start))
      = (Thrown e, ev2) /\
      exec Scenario.unconfirmed []
           (IndexDirect.tick Scenario.cfg Scenario.bonds (Scenario.total 1) start)
      = (Done start, Scenario.seen_direct ++ trigger_line :: ev2) /\
      JsMap.has Z.eqb (epochs start) (IndexDirect.epochNumber Scenario.x12) = false).
Proof.
  split.
  - eexists. eexists. split; [reflexivity|].
    eapply (proj1 redeem_error_leaves_epoch_unmarked Scenario.cfg Scenario.bonds 1%nat
              Scenario.single_reverts [] start Scenario.info12 (8 # 1000000000));
      reflexivity.
  - eexists. eexists. split; [reflexivity|].
    eapply (proj2 redeem_error_leaves_epoch_unmarked Scenario.cfg Scenario.bonds
              (Scenario.total 1) Scenario.unconfirmed [] start Scenario.x12);
      reflexivity.
Defined.

(** ** [checkBonds] in a world with fixed payouts *)

Section FixedPayouts.
Variable w : World.
Variable p : address -> Z.
Hypothesis payouts : answers_payout w p.
Variable wallet : address.

Lemma attempt_payout (fuel : nat) (h : trace) (a : address) (result : Z)
    (on_error : prog unit) :
  exec w h
    (Tools.attempt (S fuel)
       (payout <- await (pendingPayoutFor a wallet) ;;
        Ret (result + payout))
       on_error)
  = (Done (result + p a), [Called (pendingPayoutFor a wallet)]).
Proof. simpl. rewrite payouts. reflexivity. Qed.

(** With fuel for one attempt per position the loop ends with the sum,
    and hands nothing to the chain. *)
Lemma checkBonds_each_steady (fuel : nat) (ignoreAdditional : bool)
    (entries : list (address * BondEntry)) :
  forall (h : trace) (result : Z),
  exists ev,
    exec w h (Tools.checkBonds_each (S fuel) entries wallet ignoreAdditional result)
    = (Done (result + pending_total p ignoreAdditional entries), ev) /\
    executed ev = [].
Proof.
  induction entries as [|[k elem] rest IH]; intros h result.
  - exists []. simpl. rewrite Z.add_0_r. auto.
  - cbn [Tools.checkBonds_each pending_total].
    destruct (ignoreAdditional && negb (redeemHelper elem)).
    + cbn [log bind exec].
      match goal with
      | |- context [exec w ?h' (Tools.checkBonds_each _ rest _ _ _)] =>
          destruct (IH h' result) as (ev & Hex & Hnone)
      end.
      rewrite Hex. eexists. split; [reflexivity | exact Hnone].
    + rewrite exec_bind, attempt_payout.
      match goal with
      | |- context [exec w ?h' (Tools.checkBonds_each _ rest _ _ ?r)] =>
          destruct (IH h' r) as (ev & Hex & Hnone)
      end.
      rewrite Hex. eexists. split.
      * rewrite Z.add_assoc. reflexivity.
      * simpl. exact Hnone.
Qed.

(** Whatever the fuel, the loop can only end with the sum. *)
Lemma checkBonds_each_total (fuel : nat) (ignoreAdditional : bool)
    (entries : list (address * BondEntry)) :
  forall (h : trace) (result r : Z) (ev : trace),
    exec w h (Tools.checkBonds_each fuel entries wallet ignoreAdditional result)
    = (Done r, ev) ->
    r = result + pending_total p ignoreAdditional entries.
Proof.
  destruct fuel as [|fuel].
  - induction entries as [|[k elem] rest IH]; intros h result r ev.
    + simpl. intros Heq. injection Heq as <- _. lia.
    + cbn [Tools.checkBonds_each pending_total].
      destruct (ignoreAdditional && negb (redeemHelper elem)).
      * cbn [log bind exec].
        match goal with
        | |- context [exec w ?h' (Tools.checkBonds_each _ rest _ _ _)] =>
            destruct (exec w h' (Tools.checkBonds_each 0 rest wallet ignoreAdditional result))
              as [o ev'] eqn:Hex
        end.
        intros Heq. injection Heq as -> _. exact (IH _ _ _ _ Hex).
      * simpl. discriminate.
  - intros h result r ev Hex.
    destruct (checkBonds_each_steady fuel ignoreAdditional entries h result)
      as (ev' & Hex' & _).
    rewrite Hex' in Hex. injection Hex as <- _. reflexivity.
Qed.

Lemma checkBonds_steady (fuel : nat) (bonds : Tools.Bonds) (ignoreAdditional : bool)
    (h : trace) :
  exists ev,
    exec w h (Tools.checkBonds (S fuel) bonds wallet ignoreAdditional)
    = (Done (formatUnits_gwei (pending_total p ignoreAdditional bonds)), ev) /\
    executed ev = [].
Proof.
  unfold Tools.checkBonds. rewrite exec_bind.
  destruct (checkBonds_each_steady fuel ignoreAdditional bonds h 0) as (ev & Hex & Hnone).
  rewrite Hex. exists ev. simpl. rewrite app_nil_r. auto.
Qed.

Lemma checkBonds_total (fuel : nat) (bonds : Tools.Bonds) (ignoreAdditional : bool)
    (h : trace) (q : Q) (ev : trace) :
  exec w h (Tools.checkBonds fuel bonds wallet ignoreAdditional) = (Done q, ev) ->
  q = formatUnits_gwei (pending_total p ignoreAdditional bonds).
Proof.
  unfold Tools.checkBonds. rewrite exec_bind.
  destruct (exec w h (Tools.checkBonds_each fuel bonds wallet ignoreAdditional 0))
    as [[r|e|] ev1] eqn:Hex; try discriminate.
  simpl. intros Heq. injection Heq as <- _.
  rewrite (checkBonds_each_total _ _ _ _ _ _ _ Hex). reflexivity.
Qed.
End FixedPayouts.

Lemma evaluate_inv (cfg : Config) (bonds : Tools.Bonds) (fuel : nat) (w : World)
    (h : trace) (info : Tools.StakingInformation) (payout : Q) (ev : trace) :
  exec w h (Index.evaluate cfg bonds fuel) = (Done (info, payout), ev) ->
  exists ev1 ev2,
    exec w h (Tools.getLoopData fuel (STAKING_CONTRACT cfg) (STAKED_TOKEN_CONTRACT cfg)
                (BLOCK_TIME_TRACKER cfg) (myStakingWallet cfg))
    = (Done info, ev1) /\
    exec w (h ++ ev1) (Tools.checkBonds fuel bonds (myStakingWallet cfg) false)
    = (Done payout, ev2) /\
    ev = ev1 ++ ev2 ++ [Called wallet_getBalance].
Proof.
  unfold Index.evaluate. rewrite exec_bind.
  destruct (exec w h (Tools.getLoopData fuel (STAKING_CONTRACT cfg)
                        (STAKED_TOKEN_CONTRACT cfg) (BLOCK_TIME_TRACKER cfg)
                        (myStakingWallet cfg))) as [[i|e|] ev1] eqn:Hloop;
    try discriminate.
  rewrite exec_bind.
  destruct (exec w (h ++ ev1) (Tools.checkBonds fuel bonds (myStakingWallet cfg) false))
    as [[q|e|] ev2] eqn:Hcheck; try discriminate.
  unfold Tools.secondsToHuman.
  destruct (Z.abs (Tools.delta i * 1000) <=? 8640000000000000);
    cbn [await bind exec]; [|discriminate].
  destruct (w _ ((h ++ ev1) ++ ev2) wallet_getBalance); cbn [bind exec];
    try discriminate;
    intros Heq; injection Heq as <- <- <-; exists ev1, ev2; auto.
Qed.

Lemma pending_total_all_bulk (p : address -> Z) (entries : list (address * BondEntry)) :
  (forall k elem, In (k, elem) entries -> redeemHelper elem = true) ->
  pending_total p true entries = pending_total p false entries.
Proof.
  induction entries as [|[k elem] rest IH]; intros Hall; simpl.
  - reflexivity.
  - rewrite (Hall k elem (or_introl eq_refl)). simpl.
    rewrite IH; [reflexivity|].
    intros k' elem' Hin. apply (Hall k' elem'). right. exact Hin.
Qed.

Lemma healthy_answers_payout (p : address -> Z) :
  answers_payout (Scenario.healthy p) p.
Proof. intros h b a. reflexivity. Qed.

Lemma healthy_confirms (p : address -> Z) :
  confirms (Scenario.healthy p) Scenario.receipt_of.
Proof. intros h tx n. reflexivity. Qed.

(** ** The value the trigger tests *)

(** The pending value that a tick tests is what
    [checkBonds(bonds, myStakingWallet)] returns, with [ignoreAdditional]
    left at its default: the total over every position of the registry. *)
Lemma tested_payout_is_total (cfg : Config) (bonds : Tools.Bonds) (fuel : nat)
    (w : World) (p : address -> Z) (h : trace) (info : Tools.StakingInformation)
    (payout : Q) (ev : trace) :
  answers_payout w p ->
  exec w h (Index.evaluate cfg bonds fuel) = (Done (info, payout), ev) ->
  payout = formatUnits_gwei (pending_total p false bonds).
Proof.
  intros Hp Hev.
  destruct (evaluate_inv _ _ _ _ _ _ _ _ Hev) as (ev1 & ev2 & _ & Hcheck & _).
  exact (checkBonds_total w p Hp _ _ _ _ _ _ _ Hcheck).
Qed.

(** ** What [checkBonds] returns *)

(** C7, as amended: [checkBonds] adds up the pending payouts of the
    positions it queries and returns the sum scaled from base units to
    whole tokens, that is divided by 10^9.  Over no position it returns
    zero; over payouts 5, 0 and 3 the sum is 8 and the value returned is
    8/10^9; it returns 8 when the payouts are 5, 0 and 3 whole tokens. *)
Theorem checkBonds_sums_in_gwei :
  (forall w fuel wallet ignoreAdditional h,
      exists q,
        exec w h (Tools.checkBonds fuel JsMap.empty wallet ignoreAdditional)
        = (Done q, []) /\ (q == 0)%Q) /\
  (forall w p wallet fuel bonds ignoreAdditional h,
      answers_payout w p ->
      exists ev,
        exec w h (Tools.checkBonds (S fuel) bonds wallet ignoreAdditional)
        = (Done (formatUnits_gwei (pending_total p ignoreAdditional bonds)), ev)) /\
  (forall w p wallet fuel k1 e1 k2 e2 k3 e3 h,
      answers_payout w p ->
      p (DAO.contract_address (bond e1)) = 5 ->
      p (DAO.contract_address (bond e2)) = 0 ->
      p (DAO.contract_address (bond e3)) = 3 ->
      exists ev,
        exec w h (Tools.checkBonds (S fuel) [(k1, e1); (k2, e2); (k3, e3)] wallet false)
        = (Done (8 # 1000000000), ev)) /\
  (forall w p wallet fuel k1 e1 k2 e2 k3 e3 h,
      answers_payout w p ->
      p (DAO.contract_address (bond e1)) = 5 * 10 ^ 9 ->
      p (DAO.contract_address (bond e2)) = 0 ->
      p (DAO.contract_address (bond e3)) = 3 * 10 ^ 9 ->
      exists q ev,
        exec w h (Tools.checkBonds (S fuel) [(k1, e1); (k2, e2); (k3, e3)] wallet false)
        = (Done q, ev) /\ (q == 8)%Q).
Proof.
  split; [|split; [|split]].
  - intros w fuel wallet ia h. exists (formatUnits_gwei 0). split; reflexivity.
  - intros w p wallet fuel bonds ia h Hp.
    destruct (checkBonds_steady w p Hp wallet fuel bonds ia h) as (ev & Hex & _).
    exists ev. exact Hex.
  - intros w p wallet fuel k1 e1 k2 e2 k3 e3 h Hp H1 H2 H3.
    destruct (checkBonds_steady w p Hp wallet fuel [(k1, e1); (k2, e2); (k3, e3)] false h)
      as (ev & Hex & _).
    exists ev. rewrite Hex. simpl. rewrite H1, H2, H3. reflexivity.
  - intros w p wallet fuel k1 e1 k2 e2 k3 e3 h Hp H1 H2 H3.
    destruct (checkBonds_steady w p Hp wallet fuel [(k1, e1); (k2, e2); (k3, e3)] false h)
      as (ev & Hex & _).
    eexists. exists ev. split; [exact Hex|].
    simpl. rewrite H1, H2, H3. reflexivity.
Qed.

Lemma checkBonds_sums_in_gwei_witness :
  exists ev,
    exec (Scenario.healthy Scenario.five_zero_three) []
         (Tools.checkBonds 1 Scenario.three "0xWALLET" false)
    = (Done (8 # 1000000000), ev).
Proof.
  apply (proj1 (proj2 (proj2 checkBonds_sums_in_gwei))
           (Scenario.healthy Scenario.five_zero_three) Scenario.five_zero_three
           "0xWALLET" 0%nat "0xA" _ "0xB" _ "0xC" _ []
           (healthy_answers_payout Scenario.five_zero_three));
    reflexivity.
Defined.

Lemma checkBonds_5_0_3_is_not_8 : ~ returns_plain_sum.
Proof.
  intros Hclaim.
  specialize (Hclaim (Scenario.healthy Scenario.five_zero_three) Scenario.five_zero_three
                "0xWALLET" 1%nat Scenario.three [] (8 # 1000000000)
                [ Called (pendingPayoutFor "0xA" "0xWALLET");
                  Called (pendingPayoutFor "0xB" "0xWALLET");
                  Called (pendingPayoutFor "0xC" "0xWALLET") ]
                (healthy_answers_payout Scenario.five_zero_three) eq_refl).
  discriminate Hclaim.
Qed.

(** ** The redeem procedure in a world with fixed payouts *)

Section Redeeming.
Variable w : World.
Variable p : address -> Z.
Hypothesis payouts : answers_payout w p.
Variable wallet : address.
Variable bonds : Tools.Bonds.

(** Every transaction is confirmed: each individual redemption that is
    due is executed, in order, and its receipt collected. *)
Lemma redeem_each_confirmed (rc : transaction -> ethers.ContractReceipt)
    (additionalBonds : list address) :
  confirms w rc ->
  forall (h : trace) (receipts : list ethers.ContractReceipt),
  exists ev,
    exec w h (Tools.redeem_each wallet bonds additionalBonds receipts)
    = (Done (receipts ++ map rc (due p wallet bonds additionalBonds)), ev) /\
    executed ev = due p wallet bonds additionalBonds.
Proof.
  intros Hrc.
  induction additionalBonds as [|a rest IH]; intros h receipts.
  - exists []. simpl. rewrite app_nil_r. auto.
  - cbn [Tools.redeem_each due].
    destruct (Tools.getBond bonds a) as [bd|]; [|apply IH].
    cbn [await bind exec]. rewrite payouts. cbn [resolved bind exec].
    destruct (0 <? p (DAO.contract_address bd)).
    + unfold Tools.attemptRedeemSingle. cbn [log await bind exec].
      rewrite Hrc. cbn [resolved bind exec].
      match goal with
      | |- context [exec w ?h' (Tools.redeem_each _ _ rest ?rs)] =>
          destruct (IH h' rs) as (ev & Hex & Hdue)
      end.
      rewrite Hex. eexists. split.
      * rewrite <- app_assoc. reflexivity.
      * simpl. rewrite Hdue. reflexivity.
    + match goal with
      | |- context [exec w ?h' (Tools.redeem_each _ _ rest ?rs)] =>
          destruct (IH h' rs) as (ev & Hex & Hdue)
      end.
      rewrite Hex. eexists. split; [reflexivity | exact Hdue].
Qed.

Lemma redeemBonds_confirmed (rc : transaction -> ethers.ContractReceipt)
    (fuel : nat) (additionalBonds : list address) (h : trace) :
  confirms w rc ->
  let bulk := if 0 <? pending_total p true bonds
              then [redeemAll wallet true] else [] in
  exists ev,
    exec w h (Tools.redeemBonds (S fuel) wallet bonds additionalBonds)
    = (Done (map rc (bulk ++ due p wallet bonds additionalBonds)), ev) /\
    executed ev = bulk ++ due p wallet bonds additionalBonds.
Proof.
  intros Hrc bulk. unfold Tools.redeemBonds. rewrite exec_bind.
  destruct (checkBonds_steady w p payouts wallet fuel bonds true h)
    as (ev1 & Hex1 & Hnone1).
  rewrite Hex1. rewrite exec_bind.
  change (gt0 (formatUnits_gwei (pending_total p true bonds)))
    with (0 <? pending_total p true bonds).
  subst bulk. destruct (0 <? pending_total p true bonds).
  - unfold Tools.attemptRedeemAll. cbn [log await bind exec].
    rewrite Hrc. cbn [resolved bind exec].
    match goal with
    | |- context [exec w ?h' (Tools.redeem_each _ _ additionalBonds ?rs)] =>
        destruct (redeem_each_confirmed rc additionalBonds Hrc h' rs)
          as (ev2 & Hex2 & Hdue)
    end.
    rewrite Hex2. eexists. split; [reflexivity|].
    rewrite !executed_app, Hnone1. simpl. rewrite Hdue. reflexivity.
  - cbn [exec].
    match goal with
    | |- context [exec w ?h' (Tools.redeem_each _ _ additionalBonds ?rs)] =>
        destruct (redeem_each_confirmed rc additionalBonds Hrc h' rs)
          as (ev2 & Hex2 & Hdue)
    end.
    rewrite Hex2. eexists. split; [reflexivity|].
    rewrite !executed_app, Hnone1. simpl. exact Hdue.
Qed.

Lemma due_In (additionalBonds : list address) (a : address) (bd : DAO.Bond) :
  In a additionalBonds ->
  Tools.getBond bonds a = Some bd ->
  0 < p (DAO.contract_address bd) ->
  In (redeem (DAO.contract_address bd) wallet true) (due p wallet bonds additionalBonds).
Proof.
  intros Hin Hget Hpos.
  induction additionalBonds as [|a0 rest IH]; [contradiction|].
  simpl. destruct Hin as [->|Hin].
  - rewrite Hget. apply Z.ltb_lt in Hpos. rewrite Hpos. left. reflexivity.
  - destruct (Tools.getBond bonds a0) as [bd0|]; [|auto].
    destruct (0 <? p (DAO.contract_address bd0)); [right|]; auto.
Qed.

Lemma due_only_individual (additionalBonds : list address) (tx : transaction) :
  In tx (due p wallet bonds additionalBonds) ->
  exists a, tx = redeem a wallet true.
Proof.
  induction additionalBonds as [|a0 rest IH]; simpl; [contradiction|].
  destruct (Tools.getBond bonds a0) as [bd0|]; [|exact IH].
  destruct (0 <? p (DAO.contract_address bd0)); [|exact IH].
  intros [<-|Hin]; [eexists; reflexivity | exact (IH Hin)].
Qed.
End Redeeming.

(** C6: in a world with fixed payouts where every transaction is
    confirmed, take a listed address that is registered and has a
    positive payout.  The redeem procedure ends normally, its receipts are
    those of the transactions it executed, in order, and the individual
    redeem of that position is among them.  When the bulk-eligible total
    is 0 every executed transaction is an individual redeem (no bulk
    call); when it is positive the bulk call is executed as well and both
    receipts are returned.  With that address as the only listed one the
    executed transactions are exactly the individual redeem, preceded by
    the bulk redeem in the second case. *)
Theorem redeem_paths :
  forall w p rc wallet bonds fuel additionalBonds h a bd,
    answers_payout w p ->
    confirms w rc ->
    In a additionalBonds ->
    Tools.getBond bonds a = Some bd ->
    0 < p (DAO.contract_address bd) ->
    let single := redeem (DAO.contract_address bd) wallet true in
    let bulk := redeemAll wallet true in
    exists receipts ev,
      exec w h (Tools.redeemBonds (S fuel) wallet bonds additionalBonds)
      = (Done receipts, ev) /\
      receipts = map rc (executed ev) /\
      In single (executed ev) /\
      (pending_total p true bonds = 0 ->
       (forall tx, In tx (executed ev) -> exists a', tx = redeem a' wallet true) /\
       (additionalBonds = [a] -> executed ev = [single] /\ receipts = [rc single])) /\
      (0 < pending_total p true bonds ->
       In bulk (executed ev) /\ In (rc bulk) receipts /\ In (rc single) receipts /\
       (additionalBonds = [a] ->
        executed ev = [bulk; single] /\ receipts = [rc bulk; rc single])).
Proof.
  intros w p rc wallet bonds fuel additionalBonds h a bd Hp Hrc Hin Hget Hpos single bulk.
  destruct (redeemBonds_confirmed w p Hp wallet bonds rc fuel additionalBonds h Hrc)
    as (ev & Hex & Hdone).
  pose proof (due_In p wallet bonds additionalBonds a bd Hin Hget Hpos) as Hdue.
  assert (Hone : additionalBonds = [a] -> due p wallet bonds additionalBonds = [single]).
  { intros ->. simpl. rewrite Hget. apply Z.ltb_lt in Hpos. rewrite Hpos. reflexivity. }
  exists (map rc (executed ev)), ev. rewrite Hdone at 1.
  split; [exact Hex|]. split; [reflexivity|].
  split; [rewrite Hdone; apply in_or_app; right; exact Hdue|].
  split.
  - intros Hzero. rewrite Hdone, Hzero. simpl. split.
    + apply due_only_individual.
    + intros Hlist. rewrite (Hone Hlist). auto.
  - intros Hbulk. apply Z.ltb_lt in Hbulk. rewrite Hdone, Hbulk. simpl.
    split; [left; reflexivity|].
    split; [left; reflexivity|].
    split; [right; apply in_map; exact Hdue|].
    intros Hlist. rewrite (Hone Hlist). auto.
Qed.

Lemma redeem_paths_witness :
  (exists receipts ev,
      exec (Scenario.healthy Scenario.only_single_pending) []
           (Tools.redeemBonds 1 "0xWALLET" Scenario.bonds ["0xSUPP"])
      = (Done receipts, ev) /\
      executed ev = [redeem "0xSUPP" "0xWALLET" true] /\
      receipts = [Scenario.single_receipt]) /\
  (exists receipts ev,
      exec (Scenario.healthy Scenario.both_pending) []
           (Tools.redeemBonds 1 "0xWALLET" Scenario.bonds ["0xSUPP"])
      = (Done receipts, ev) /\
      executed ev = [redeemAll "0xWALLET" true; redeem "0xSUPP" "0xWALLET" true] /\
      receipts = [Scenario.bulk_receipt; Scenario.single_receipt]).
Proof.
  split.
  - destruct (redeem_paths (Scenario.healthy Scenario.only_single_pending)
                Scenario.only_single_pending Scenario.receipt_of "0xWALLET"
                Scenario.bonds 0%nat ["0xSUPP"] [] "0xSUPP" (DAO.mkBond "0xSUPP")
                (healthy_answers_payout _) (healthy_confirms _)
                (or_introl eq_refl) eq_refl eq_refl)
      as (receipts & ev & Hex & _ & _ & Hzero & _).
    exists receipts, ev. split; [exact Hex|].
    exact (proj2 (Hzero eq_refl) eq_refl).
  - destruct (redeem_paths (Scenario.healthy Scenario.both_pending)
                Scenario.both_pending Scenario.receipt_of "0xWALLET"
                Scenario.bonds 0%nat ["0xSUPP"] [] "0xSUPP" (DAO.mkBond "0xSUPP")
                (healthy_answers_payout _) (healthy_confirms _)
                (or_introl eq_refl) eq_refl eq_refl)
      as (receipts & ev & Hex & _ & _ & _ & Hboth).
    exists receipts, ev. split; [exact Hex|].
    exact (proj2 (proj2 (proj2 (Hboth eq_refl))) eq_refl).
Defined.

(** ** A bulk redeem that succeeds before an individual one fails *)

Section PartialFailure.
Variable w : World.
Variable p : address -> Z.
Hypothesis payouts : answers_payout w p.
Variable wallet : address.
Variable bonds : Tools.Bonds.
Variable reason : string.
Hypothesis single_rejected :
  forall h a n, w _ h (execute (redeem a wallet true) n) = rejected reason.

(** The first individual redemption that is due throws, and the receipts
    collected so far are lost with it. *)
Lemma redeem_each_rejected (additionalBonds : list address) :
  due p wallet bonds additionalBonds <> [] ->
  forall (h : trace) (receipts : list ethers.ContractReceipt),
  exists ev,
    exec w h (Tools.redeem_each wallet bonds additionalBonds receipts)
    = (Thrown reason, ev).
Proof.
  induction additionalBonds as [|a rest IH]; intros Hdue h receipts.
  - contradiction.
  - revert Hdue. cbn [Tools.redeem_each due].
    destruct (Tools.getBond bonds a) as [bd|]; [|intros Hdue; apply IH; exact Hdue].
    cbn [await bind exec]. rewrite payouts. cbn [resolved bind exec].
    destruct (0 <? p (DAO.contract_address bd)).
    + intros _. unfold Tools.attemptRedeemSingle. cbn [log await bind exec].
      rewrite single_rejected. cbn [rejected bind exec].
      eexists. reflexivity.
    + intros Hdue.
      match goal with
      | |- context [exec w ?h' (Tools.redeem_each _ _ rest ?rs)] =>
          destruct (IH Hdue h' rs) as (ev & Hex)
      end.
      rewrite Hex. eexists. reflexivity.
Qed.

Variable receipt : ethers.ContractReceipt.
Hypothesis bulk_confirmed :
  forall h n, w _ h (execute (redeemAll wallet true) n) = resolved receipt.

Lemma redeemBonds_partial_failure (fuel : nat) (additionalBonds : list address)
    (h : trace) :
  0 < pending_total p true bonds ->
  due p wallet bonds additionalBonds <> [] ->
  exists ev,
    exec w h (Tools.redeemBonds (S fuel) wallet bonds additionalBonds)
    = (Thrown reason, ev) /\
    In (bulk_completed_line receipt) ev.
Proof.
  intros Hbulk Hdue. unfold Tools.redeemBonds. rewrite exec_bind.
  destruct (checkBonds_steady w p payouts wallet fuel bonds true h)
    as (ev1 & Hex1 & _).
  rewrite Hex1. rewrite exec_bind.
  change (gt0 (formatUnits_gwei (pending_total p true bonds)))
    with (0 <? pending_total p true bonds).
  apply Z.ltb_lt in Hbulk. rewrite Hbulk.
  unfold Tools.attemptRedeemAll. cbn [log await bind exec].
  rewrite bulk_confirmed. cbn [resolved bind exec].
  match goal with
  | |- context [exec w ?h' (Tools.redeem_each _ _ additionalBonds ?rs)] =>
      destruct (redeem_each_rejected additionalBonds Hdue h' rs) as (ev2 & Hex2)
  end.
  rewrite Hex2. eexists. split; [reflexivity|].
  apply in_or_app. right. apply in_or_app. left.
  right. right. left. reflexivity.
Qed.
End PartialFailure.

(** C2, as amended: when the bulk redeem is confirmed and an individual
    redeem that is due is then rejected, the redeem procedure throws, the
    receipt of the bulk redeem is lost with the call, and the tick ends
    with the bot as it was: the epoch is not marked, the error is logged
    and the timer runs again, so the next tick tries once more. *)
Theorem partial_failure_leaves_epoch_unmarked :
  forall cfg bonds fuel w p h b info payout ev receipt reason,
    answers_payout w p ->
    (forall h n, w _ h (execute (redeemAll (myStakingWallet cfg) true) n)
                 = resolved receipt) ->
    (forall h a n, w _ h (execute (redeem a (myStakingWallet cfg) true) n)
                   = rejected reason) ->
    0 < pending_total p true bonds ->
    due p (myStakingWallet cfg) bonds (ADDITIONAL_BONDS cfg) <> [] ->
    exec w h (Index.evaluate cfg bonds (S fuel)) = (Done (info, payout), ev) ->
    Index.trigger info payout b = true ->
    exists ev2,
      exec w ((h ++ ev) ++ [trigger_line])
           (Tools.redeemBonds (S fuel) (myStakingWallet cfg) bonds (ADDITIONAL_BONDS cfg))
      = (Thrown reason, ev2) /\
      In (bulk_completed_line receipt) ev2 /\
      exec w h (Index.tick cfg bonds (S fuel) b)
      = (Done b, ev ++ trigger_line :: ev2 ++ [error_line reason]) /\
      JsMap.has Z.eqb (epochs b) (Tools.epochNumber info) = false.
Proof.
  intros cfg bonds fuel w p h b info payout ev receipt reason
         Hp Hbulk Hsingle Hpos Hdue Hev Htr.
  destruct (redeemBonds_partial_failure w p Hp (myStakingWallet cfg) bonds reason Hsingle
              receipt Hbulk fuel (ADDITIONAL_BONDS cfg) ((h ++ ev) ++ [trigger_line])
              Hpos Hdue) as (ev2 & Hred & Hline).
  exists ev2. split; [exact Hred|]. split; [exact Hline|]. split.
  - exact (tick_redeem_thrown cfg bonds (S fuel) w h b info payout ev Hev Htr
             reason ev2 Hred).
  - apply trigger_spec in Htr. tauto.
Qed.

Lemma partial_failure_leaves_epoch_unmarked_witness :
  exists ev2,
    exec Scenario.single_reverts ((([] : trace) ++ Scenario.seen) ++ [trigger_line])
         (Tools.redeemBonds 1 (myStakingWallet Scenario.cfg) Scenario.bonds
            (ADDITIONAL_BONDS Scenario.cfg))
    = (Thrown "execution reverted", ev2) /\
    In (bulk_completed_line Scenario.bulk_receipt) ev2 /\
    exec Scenario.single_reverts [] (Index.tick Scenario.cfg Scenario.bonds 1 start)
    = (Done start, Scenario.seen ++ trigger_line :: ev2 ++ [error_line "execution reverted"]) /\
    JsMap.has Z.eqb (epochs start) (Tools.epochNumber Scenario.info12) = false.
Proof.
  apply (partial_failure_leaves_epoch_unmarked Scenario.cfg Scenario.bonds 0%nat
           Scenario.single_reverts Scenario.both_pending [] start Scenario.info12
           (8 # 1000000000) Scenario.seen Scenario.bulk_receipt "execution reverted").
  - intros h b a. reflexivity.
  - intros h n. reflexivity.
  - intros h a n. reflexivity.
  - reflexivity.
  - discriminate.
  - reflexivity.
  - reflexivity.
Defined.

Lemma partial_failure_does_not_mark_epoch : ~ partial_failure_marks_epoch.
Proof.
  intros Hclaim.
  pose (redeemed :=
          exec Scenario.single_reverts ((([] : trace) ++ Scenario.seen) ++ [trigger_line])
               (Tools.redeemBonds 1 (myStakingWallet Scenario.cfg) Scenario.bonds
                  (ADDITIONAL_BONDS Scenario.cfg))).
  pose (ticked :=
          exec Scenario.single_reverts [] (Index.tick Scenario.cfg Scenario.bonds 1 start)).
  destruct (Hclaim Scenario.cfg Scenario.bonds 1%nat Scenario.single_reverts [] start
              Scenario.info12 (8 # 1000000000) Scenario.seen Scenario.bulk_receipt
              "execution reverted" (snd redeemed) (fst ticked) (snd ticked))
    as (b' & Hdone & Hmarked).
  - reflexivity.
  - reflexivity.
  - reflexivity.
  - vm_compute. tauto.
  - reflexivity.
  - vm_compute in Hdone. injection Hdone as <-. discriminate Hmarked.
Qed.

(** ** An empty list of receipts *)

Lemma reachable_step (w : World) (handler : Bot -> prog Bot) (s s' : trace * Bot) :
  reachable w handler s -> step w handler s s' -> reachable w handler s'.
Proof.
  intros Hr Hstep. unfold reachable in *.
  eapply steps_trans; [exact Hr|].
  eapply steps_next; [exact Hstep | constructor].
Qed.

Lemma reachable_invariant (w : World) (handler : Bot -> prog Bot)
    (P : trace * Bot -> Prop) :
  P ([], start) ->
  (forall s s', reachable w handler s -> P s -> step w handler s s' -> P s') ->
  forall s, reachable w handler s -> P s.
Proof.
  intros Hstart Hstep.
  assert (Hgen : forall s1 s2, steps w handler s1 s2 ->
                               reachable w handler s1 -> P s1 -> P s2).
  { induction 1 as [s|s1 s2 s3 H12 _ IH]; intros Hr HP.
    - exact HP.
    - apply IH.
      + exact (reachable_step _ _ _ _ Hr H12).
      + exact (Hstep _ _ Hr HP H12). }
  intros s Hr. apply (Hgen _ _ Hr); [constructor | exact Hstart].
Qed.

(** Every entry of the ledger was written by a tick whose redeem procedure
    returned at least one receipt while that epoch was current. *)
Lemma entry_has_receipt (cfg : Config) (bonds : Tools.Bonds) (fuel : nat) (w : World)
    (s : trace * Bot) :
  reachable w (Index.tick cfg bonds fuel) s ->
  forall e,
    JsMap.has Z.eqb (epochs (snd s)) e = true ->
    exists h0 b0 info payout ev rs ev2,
      reachable w (Index.tick cfg bonds fuel) (h0, b0) /\
      exec w h0 (Index.evaluate cfg bonds fuel) = (Done (info, payout), ev) /\
      Tools.epochNumber info = e /\
      Index.trigger info payout b0 = true /\
      exec w ((h0 ++ ev) ++ [trigger_line])
           (Tools.redeemBonds fuel (myStakingWallet cfg) bonds (ADDITIONAL_BONDS cfg))
      = (Done rs, ev2) /\
      rs <> [].
Proof.
  intros Hr. pattern s. revert s Hr. apply reachable_invariant.
  - intros e He. discriminate He.
  - intros s s' Hr IH Hstep e He.
    destruct Hstep as [h b b' evt Hex|h b err evt Hex]; simpl in *; [|exact (IH e He)].
    destruct (exec w h (Index.evaluate cfg bonds fuel))
      as [[[info payout]|err|] ev1] eqn:Hev.
    + destruct (Index.trigger info payout b) eqn:Htr.
      * destruct (exec w ((h ++ ev1) ++ [trigger_line])
                    (Tools.redeemBonds fuel (myStakingWallet cfg) bonds
                       (ADDITIONAL_BONDS cfg))) as [[rs|err|] ev2] eqn:Hred.
        -- destruct (tick_redeem_done cfg bonds fuel w h b info payout ev1 Hev Htr
                       rs ev2 Hred) as (b1 & ev3 & Hex1 & _ & _ & _ & _ & Hback).
           rewrite Hex1 in Hex. injection Hex as <- _.
           destruct (Hback e He) as [Hold|[-> Hrs]].
           ++ exact (IH e Hold).
           ++ exists h, b, info, payout, ev1, rs, ev2. auto 10.
        -- rewrite (tick_redeem_thrown cfg bonds fuel w h b info payout ev1 Hev Htr
                      err ev2 Hred) in Hex.
           injection Hex as <- _. exact (IH e He).
        -- rewrite (tick_redeem_stalled cfg bonds fuel w h b info payout ev1 Hev Htr
                      ev2 Hred) in Hex.
           discriminate.
      * rewrite (tick_not_triggered cfg bonds fuel w h b info payout ev1 Hev Htr) in Hex.
        injection Hex as <- _. exact (IH e He).
    + rewrite tick_exec, Hev in Hex. discriminate.
    + rewrite tick_exec, Hev in Hex. discriminate.
Qed.

(** C10: when the redeem procedure ends normally with no receipt, the
    tick writes nothing to the ledger, so the current epoch stays
    unmarked; the action can then fire again for the same epoch, as it
    does on two ticks in a row in the raced scenario; and an epoch number
    is in the ledger of a reachable state only if a tick, with that epoch
    current, got at least one receipt from the redeem procedure. *)
Theorem no_receipt_no_entry :
  (forall cfg bonds fuel w h b info payout ev ev2,
      exec w h (Index.evaluate cfg bonds fuel) = (Done (info, payout), ev) ->
      Index.trigger info payout b = true ->
      exec w ((h ++ ev) ++ [trigger_line])
           (Tools.redeemBonds fuel (myStakingWallet cfg) bonds (ADDITIONAL_BONDS cfg))
      = (Done [], ev2) ->
      (exists ev', exec w h (Index.tick cfg bonds fuel b) = (Done b, ev')) /\
      JsMap.has Z.eqb (epochs b) (Tools.epochNumber info) = false) /\
  (exists ev1 ev2,
      Scenario.raced_after_one = (ev1, start) /\
      In trigger_line ev1 /\
      exec Scenario.raced ev1 (Index.tick Scenario.cfg_plain Scenario.only_bulk 1 start)
      = (Done start, ev2) /\
      In trigger_line ev2) /\
  (forall cfg bonds fuel w s e,
      reachable w (Index.tick cfg bonds fuel) s ->
      JsMap.has Z.eqb (epochs (snd s)) e = true ->
      exists h0 b0 info payout ev rs ev2,
        reachable w (Index.tick cfg bonds fuel) (h0, b0) /\
        exec w h0 (Index.evaluate cfg bonds fuel) = (Done (info, payout), ev) /\
        Tools.epochNumber info = e /\
        Index.trigger info payout b0 = true /\
        exec w ((h0 ++ ev) ++ [trigger_line])
             (Tools.redeemBonds fuel (myStakingWallet cfg) bonds (ADDITIONAL_BONDS cfg))
        = (Done rs, ev2) /\
        rs <> []).
Proof.
  split; [|split].
  - intros cfg bonds fuel w h b info payout ev ev2 Hev Htr Hred. split.
    + destruct (tick_redeem_done cfg bonds fuel w h b info payout ev Hev Htr [] ev2 Hred)
        as (b' & ev3 & Hex & _ & _ & Hnil & _).
      rewrite (Hnil eq_refl) in Hex. eexists. exact Hex.
    + apply trigger_spec in Htr. tauto.
  - eexists. eexists. split; [reflexivity|].
    split; [vm_compute; tauto|].
    split; [reflexivity|]. vm_compute. tauto.
  - intros cfg bonds fuel w s e Hr He.
    exact (entry_has_receipt cfg bonds fuel w s Hr e He).
Qed.

Lemma no_receipt_no_entry_witness :
  (exists ev ev2,
      exec Scenario.raced [] (Index.evaluate Scenario.cfg_plain Scenario.only_bulk 1)
      = (Done (Scenario.info12, 5 # 1000000000), ev) /\
      exec Scenario.raced ((([] : trace) ++ ev) ++ [trigger_line])
           (Tools.redeemBonds 1 (myStakingWallet Scenario.cfg_plain) Scenario.only_bulk
              (ADDITIONAL_BONDS Scenario.cfg_plain))
      = (Done [], ev2) /\
      (exists ev',
          exec Scenario.raced [] (Index.tick Scenario.cfg_plain Scenario.only_bulk 1 start)
          = (Done start, ev')) /\
      JsMap.has Z.eqb (epochs start) (Tools.epochNumber Scenario.info12) = false) /\
  (JsMap.has Z.eqb (epochs (snd Scenario.after_one)) 12 = true /\
   exists h0 b0 info payout ev rs ev2,
     reachable (Scenario.healthy Scenario.both_pending)
               (Index.tick Scenario.cfg Scenario.bonds 1) (h0, b0) /\
     exec (Scenario.healthy Scenario.both_pending) h0
          (Index.evaluate Scenario.cfg Scenario.bonds 1)
     = (Done (info, payout), ev) /\
     Tools.epochNumber info = 12 /\
     Index.trigger info payout b0 = true /\
     exec (Scenario.healthy Scenario.both_pending) ((h0 ++ ev) ++ [trigger_line])
          (Tools.redeemBonds 1 (myStakingWallet Scenario.cfg) Scenario.bonds
             (ADDITIONAL_BONDS Scenario.cfg))
     = (Done rs, ev2) /\
     rs <> []).
Proof.
  split.
  - eexists. eexists. split; [reflexivity|]. split; [reflexivity|].
    eapply (proj1 no_receipt_no_entry Scenario.cfg_plain Scenario.only_bulk 1%nat
              Scenario.raced [] start Scenario.info12 (5 # 1000000000));
      reflexivity.
  - split; [reflexivity|].
    apply (proj2 (proj2 no_receipt_no_entry) Scenario.cfg Scenario.bonds 1%nat
             (Scenario.healthy Scenario.both_pending) Scenario.after_one 12).
    + exact (run_steps _ _ 1 [] start).
    + reflexivity.
Defined.

(** ** Labels *)

Lemma length_zero_empty (s : string) : (String.length s =? 0)%nat = true <-> s = "".
Proof.
  destruct s; simpl; split; intros H; try reflexivity; discriminate.
Qed.

(** A position that resolves is labelled from the symbols and the vesting
    term that the chain reported for it. *)
Lemma load_bond_labels (w : World) (h : trace) (additionalBonds : list address)
    (a : address) (entry : BondEntry) (ev : trace) :
  exec w h (Tools.load_bond additionalBonds a) = (Done entry, ev) ->
  exists h1 h2 symbols terms,
    w _ h1 (helper_symbol a) = resolved symbols /\
    w _ h2 (bond_terms (DAO.contract_address (bond entry))) = resolved terms /\
    name entry = Tools.name_of (DAO.symbol0 symbols) (DAO.symbol1 symbols)
                   (DAO.vestingTerm terms) /\
    redeemHelper entry = negb (includes additionalBonds (DAO.contract_address (bond entry))).
Proof.
  unfold Tools.load_bond. cbn [await bind exec].
  destruct (w _ h (load_contract a)) as [e|bd]; cbn [bind exec]; [discriminate|].
  match goal with
  | |- context [w _ ?h' (connectWallet ?c)] => destruct (w _ h' (connectWallet c)) as [e|u]
  end; cbn [bind exec]; [discriminate|].
  match goal with
  | |- context [w _ ?h' (helper_symbol a)] =>
      destruct (w _ h' (helper_symbol a)) as [e|symbols] eqn:Hsym
  end; cbn [bind exec]; [discriminate|].
  match goal with
  | |- context [w _ ?h' (bond_terms ?c)] =>
      destruct (w _ h' (bond_terms c)) as [e|terms] eqn:Hterms
  end; cbn [bind exec]; [discriminate|].
  unfold toNumber. destruct (Z.abs (DAO.vestingTerm terms) <=? MAX_SAFE_INTEGER);
    cbn [bind exec]; [|discriminate].
  intros Heq. injection Heq as <- _.
  do 2 eexists. exists symbols, terms. simpl.
  split; [exact Hsym | split; [exact Hterms | split; reflexivity]].
Qed.

(** C9: the label of a discovered position.  With a second symbol the
    symbol part is "symbol0-symbol1 LP", without one it is symbol0; the
    tag is "(4,4)" for a vesting term of exactly 345600 and "(1,1)" for
    any other, 86400 for one; the name is the symbol part, a space, and
    the tag; and a position that resolves carries the name derived this
    way from what the chain reported. *)
Theorem label_derivation :
  (forall symbol0 symbol1,
      symbol1 <> "" ->
      Tools.symbol_of symbol0 symbol1 = (symbol0 ++ "-" ++ symbol1 ++ " LP")%string) /\
  (forall symbol0, Tools.symbol_of symbol0 "" = symbol0) /\
  Tools.tag_of 345600 = "(4,4)" /\
  (forall vestingTerm, vestingTerm <> 345600 -> Tools.tag_of vestingTerm = "(1,1)") /\
  Tools.tag_of 86400 = "(1,1)" /\
  (forall symbol0 symbol1 vestingTerm,
      Tools.name_of symbol0 symbol1 vestingTerm
      = (Tools.symbol_of symbol0 symbol1 ++ " " ++ Tools.tag_of vestingTerm)%string) /\
  (forall w h additionalBonds a entry ev,
      exec w h (Tools.load_bond additionalBonds a) = (Done entry, ev) ->
      exists h1 h2 symbols terms,
        w _ h1 (helper_symbol a) = resolved symbols /\
        w _ h2 (bond_terms (DAO.contract_address (bond entry))) = resolved terms /\
        name entry = Tools.name_of (DAO.symbol0 symbols) (DAO.symbol1 symbols)
                       (DAO.vestingTerm terms)).
Proof.
  repeat split.
  - intros symbol0 symbol1 Hne. unfold Tools.symbol_of.
    destruct (String.length symbol1 =? 0)%nat eqn:Hlen; [|reflexivity].
    apply length_zero_empty in Hlen. contradiction.
  - intros vestingTerm Hne. unfold Tools.tag_of.
    destruct (Z.eqb_spec vestingTerm 345600); [contradiction | reflexivity].
  - intros w h additionalBonds a entry ev Hex.
    destruct (load_bond_labels w h additionalBonds a entry ev Hex)
      as (h1 & h2 & symbols & terms & Hsym & Hterms & Hname & _).
    exists h1, h2, symbols, terms. auto.
Qed.

Lemma label_derivation_witness :
  Tools.symbol_of "DAI" "wFTM" = "DAI-wFTM LP" /\
  Tools.tag_of 86400 = "(1,1)" /\
  Tools.name_of "DAI" "wFTM" 345600 = "DAI-wFTM LP (4,4)" /\
  Tools.name_of "wFTM" "" 86400 = "wFTM (1,1)" /\
  exec (Scenario.healthy Scenario.both_pending) [] (Tools.getBonds 1 20 ["0xSUPP"])
  = (Done Scenario.bonds,
     snd (exec (Scenario.healthy Scenario.both_pending) []
            (Tools.getBonds 1 20 ["0xSUPP"]))) /\
  exists h1 h2 symbols terms,
    Scenario.healthy Scenario.both_pending _ h1 (helper_symbol "0xBULK")
    = resolved symbols /\
    Scenario.healthy Scenario.both_pending _ h2 (bond_terms "0xBULK")
    = resolved terms /\
    "DAI-wFTM LP (4,4)" = Tools.name_of (DAO.symbol0 symbols) (DAO.symbol1 symbols)
                            (DAO.vestingTerm terms).
Proof.
  split.
  { apply (proj1 label_derivation). discriminate. }
  split.
  { apply (proj1 (proj2 (proj2 (proj2 label_derivation)))). discriminate. }
  split; [reflexivity|]. split; [reflexivity|]. split; [reflexivity|].
  apply (proj2 (proj2 (proj2 (proj2 (proj2 (proj2 label_derivation)))))
           (Scenario.healthy Scenario.both_pending) [] ["0xSUPP"] "0xBULK"
           (mkEntry "DAI-wFTM LP (4,4)" (DAO.mkBond "0xBULK") true)
           [ Called (load_contract "0xBULK"); Called (connectWallet "0xBULK");
             Called (helper_symbol "0xBULK"); Called (bond_terms "0xBULK") ]).
  reflexivity.
Defined.

(** * Further properties *)

(** ** Retrying *)

(** An [attempt] whose error handler only logs never throws: it returns
    or goes on retrying. *)
Lemma attempt_never_throws {A : Type} (w : World) (fuel : nat) (body : prog A)
    (l : level) (format : string) (args : list arg) :
  forall (h : trace) (e : string) (ev : trace),
    exec w h (Tools.attempt fuel body (log l format args)) <> (Thrown e, ev).
Proof.
  induction fuel as [|fuel IH]; intros h e ev.
  - simpl. discriminate.
  - cbn [Tools.attempt]. rewrite exec_try_catch.
    destruct (exec w h body) as [[a|e'|] ev1]; try discriminate.
    cbn [log bind exec].
    match goal with
    | |- context [exec w ?h' (Tools.attempt fuel _ _)] =>
        pose proof (IH h') as Hno;
        destruct (exec w h' (Tools.attempt fuel body (log l format args)))
          as [[a|e2|] ev2]
    end; try discriminate.
    exfalso. exact (Hno e2 ev2 eq_refl).
Qed.

Lemma attempt_S {A : Type} (fuel : nat) (body : prog A) (on_error : prog unit) :
  Tools.attempt (S fuel) body on_error
  = try_catch body (fun _ => on_error ;;; Tools.attempt fuel body on_error).
Proof. reflexivity. Qed.

(** What an [attempt] returns, its body returned on the last try. *)
Lemma attempt_done_inv {A : Type} (w : World) (fuel : nat) (body : prog A)
    (on_error : prog unit) :
  forall (h : trace) (a : A) (ev : trace),
    exec w h (Tools.attempt fuel body on_error) = (Done a, ev) ->
    exists ev0 ev1, ev = ev0 ++ ev1 /\ exec w (h ++ ev0) body = (Done a, ev1).
Proof.
  induction fuel as [|fuel IH]; intros h a ev.
  - simpl. discriminate.
  - cbn [Tools.attempt]. rewrite exec_try_catch.
    destruct (exec w h body) as [[a'|e'|] ev1] eqn:Hbody; try discriminate.
    + intros Heq. injection Heq as <- <-.
      exists [], ev1. rewrite app_nil_r. auto.
    + rewrite exec_bind.
      destruct (exec w (h ++ ev1) on_error) as [[u|e2|] ev2]; try discriminate.
      destruct (exec w ((h ++ ev1) ++ ev2) (Tools.attempt fuel body on_error))
        as [[a2|e3|] ev3] eqn:Hrec; try discriminate.
      intros Heq. injection Heq as <- <-.
      destruct (IH _ _ _ Hrec) as (ev0 & ev4 & -> & Hlast).
      exists (ev1 ++ ev2 ++ ev0), ev4. split.
      * rewrite <- !app_assoc. reflexivity.
      * rewrite !app_assoc in *. exact Hlast.
Qed.

Lemma checkBonds_each_never_throws (w : World) (fuel : nat) (wallet : address)
    (ignoreAdditional : bool) (entries : list (address * BondEntry)) :
  forall (h : trace) (result : Z) (e : string) (ev : trace),
    exec w h (Tools.checkBonds_each fuel entries wallet ignoreAdditional result)
    <> (Thrown e, ev).
Proof.
  induction entries as [|[k elem] rest IH]; intros h result e ev.
  - simpl. discriminate.
  - cbn [Tools.checkBonds_each].
    destruct (ignoreAdditional && negb (redeemHelper elem)).
    + cbn [log bind exec].
      match goal with
      | |- context [exec w ?h' (Tools.checkBonds_each _ rest _ _ ?r)] =>
          pose proof (IH h' r) as Hno;
          destruct (exec w h' (Tools.checkBonds_each fuel rest wallet ignoreAdditional r))
            as [[a|e2|] ev2]
      end; try discriminate.
      exfalso. exact (Hno e2 ev2 eq_refl).
    + rewrite exec_bind.
      match goal with
      | |- context [exec w h ?p] =>
          pose proof (fun e ev => attempt_never_throws w fuel _ _ _ _ h e ev
                                    : exec w h p <> (Thrown e, ev)) as Hatt;
          destruct (exec w h p) as [[r|e1|] ev1]
      end; try discriminate.
      * pose proof (IH (h ++ ev1) r) as Hno.
        destruct (exec w (h ++ ev1)
                    (Tools.checkBonds_each fuel rest wallet ignoreAdditional r))
          as [[a|e2|] ev2]; try discriminate.
        exfalso. exact (Hno e2 ev2 eq_refl).
      * exfalso. exact (Hatt e1 ev1 eq_refl).
Qed.

Lemma checkBonds_never_throws (w : World) (fuel : nat) (bonds : Tools.Bonds)
    (wallet : address) (ignoreAdditional : bool) (h : trace) (e : string) (ev : trace) :
  exec w h (Tools.checkBonds fuel bonds wallet ignoreAdditional) <> (Thrown e, ev).
Proof.
  unfold Tools.checkBonds. rewrite exec_bind.
  pose proof (checkBonds_each_never_throws w fuel wallet ignoreAdditional bonds h 0) as Hno.
  destruct (exec w h (Tools.checkBonds_each fuel bonds wallet ignoreAdditional 0))
    as [[r|e1|] ev1]; try discriminate.
  exfalso. exact (Hno e1 ev1 eq_refl).
Qed.

(** X1: [checkBonds] and [getLoopData] never throw, whatever the remote
    side does: a rejected query, a malformed number, anything thrown
    inside the [try] is logged and the query is made again. *)
Theorem queries_never_throw :
  (forall w fuel bonds wallet ignoreAdditional h e ev,
      exec w h (Tools.checkBonds fuel bonds wallet ignoreAdditional) <> (Thrown e, ev)) /\
  (forall w fuel staking stakedToken timetracker wallet h e ev,
      exec w h (Tools.getLoopData fuel staking stakedToken timetracker wallet)
      <> (Thrown e, ev)).
Proof.
  split.
  - intros w fuel bonds wallet ia h e ev. apply checkBonds_never_throws.
  - intros w fuel staking stakedToken timetracker wallet h e ev.
    apply attempt_never_throws.
Qed.

(** ** What makes a tick reject *)

Lemma evaluate_throws (cfg : Config) (bonds : Tools.Bonds) (fuel : nat) (w : World)
    (h : trace) (e : string) (ev : trace) :
  exec w h (Index.evaluate cfg bonds fuel) = (Thrown e, ev) ->
  e = RangeError \/ exists h', w _ h' wallet_getBalance = rejected e.
Proof.
  unfold Index.evaluate. rewrite exec_bind.
  pose proof (fun e ev =>
                attempt_never_throws w fuel
                  (Tools.getLoopData_body (STAKING_CONTRACT cfg) (STAKED_TOKEN_CONTRACT cfg)
                     (BLOCK_TIME_TRACKER cfg) (myStakingWallet cfg))
                  lvl_warn "Error pulling current data" [] h e ev) as Hloop.
  fold (Tools.getLoopData fuel (STAKING_CONTRACT cfg) (STAKED_TOKEN_CONTRACT cfg)
          (BLOCK_TIME_TRACKER cfg) (myStakingWallet cfg)) in Hloop.
  destruct (exec w h (Tools.getLoopData fuel (STAKING_CONTRACT cfg)
                        (STAKED_TOKEN_CONTRACT cfg) (BLOCK_TIME_TRACKER cfg)
                        (myStakingWallet cfg))) as [[i|e1|] ev1];
    [|exfalso; exact (Hloop e1 ev1 eq_refl)|discriminate].
  rewrite exec_bind.
  pose proof (checkBonds_never_throws w fuel bonds (myStakingWallet cfg) false (h ++ ev1))
    as Hcheck.
  destruct (exec w (h ++ ev1) (Tools.checkBonds fuel bonds (myStakingWallet cfg) false))
    as [[q|e2|] ev2]; [|exfalso; exact (Hcheck e2 ev2 eq_refl)|discriminate].
  unfold Tools.secondsToHuman.
  destruct (Z.abs (Tools.delta i * 1000) <=? 8640000000000000);
    cbn [await bind exec].
  - destruct (w _ ((h ++ ev1) ++ ev2) wallet_getBalance) as [e3|z] eqn:Hbal;
      cbn [bind exec]; [|discriminate].
    intros Heq. injection Heq as <- _. right. exists ((h ++ ev1) ++ ev2). exact Hbal.
  - intros Heq. injection Heq as <- _. left. reflexivity.
Qed.

(** X2: the promise of the tick handler is rejected only by the status
    report, before the trigger is tested: by a delta too large for a
    [Date] or by a rejected balance query.  Nothing that happens while
    redeeming makes the handler reject. *)
Theorem tick_rejects_only_in_report :
  forall cfg bonds fuel w h b e ev,
    exec w h (Index.tick cfg bonds fuel b) = (Thrown e, ev) ->
    exec w h (Index.evaluate cfg bonds fuel) = (Thrown e, ev) /\
    (e = RangeError \/ exists h', w _ h' wallet_getBalance = rejected e).
Proof.
  intros cfg bonds fuel w h b e ev Hex.
  assert (Hev : exec w h (Index.evaluate cfg bonds fuel) = (Thrown e, ev)).
  { rewrite tick_exec in Hex.
    destruct (exec w h (Index.evaluate cfg bonds fuel)) as [[x|e1|] ev1];
      [|injection Hex as -> ->; reflexivity|discriminate].
    destruct (Index.trigger (fst x) (snd x) b); [|discriminate].
    rewrite act_exec in Hex.
    destruct (exec w ((h ++ ev1) ++ [trigger_line])
                (Index.redeem_and_record cfg bonds fuel (fst x) (toggle b)))
      as [[b1|e2|] ev2]; discriminate. }
  split; [exact Hev | exact (evaluate_throws _ _ _ _ _ _ _ Hev)].
Qed.

Lemma tick_rejects_only_in_report_witness :
  exec no_balance [] (Index.tick Scenario.cfg Scenario.bonds 1 start)
  = (Thrown "missing response",
     [ Called (helper_info "0xSTAKING" "0xSTAKED" "0xTRACKER" "0xWALLET");
       Called (pendingPayoutFor "0xBULK" "0xWALLET");
       Called (pendingPayoutFor "0xSUPP" "0xWALLET");
       Called wallet_getBalance ]) /\
  exec no_balance [] (Index.evaluate Scenario.cfg Scenario.bonds 1)
  = (Thrown "missing response", Scenario.seen) /\
  ("missing response" = RangeError \/
   exists h', no_balance _ h' wallet_getBalance = rejected "missing response").
Proof.
  split; [reflexivity|].
  apply (tick_rejects_only_in_report Scenario.cfg Scenario.bonds 1%nat no_balance []
           start "missing response" Scenario.seen).
  reflexivity.
Defined.

(** ** [getLoopData] *)

Lemma toNumber_done (z : Z) (w : World) (h : trace) :
  safe z -> exec w h (toNumber z) = (Done z, []).
Proof.
  intros Hs. unfold toNumber. apply Z.leb_le in Hs. rewrite Hs. reflexivity.
Qed.

Section LoopData.
Variable w : World.
Variables staking stakedToken timetracker wallet : address.

Local Notation "'query'" := (helper_info staking stakedToken timetracker wallet).
Local Notation "'body'" :=
  (Tools.getLoopData_body staking stakedToken timetracker wallet).

Lemma getLoopData_body_resolved (h : trace) (i : DAOInformationHelper.Info) :
  w _ h query = resolved i ->
  all_safe i ->
  exec w h body = (Done (reported i), [Called query]).
Proof.
  intros Hw (H1 & H2 & H3 & H4 & H5 & H6 & H7 & H8).
  unfold Tools.getLoopData_body, toNumber. cbn [await bind exec]. rewrite Hw.
  cbn [resolved bind exec].
  apply Z.leb_le in H1, H2, H3, H4, H5, H6, H7, H8.
  rewrite H1, H2, H3, H4, H5, H6, H7, H8. reflexivity.
Qed.

Lemma getLoopData_body_rejected (h : trace) (e : string) :
  w _ h query = rejected e ->
  exec w h body = (Thrown e, [Called query]).
Proof.
  intros Hw. unfold Tools.getLoopData_body. cbn [await bind exec]. rewrite Hw.
  reflexivity.
Qed.

Lemma getLoopData_body_done (h : trace) (info : Tools.StakingInformation) (ev : trace) :
  exec w h body = (Done info, ev) ->
  exists i, w _ h query = resolved i /\ all_safe i /\ info = reported i.
Proof.
  unfold Tools.getLoopData_body, toNumber. cbn [await bind exec].
  destruct (w _ h query) as [e|i]; cbn [bind exec]; [discriminate|].
  destruct (Z.leb_spec (Z.abs (DAOInformationHelper.blockAverage i)) MAX_SAFE_INTEGER);
    cbn [bind exec]; [|discriminate].
  destruct (Z.leb_spec (Z.abs (DAOInformationHelper.epochLength i)) MAX_SAFE_INTEGER);
    cbn [bind exec]; [|discriminate].
  destruct (Z.leb_spec (Z.abs (DAOInformationHelper.epochDistribute i)) MAX_SAFE_INTEGER);
    cbn [bind exec]; [|discriminate].
  destruct (Z.leb_spec (Z.abs (DAOInformationHelper.stakedCirculatingSupply i))
              MAX_SAFE_INTEGER); cbn [bind exec]; [|discriminate].
  destruct (Z.leb_spec (Z.abs (DAOInformationHelper.epochNumber i)) MAX_SAFE_INTEGER);
    cbn [bind exec]; [|discriminate].
  destruct (Z.leb_spec (Z.abs (DAOInformationHelper.epochEndBlock i)) MAX_SAFE_INTEGER);
    cbn [bind exec]; [|discriminate].
  destruct (Z.leb_spec (Z.abs (DAOInformationHelper.blockNumber i)) MAX_SAFE_INTEGER);
    cbn [bind exec]; [|discriminate].
  destruct (Z.leb_spec (Z.abs (DAOInformationHelper.stakingIndex i)) MAX_SAFE_INTEGER);
    cbn [bind exec]; [|discriminate].
  intros Heq. injection Heq as <- _.
  exists i. unfold all_safe, safe. auto 10.
Qed.

Lemma info_calls_app (h1 h2 : trace) :
  info_calls (h1 ++ h2) = (info_calls h1 + info_calls h2)%nat.
Proof.
  induction h1 as [|e rest IH]; simpl; [reflexivity|].
  destruct e as [X c|l s args]; [destruct c|]; simpl; rewrite ?IH; reflexivity.
Qed.

(** The helper fails [k] more times and answers [i] from then on. *)
Lemma getLoopData_retries (e : string) (i : DAOInformationHelper.Info) (k : nat) :
  all_safe i ->
  forall (n : nat) (h : trace),
    (forall h', (info_calls h' < info_calls h + n)%nat -> w _ h' query = rejected e) ->
    (forall h', (info_calls h + n <= info_calls h')%nat -> w _ h' query = resolved i) ->
    (forall fuel,
        exec w h (Tools.getLoopData (S n + fuel) staking stakedToken timetracker wallet)
        = (Done (reported i), failed_tries query n ++ [Called query])) /\
    (forall fuel,
        (fuel <= n)%nat ->
        exec w h (Tools.getLoopData fuel staking stakedToken timetracker wallet)
        = (Stalled, failed_tries query fuel)).
Proof.
  intros Hsafe. induction n as [|n IH]; intros h Hfail Hok.
  - split.
    + intros fuel. unfold Tools.getLoopData. cbn [Nat.add Tools.attempt].
      rewrite exec_try_catch, (getLoopData_body_resolved h i); [reflexivity| |exact Hsafe].
      apply Hok. rewrite Nat.add_0_r. apply le_n.
    + intros fuel Hle. assert (fuel = O) as -> by lia. reflexivity.
  - assert (Hnext : info_calls ((h ++ [Called query]) ++ [retry_line])
                    = S (info_calls h)).
    { rewrite !info_calls_app. simpl. lia. }
    destruct (IH ((h ++ [Called query]) ++ [retry_line])) as [IHdone IHstall].
    { intros h' Hlt. apply Hfail. rewrite Hnext in Hlt. lia. }
    { intros h' Hle. apply Hok. rewrite Hnext in Hle. lia. }
    assert (Hnow : exec w h body = (Thrown e, [Called query])).
    { apply getLoopData_body_rejected. apply Hfail. lia. }
    split.
    + intros fuel. unfold Tools.getLoopData in *.
      change (S (S n) + fuel)%nat with (S (S n + fuel)). rewrite attempt_S.
      rewrite exec_try_catch, Hnow. cbn [log bind exec]. fold retry_line.
      rewrite (IHdone fuel). reflexivity.
    + intros fuel Hle. destruct fuel as [|fuel]; [reflexivity|].
      unfold Tools.getLoopData in *. rewrite attempt_S.
      rewrite exec_try_catch, Hnow. cbn [log bind exec]. fold retry_line.
      rewrite (IHstall fuel); [reflexivity | lia].
Qed.
End LoopData.

(** ** Differences of block numbers as doubles *)

Lemma nearest_double_exact (z : Z) :
  Z.abs z <= 2 ^ 53 -> nearest_double z = z.
Proof.
  intros Hz. unfold nearest_double. apply Z.leb_le in Hz. rewrite Hz. reflexivity.
Qed.

(** Below [2 ^ 54] the doubles are at most 2 apart. *)
Lemma nearest_double_close (z : Z) :
  Z.abs z < 2 ^ 54 -> Z.abs (nearest_double z - z) <= 1.
Proof.
  intros Hz. unfold nearest_double.
  destruct (Z.leb_spec (Z.abs z) (2 ^ 53)) as [Hsmall|Hbig].
  - rewrite Z.sub_diag. simpl. lia.
  - assert (Hlog : Z.log2 (Z.abs z) = 53).
    { apply Z.log2_unique; [lia|]. change (53 + 1) with 54. lia. }
    rewrite Hlog. change (2 ^ (53 - 52)) with 2.
    pose proof (Z.div_mod z 2 ltac:(lia)) as Hdm.
    pose proof (Z.mod_pos_bound z 2 ltac:(lia)) as Hr.
    cbv zeta.
    destruct (Z.ltb_spec (2 * (z mod 2)) 2); [lia|].
    destruct (Z.ltb_spec 2 (2 * (z mod 2))); [lia|].
    destruct (Z.even (z / 2)); lia.
Qed.

Lemma safe_difference (a b : Z) : safe a -> safe b -> Z.abs (a - b) < 2 ^ 54.
Proof.
  unfold safe, MAX_SAFE_INTEGER.
  change (2 ^ 53 - 1) with 9007199254740991. change (2 ^ 54) with 18014398509481984.
  lia.
Qed.

(** Rounding to a double does not move a number across 300. *)
Lemma nearest_double_window (z : Z) :
  Z.abs z < 2 ^ 54 -> (nearest_double z <= 300 <-> z <= 300).
Proof.
  intros Hz. pose proof (nearest_double_close z Hz) as Hclose.
  destruct (Z.le_gt_cases (Z.abs z) (2 ^ 53)) as [Hsmall|Hbig].
  - rewrite (nearest_double_exact z Hsmall). reflexivity.
  - change (2 ^ 53) with 9007199254740992 in Hbig. lia.
Qed.

(** X3: what [getLoopData] returns is what the helper answered on the
    last try: the epoch number, the block numbers, and as delta the
    difference of the block numbers as JavaScript computes it, that is
    the double nearest to [endBlock - blockNumber]; the staked balance is
    the helper's scaled by 10^9.  It returns only when every number it
    converts is a safe integer; an answer with a larger number is treated
    as a failure and asked for again.  Delta is the exact difference when
    that is at most [2 ^ 53] in magnitude, is never more than 1 away from
    it, and is at most 300 exactly when the exact difference is. *)
Theorem getLoopData_reports_answer :
  forall w fuel staking stakedToken timetracker wallet h info ev,
    exec w h (Tools.getLoopData fuel staking stakedToken timetracker wallet)
    = (Done info, ev) ->
    exists h' i,
      w _ h' (helper_info staking stakedToken timetracker wallet) = resolved i /\
      all_safe i /\
      info = reported i /\
      Tools.delta info = nearest_double (Tools.endBlock info - Tools.blockNumber info) /\
      (Z.abs (Tools.endBlock info - Tools.blockNumber info) <= 2 ^ 53 ->
       Tools.delta info = Tools.endBlock info - Tools.blockNumber info) /\
      Z.abs (Tools.delta info - (Tools.endBlock info - Tools.blockNumber info)) <= 1 /\
      (Tools.delta info <= 300 <-> Tools.endBlock info - Tools.blockNumber info <= 300).
Proof.
  intros w fuel staking stakedToken timetracker wallet h info ev Hex.
  destruct (attempt_done_inv w fuel _ _ h info ev Hex) as (ev0 & ev1 & _ & Hbody).
  destruct (getLoopData_body_done w _ _ _ _ _ _ _ Hbody) as (i & Hw & Hsafe & ->).
  exists (h ++ ev0), i.
  assert (Hbound : Z.abs (DAOInformationHelper.epochEndBlock i
                          - DAOInformationHelper.blockNumber i) < 2 ^ 54).
  { destruct Hsafe as (_ & _ & _ & _ & _ & Hend & Hblock & _).
    apply safe_difference; assumption. }
  split; [exact Hw|]. split; [exact Hsafe|]. split; [reflexivity|].
  simpl. split; [reflexivity|].
  split; [apply nearest_double_exact|].
  split; [apply nearest_double_close; exact Hbound|].
  apply nearest_double_window. exact Hbound.
Qed.

Lemma getLoopData_reports_answer_witness :
  exec far_apart [] (Tools.getLoopData 1 "0xSTAKING" "0xSTAKED" "0xTRACKER" "0xWALLET")
  = (Done (Tools.mkStakingInformation 12 (-2) 9007199254740991 9007199254740992
             (7000000000 # 1000000000)),
     [Called (helper_info "0xSTAKING" "0xSTAKED" "0xTRACKER" "0xWALLET")]) /\
  exists h' i,
    far_apart _ h' (helper_info "0xSTAKING" "0xSTAKED" "0xTRACKER" "0xWALLET")
    = resolved i /\
    all_safe i /\
    Tools.mkStakingInformation 12 (-2) 9007199254740991 9007199254740992
      (7000000000 # 1000000000) = reported i /\
    9007199254740992 = nearest_double (9007199254740991 - -2) /\
    (Z.abs (9007199254740991 - -2) <= 2 ^ 53 ->
     9007199254740992 = 9007199254740991 - -2) /\
    Z.abs (9007199254740992 - (9007199254740991 - -2)) <= 1 /\
    (9007199254740992 <= 300 <-> 9007199254740991 - -2 <= 300).
Proof.
  split; [vm_compute; reflexivity|].
  apply (getLoopData_reports_answer far_apart 1%nat "0xSTAKING" "0xSTAKED" "0xTRACKER"
           "0xWALLET" []
           (Tools.mkStakingInformation 12 (-2) 9007199254740991 9007199254740992
              (7000000000 # 1000000000))
           [Called (helper_info "0xSTAKING" "0xSTAKED" "0xTRACKER" "0xWALLET")]).
  vm_compute. reflexivity.
Defined.

(** X4: when the helper fails on its first [k] calls and answers from
    then on, [getLoopData] makes exactly [k] failed tries, each followed by
    one warning, and returns the answer of call [k + 1]; with fuel for no
    more than [k] tries it is still retrying when the fuel is used up. *)
Theorem getLoopData_retries_until_answered :
  forall (w : World) staking stakedToken timetracker wallet e i k h,
    let query := helper_info staking stakedToken timetracker wallet in
    all_safe i ->
    (forall h', (info_calls h' < k)%nat -> w _ h' query = rejected e) ->
    (forall h', (k <= info_calls h')%nat -> w _ h' query = resolved i) ->
    info_calls h = O ->
    (forall fuel,
        exec w h (Tools.getLoopData (S k + fuel) staking stakedToken timetracker wallet)
        = (Done (reported i), failed_tries query k ++ [Called query])) /\
    (forall fuel,
        (fuel <= k)%nat ->
        exec w h (Tools.getLoopData fuel staking stakedToken timetracker wallet)
        = (Stalled, failed_tries query fuel)).
Proof.
  intros w staking stakedToken timetracker wallet e i k h query Hsafe Hfail Hok Hzero.
  apply (getLoopData_retries w staking stakedToken timetracker wallet e i k Hsafe k h).
  - intros h' Hlt. apply Hfail. rewrite Hzero in Hlt. exact Hlt.
  - intros h' Hle. apply Hok. rewrite Hzero in Hle. exact Hle.
Qed.

Lemma getLoopData_retries_until_answered_witness :
  (forall fuel,
      exec flaky [] (Tools.getLoopData (3 + fuel) "0xSTAKING" "0xSTAKED" "0xTRACKER"
                       "0xWALLET")
      = (Done (reported Scenario.helper_answer),
         failed_tries (helper_info "0xSTAKING" "0xSTAKED" "0xTRACKER" "0xWALLET") 2
         ++ [Called (helper_info "0xSTAKING" "0xSTAKED" "0xTRACKER" "0xWALLET")])) /\
  (forall fuel,
      (fuel <= 2)%nat ->
      exec flaky [] (Tools.getLoopData fuel "0xSTAKING" "0xSTAKED" "0xTRACKER" "0xWALLET")
      = (Stalled,
         failed_tries (helper_info "0xSTAKING" "0xSTAKED" "0xTRACKER" "0xWALLET") fuel)).
Proof.
  apply (getLoopData_retries_until_answered flaky "0xSTAKING" "0xSTAKED" "0xTRACKER"
           "0xWALLET" "timeout" Scenario.helper_answer 2%nat []).
  - unfold all_safe, safe. vm_compute. intuition discriminate.
  - intros h' Hlt. simpl. apply Nat.ltb_lt in Hlt. rewrite Hlt. reflexivity.
  - intros h' Hle. simpl. apply Nat.ltb_ge in Hle. rewrite Hle. reflexivity.
  - reflexivity.
Defined.

(** ** [checkBonds] when queries fail *)

Lemma queried_app (ev1 ev2 : trace) :
  queried (ev1 ++ ev2) = queried ev1 ++ queried ev2.
Proof.
  induction ev1 as [|e rest IH]; simpl; [reflexivity|].
  destruct e as [X c|l s args]; [destruct c|]; simpl; rewrite ?IH; reflexivity.
Qed.

Section PayoutQuery.
Variable w : World.
Variables (a wallet : address) (result : Z) (on_error_format : string)
          (on_error_args : list arg).

Local Notation "'ask'" :=
  (payout <- await (pendingPayoutFor a wallet) ;; Ret (result + payout)).
Local Notation "'warning'" := (log lvl_warn on_error_format on_error_args).

Lemma ask_done (h : trace) (r : Z) (ev : trace) :
  exec w h ask = (Done r, ev) ->
  exists x, w _ h (pendingPayoutFor a wallet) = resolved x /\ r = result + x.
Proof.
  cbn [await bind exec].
  destruct (w _ h (pendingPayoutFor a wallet)) as [e|x]; cbn [bind exec];
    [discriminate|].
  intros Heq. injection Heq as <- _. exists x. auto.
Qed.

(** Retrying asks for the same position again and for nothing else. *)
Lemma attempt_queries (fuel : nat) :
  forall (h : trace) (x : address),
    In x (queried (snd (exec w h (Tools.attempt fuel ask warning)))) -> x = a.
Proof.
  induction fuel as [|fuel IH]; intros h x.
  - simpl. contradiction.
  - rewrite attempt_S, exec_try_catch.
    set (retry := Tools.attempt fuel ask warning) in *.
    cbn [await bind exec].
    destruct (w _ h (pendingPayoutFor a wallet)) as [e|v]; cbn [log bind exec].
    + match goal with
      | |- context [exec w ?h' retry] =>
          pose proof (IH h' x) as Hrec; destruct (exec w h' retry) as [o ev]
      end.
      simpl in *. intros [<-|Hin]; [reflexivity | exact (Hrec Hin)].
    + simpl. intros [<-|[]]. reflexivity.
Qed.
End PayoutQuery.

Lemma checkBonds_each_sound (w : World) (p : address -> Z) (fuel : nat)
    (wallet : address) (ignoreAdditional : bool) (entries : list (address * BondEntry)) :
  payout_or_rejected w p ->
  forall (h : trace) (result r : Z) (ev : trace),
    exec w h (Tools.checkBonds_each fuel entries wallet ignoreAdditional result)
    = (Done r, ev) ->
    r = result + pending_total p ignoreAdditional entries.
Proof.
  intros Hp. induction entries as [|[k elem] rest IH]; intros h result r ev.
  - simpl. intros Heq. injection Heq as <- _. lia.
  - cbn [Tools.checkBonds_each pending_total].
    destruct (ignoreAdditional && negb (redeemHelper elem)).
    + cbn [log bind exec].
      match goal with
      | |- context [exec w ?h' (Tools.checkBonds_each _ rest _ _ _)] =>
          destruct (exec w h' (Tools.checkBonds_each fuel rest wallet ignoreAdditional
                                 result)) as [o ev'] eqn:Hex
      end.
      intros Heq. injection Heq as -> _. exact (IH _ _ _ _ Hex).
    + rewrite exec_bind.
      match goal with
      | |- context [exec w h ?q] => destruct (exec w h q) as [[r1|e1|] ev1] eqn:Hatt
      end; try discriminate.
      destruct (attempt_done_inv w fuel _ _ h r1 ev1 Hatt) as (ev0 & ev2 & _ & Hask).
      destruct (ask_done w _ _ _ _ _ _ Hask) as (x & Hw & ->).
      destruct (Hp (h ++ ev0) (DAO.contract_address (bond elem)) wallet) as [Hok|[e Hno]];
        [|rewrite Hno in Hw; discriminate].
      rewrite Hok in Hw. injection Hw as <-.
      destruct (exec w (h ++ ev1)
                  (Tools.checkBonds_each fuel rest wallet ignoreAdditional
                     (result + p (DAO.contract_address (bond elem)))))
        as [o ev'] eqn:Hex.
      intros Heq. injection Heq as -> _.
      rewrite (IH _ _ _ _ Hex). lia.
Qed.

Lemma checkBonds_each_queries (w : World) (fuel : nat) (wallet : address)
    (ignoreAdditional : bool) (entries : list (address * BondEntry)) :
  forall (h : trace) (result : Z) (x : address),
    In x (queried (snd (exec w h (Tools.checkBonds_each fuel entries wallet
                                    ignoreAdditional result)))) ->
    exists k elem,
      In (k, elem) entries /\
      DAO.contract_address (bond elem) = x /\
      (ignoreAdditional = false \/ redeemHelper elem = true).
Proof.
  induction entries as [|[k elem] rest IH]; intros h result x.
  - simpl. contradiction.
  - cbn [Tools.checkBonds_each].
    destruct (ignoreAdditional && negb (redeemHelper elem)) eqn:Hskip.
    + cbn [log bind exec].
      match goal with
      | |- context [exec w ?h' (Tools.checkBonds_each _ rest _ _ _)] =>
          pose proof (IH h' result x) as Hrec;
          destruct (exec w h' (Tools.checkBonds_each fuel rest wallet ignoreAdditional
                                 result)) as [o ev']
      end.
      simpl in *. intros Hin. destruct (Hrec Hin) as (k' & elem' & Hin' & Hrest).
      exists k', elem'. auto.
    + rewrite exec_bind.
      match goal with
      | |- context [exec w h ?q] =>
          pose proof (attempt_queries w (DAO.contract_address (bond elem)) wallet result
                        "Error checking bond [%s] payout for %s"
                        [str (name elem); str wallet] fuel h x) as Hatt;
          destruct (exec w h q) as [[r1|e1|] ev1]
      end.
      * pose proof (IH (h ++ ev1) r1 x) as Hrec.
        destruct (exec w (h ++ ev1)
                    (Tools.checkBonds_each fuel rest wallet ignoreAdditional r1))
          as [o ev'].
        simpl in *. rewrite queried_app. intros Hin.
        apply in_app_or in Hin. destruct Hin as [Hin|Hin].
        -- exists k, elem. split; [left; reflexivity|]. split; [symmetry; auto|].
           destruct ignoreAdditional; [right | left; reflexivity].
           simpl in Hskip. apply negb_false_iff in Hskip. exact Hskip.
        -- destruct (Hrec Hin) as (k' & elem' & Hin' & Hrest).
           exists k', elem'. auto.
      * simpl in *. intros Hin.
        exists k, elem. split; [left; reflexivity|]. split; [symmetry; auto|].
        destruct ignoreAdditional; [right | left; reflexivity].
        simpl in Hskip. apply negb_false_iff in Hskip. exact Hskip.
      * simpl in *. intros Hin.
        exists k, elem. split; [left; reflexivity|]. split; [symmetry; auto|].
        destruct ignoreAdditional; [right | left; reflexivity].
        simpl in Hskip. apply negb_false_iff in Hskip. exact Hskip.
Qed.

Lemma shaky_payout_or_rejected (p : address -> Z) : payout_or_rejected (shaky p) p.
Proof.
  intros h b a. simpl. destruct (after_warning h); [left | right; eexists]; reflexivity.
Qed.

(** X5: failed payout queries never distort the sum.  When a query that
    resolves always tells the payout of the position, what [checkBonds]
    returns, after any number of retries, is the total of the positions
    it covers scaled by 10^9: no position is counted twice or left out.
    And with [ignoreAdditional] it never asks for the payout of a
    position that is not bulk-eligible, in any world. *)
Theorem checkBonds_sum_survives_failures :
  (forall w p fuel bonds wallet ignoreAdditional h q ev,
      payout_or_rejected w p ->
      exec w h (Tools.checkBonds fuel bonds wallet ignoreAdditional) = (Done q, ev) ->
      q = formatUnits_gwei (pending_total p ignoreAdditional bonds)) /\
  (forall w fuel bonds wallet h x,
      In x (queried (snd (exec w h (Tools.checkBonds fuel bonds wallet true)))) ->
      exists k elem,
        In (k, elem) bonds /\
        DAO.contract_address (bond elem) = x /\
        redeemHelper elem = true).
Proof.
  split.
  - intros w p fuel bonds wallet ia h q ev Hp. unfold Tools.checkBonds.
    rewrite exec_bind.
    destruct (exec w h (Tools.checkBonds_each fuel bonds wallet ia 0))
      as [[r|e|] ev1] eqn:Hex; try discriminate.
    simpl. intros Heq. injection Heq as <- _.
    rewrite (checkBonds_each_sound w p fuel wallet ia bonds Hp _ _ _ _ Hex).
    reflexivity.
  - intros w fuel bonds wallet h x. unfold Tools.checkBonds. rewrite exec_bind.
    pose proof (checkBonds_each_queries w fuel wallet true bonds h 0 x) as Hq.
    destruct (exec w h (Tools.checkBonds_each fuel bonds wallet true 0))
      as [[r|e|] ev1]; simpl in *; rewrite ?app_nil_r; intros Hin;
      destruct (Hq Hin) as (k & elem & Hin' & Haddr & [Hno|Hyes]);
      try discriminate; exists k, elem; auto.
Qed.

Lemma checkBonds_sum_survives_failures_witness :
  exec (shaky Scenario.five_zero_three) []
       (Tools.checkBonds 2 Scenario.three "0xWALLET" false)
  = (Done (8 # 1000000000),
     snd (exec (shaky Scenario.five_zero_three) []
            (Tools.checkBonds 2 Scenario.three "0xWALLET" false))) /\
  List.length (queried (snd (exec (shaky Scenario.five_zero_three) []
                               (Tools.checkBonds 2 Scenario.three "0xWALLET" false))))
  = 6%nat /\
  (8 # 1000000000)
  = formatUnits_gwei (pending_total Scenario.five_zero_three false Scenario.three) /\
  exists k elem,
    In (k, elem) Scenario.bonds /\
    DAO.contract_address (bond elem) = "0xBULK" /\
    redeemHelper elem = true.
Proof.
  split; [reflexivity|]. split; [reflexivity|]. split.
  - apply (proj1 checkBonds_sum_survives_failures (shaky Scenario.five_zero_three)
             Scenario.five_zero_three 2%nat Scenario.three "0xWALLET" false []
             (8 # 1000000000)
             (snd (exec (shaky Scenario.five_zero_three) []
                     (Tools.checkBonds 2 Scenario.three "0xWALLET" false)))
             (shaky_payout_or_rejected _)).
    reflexivity.
  - apply (proj2 checkBonds_sum_survives_failures (shaky Scenario.both_pending) 2%nat
             Scenario.bonds "0xWALLET" [] "0xBULK").
    vm_compute. tauto.
Defined.

(** ** What [redeemBonds] hands to the chain, in any world *)

Section RedeemShape.
Variable w : World.
Variable wallet : address.
Variable bonds : Tools.Bonds.

Local Notation "'individual'" := (individual_redeem wallet bonds).

Lemma individual_cons (a : address) (rest : list address) (tx : transaction) :
  individual rest tx -> individual (a :: rest) tx.
Proof.
  intros (a' & bd & Hin & Hget & Htx). exists a', bd. split; [right|]; auto.
Qed.

Lemma redeem_each_shape (additionalBonds : list address) :
  forall (h : trace) (receipts : list ethers.ContractReceipt)
         (o : outcome (list ethers.ContractReceipt)) (ev : trace),
    exec w h (Tools.redeem_each wallet bonds additionalBonds receipts) = (o, ev) ->
    Forall (individual additionalBonds) (executed ev) /\
    (List.length (executed ev) <= List.length additionalBonds)%nat /\
    o <> Stalled /\
    (forall rs, o = Done rs ->
                exists new, rs = receipts ++ new /\
                            List.length new = List.length (executed ev)).
Proof.
  induction additionalBonds as [|a rest IH]; intros h receipts o ev.
  - simpl. intros Heq. injection Heq as <- <-. simpl.
    split; [constructor|]. split; [lia|]. split; [discriminate|].
    intros rs Hrs. injection Hrs as <-. exists []. rewrite app_nil_r. auto.
  - cbn [Tools.redeem_each].
    destruct (Tools.getBond bonds a) as [bd|] eqn:Hget.
    + cbn [await bind exec].
      destruct (w _ h (pendingPayoutFor (DAO.contract_address bd) wallet)) as [e|payout];
        cbn [bind exec].
      * intros Heq. injection Heq as <- <-. simpl.
        split; [constructor|]. split; [lia|]. split; discriminate.
      * destruct (0 <? payout).
        -- unfold Tools.attemptRedeemSingle. cbn [log await bind exec].
           match goal with
           | |- context [w _ ?h' (execute ?tx ?n)] =>
               destruct (w _ h' (execute tx n)) as [e|receipt]
           end; cbn [bind exec].
           ++ intros Heq. injection Heq as <- <-. simpl.
              split.
              { constructor; [|constructor]. exists a, bd. split; [left|]; auto. }
              split; [lia|]. split; discriminate.
           ++ match goal with
              | |- context [exec w ?h' (Tools.redeem_each _ _ rest ?rs)] =>
                  destruct (exec w h' (Tools.redeem_each wallet bonds rest rs))
                    as [o' ev'] eqn:Hrec
              end.
              destruct (IH _ _ _ _ Hrec) as (Hall & Hlen & Hns & Hdone).
              intros Heq. injection Heq as <- <-. simpl.
              split.
              { constructor.
                - exists a, bd. split; [left|]; auto.
                - eapply Forall_impl; [|exact Hall]. intros tx. apply individual_cons. }
              split; [lia|]. split; [exact Hns|].
              intros rs Hrs. destruct (Hdone rs Hrs) as (new & -> & Hnew).
              exists (receipt :: new). rewrite <- app_assoc. simpl. auto.
        -- match goal with
           | |- context [exec w ?h' (Tools.redeem_each _ _ rest ?rs)] =>
               destruct (exec w h' (Tools.redeem_each wallet bonds rest rs))
                 as [o' ev'] eqn:Hrec
           end.
           destruct (IH _ _ _ _ Hrec) as (Hall & Hlen & Hns & Hdone).
           intros Heq. injection Heq as <- <-. simpl.
           split.
           { eapply Forall_impl; [|exact Hall]. intros tx. apply individual_cons. }
           split; [lia|]. split; [exact Hns|]. exact Hdone.
    + intros Hrec. destruct (IH _ _ _ _ Hrec) as (Hall & Hlen & Hns & Hdone).
      split.
      { eapply Forall_impl; [|exact Hall]. intros tx. apply individual_cons. }
      split; [simpl; lia|]. split; [exact Hns|]. exact Hdone.
Qed.
End RedeemShape.

Lemma attempt_executes_nothing (w : World) (a wallet : address) (result : Z)
    (format : string) (args : list arg) (fuel : nat) :
  forall h : trace,
    executed (snd (exec w h
                     (Tools.attempt fuel
                        (payout <- await (pendingPayoutFor a wallet) ;;
                         Ret (result + payout))
                        (log lvl_warn format args)))) = [].
Proof.
  induction fuel as [|fuel IH]; intros h.
  - reflexivity.
  - rewrite attempt_S, exec_try_catch.
    match goal with
    | |- context [Tools.attempt fuel ?b ?oe] => set (retry := Tools.attempt fuel b oe) in *
    end.
    cbn [await bind exec].
    destruct (w _ h (pendingPayoutFor a wallet)) as [e|v]; cbn [log bind exec].
    + match goal with
      | |- context [exec w ?h' retry] =>
          pose proof (IH h') as Hrec; destruct (exec w h' retry) as [o ev]
      end.
      simpl in *. exact Hrec.
    + reflexivity.
Qed.

Lemma checkBonds_executes_nothing (w : World) (fuel : nat) (bonds : Tools.Bonds)
    (wallet : address) (ignoreAdditional : bool) (h : trace) :
  executed (snd (exec w h (Tools.checkBonds fuel bonds wallet ignoreAdditional))) = [].
Proof.
  unfold Tools.checkBonds. rewrite exec_bind.
  assert (Heach : forall entries h result,
             executed (snd (exec w h (Tools.checkBonds_each fuel entries wallet
                                        ignoreAdditional result))) = []).
  { induction entries as [|[k elem] rest IH]; intros h' result.
    - reflexivity.
    - cbn [Tools.checkBonds_each].
      destruct (ignoreAdditional && negb (redeemHelper elem)).
      + cbn [log bind exec].
        match goal with
        | |- context [exec w ?h2 (Tools.checkBonds_each _ rest _ _ ?r)] =>
            pose proof (IH h2 r) as Hrec;
            destruct (exec w h2 (Tools.checkBonds_each fuel rest wallet ignoreAdditional r))
              as [o ev]
        end.
        simpl in *. exact Hrec.
      + rewrite exec_bind.
        match goal with
        | |- context [exec w h' ?q] =>
            pose proof (attempt_executes_nothing w (DAO.contract_address (bond elem))
                          wallet result "Error checking bond [%s] payout for %s"
                          [str (name elem); str wallet] fuel h') as Hatt;
            destruct (exec w h' q) as [[r1|e1|] ev1]
        end; simpl in Hatt; [|exact Hatt|exact Hatt].
        pose proof (IH (h' ++ ev1) r1) as Hrec.
        destruct (exec w (h' ++ ev1)
                    (Tools.checkBonds_each fuel rest wallet ignoreAdditional r1))
          as [o ev].
        simpl in *. rewrite executed_app, Hatt, Hrec. reflexivity. }
  pose proof (Heach bonds h 0) as H0.
  destruct (exec w h (Tools.checkBonds_each fuel bonds wallet ignoreAdditional 0))
    as [[r|e|] ev]; simpl in *; rewrite ?app_nil_r; exact H0.
Qed.



(** ** What a tick leaves alone *)

Lemma size_set (m : JsMap.t (K := Z) (V := Z)) (k v : Z) :
  JsMap.size (JsMap.set Z.eqb m k v)
  = if JsMap.has Z.eqb m k then JsMap.size m else S (JsMap.size m).
Proof.
  unfold JsMap.size. rewrite <- !(length_map fst).
  change (map fst (JsMap.set Z.eqb m k v)) with (JsMap.keys (JsMap.set Z.eqb m k v)).
  rewrite (keys_set Z.eqb Z.eqb_spec).
  destruct (JsMap.has Z.eqb m k); [reflexivity|].
  unfold JsMap.keys. rewrite length_app. simpl. lia.
Qed.

(** Recording receipts for epoch [e] touches no other entry and adds at
    most the entry of [e]. *)
Lemma record_frame (w : World) (e : Z) (rs : list ethers.ContractReceipt) :
  forall (h : trace) (b b' : Bot) (ev : trace),
    exec w h (Index.record e rs b) = (Done b', ev) ->
    paused b' = paused b /\
    (forall k, k <> e -> JsMap.get Z.eqb (epochs b') k = JsMap.get Z.eqb (epochs b) k) /\
    (JsMap.size (epochs b') <= S (JsMap.size (epochs b)))%nat /\
    (JsMap.has Z.eqb (epochs b) e = true ->
     JsMap.size (epochs b') = JsMap.size (epochs b)).
Proof.
  induction rs as [|r rest IH]; intros h b b' ev.
  - simpl. intros Heq. injection Heq as <- _. auto.
  - cbn [Index.record log bind exec].
    match goal with
    | |- context [exec w ?h' (Index.record e rest ?b1)] =>
        destruct (exec w h' (Index.record e rest b1)) as [o ev'] eqn:Hrec
    end.
    intros Heq. injection Heq as -> _.
    destruct (IH _ _ _ _ Hrec) as (Hp & Hget & Hsize & Hsame).
    assert (Hnow : JsMap.has Z.eqb (epochs (set_epoch b e (ethers.blockNumber r))) e = true)
      by apply has_set_epoch.
    split; [rewrite Hp; reflexivity|].
    split.
    { intros k Hne. rewrite (Hget k Hne). simpl.
      rewrite (get_set Z.eqb Z.eqb_spec).
      destruct (Z.eqb_spec e k); [congruence | reflexivity]. }
    rewrite (Hsame Hnow). simpl. rewrite size_set.
    split; [destruct (JsMap.has Z.eqb (epochs b) e); lia|].
    intros Hhas. rewrite Hhas. reflexivity.
Qed.

Lemma has_get (m : JsMap.t (K := Z) (V := Z)) (k v : Z) :
  JsMap.get Z.eqb m k = Some v -> JsMap.has Z.eqb m k = true.
Proof. unfold JsMap.has. intros ->. reflexivity. Qed.

Lemma tick_frame (cfg : Config) (bonds : Tools.Bonds) (fuel : nat) (w : World)
    (h : trace) (b b' : Bot) (ev : trace) :
  exec w h (Index.tick cfg bonds fuel b) = (Done b', ev) ->
  paused b' = paused b /\
  (forall k v, JsMap.get Z.eqb (epochs b) k = Some v ->
               JsMap.get Z.eqb (epochs b') k = Some v) /\
  (JsMap.size (epochs b') <= S (JsMap.size (epochs b)))%nat.
Proof.
  rewrite tick_exec.
  destruct (exec w h (Index.evaluate cfg bonds fuel)) as [[[info payout]|e|] ev1];
    try discriminate.
  cbn [fst snd]. destruct (Index.trigger info payout b) eqn:Htr.
  - rewrite act_exec. unfold Index.redeem_and_record. rewrite exec_bind.
    destruct (exec w ((h ++ ev1) ++ [trigger_line])
                (Tools.redeemBonds fuel (myStakingWallet cfg) bonds (ADDITIONAL_BONDS cfg)))
      as [[rs|e|] ev2]; try discriminate.
    + match goal with
      | |- context [exec w ?h' (Index.record ?e rs ?b0)] =>
          destruct (record_done w e rs h' b0) as (b1 & ev3 & Hrec & _)
      end.
      rewrite Hrec. intros Heq. injection Heq as <- _.
      destruct (record_frame w _ _ _ _ _ _ Hrec) as (Hp & Hget & Hsize & _).
      apply trigger_spec in Htr. destruct Htr as (_ & Hfresh & _).
      split; [simpl; rewrite Hp; simpl; apply negb_involutive|].
      split; [|exact Hsize].
      intros k v Hk. simpl. rewrite Hget; [exact Hk|].
      intros ->. apply has_get in Hk. simpl in Hfresh. congruence.
    + intros Heq. injection Heq as <- _. split; [reflexivity|]. split; [auto | lia].
  - intros Heq. injection Heq as <- _. split; [reflexivity|]. split; [auto | lia].
Qed.

Lemma direct_tick_frame (cfg : Config) (bonds : Tools.Bonds)
    (checkBonds : Tools.Bonds -> address -> prog Z) (w : World)
    (h : trace) (b b' : Bot) (ev : trace) :
  exec w h (IndexDirect.tick cfg bonds checkBonds b) = (Done b', ev) ->
  paused b' = paused b /\
  (forall k v, JsMap.get Z.eqb (epochs b) k = Some v ->
               JsMap.get Z.eqb (epochs b') k = Some v) /\
  (JsMap.size (epochs b') <= S (JsMap.size (epochs b)))%nat.
Proof.
  rewrite direct_tick_exec.
  destruct (exec w h (IndexDirect.evaluate cfg bonds checkBonds)) as [[x|e|] ev1];
    try discriminate.
  destruct (IndexDirect.trigger x b) eqn:Htr.
  - rewrite direct_act_exec.
    destruct (exec w ((h ++ ev1) ++ [trigger_line])
                (IndexDirect.redeem_and_record cfg x (toggle b)))
      as [[b1|e|] ev2] eqn:Hrec; try discriminate.
    + destruct (direct_record_done _ _ _ _ _ _ _ Hrec) as (receipt & ->).
      intros Heq. injection Heq as <- _.
      apply direct_trigger_spec in Htr. destruct Htr as (_ & Hfresh & _).
      split; [simpl; apply negb_involutive|].
      split.
      * intros k v Hk. simpl. rewrite (get_set Z.eqb Z.eqb_spec).
        destruct (Z.eqb_spec (IndexDirect.epochNumber x) k) as [<-|Hne]; [|exact Hk].
        apply has_get in Hk. congruence.
      * simpl. rewrite size_set. rewrite Hfresh. lia.
    + intros Heq. injection Heq as <- _. split; [reflexivity|]. split; [auto | lia].
  - intros Heq. injection Heq as <- _. split; [reflexivity|]. split; [auto | lia].
Qed.



(** ** The registry that [getBonds] builds *)

Lemma In_set (m : Tools.Bonds) (k k' : address) (v v' : BondEntry) :
  In (k', v') (JsMap.set String.eqb m k v) -> (k', v') = (k, v) \/ In (k', v') m.
Proof.
  induction m as [|[k0 v0] rest IH]; simpl.
  - intros [H|[]]. left. symmetry. exact H.
  - destruct (String.eqb_spec k0 k) as [->|Hne]; simpl.
    + intros [H|H]; [left; symmetry; exact H | right; right; exact H].
    + intros [H|H]; [auto|]. destruct (IH H); auto.
Qed.

Section Registry.
Variable w : World.
Variable additionalBonds : list address.

Lemma load_bond_loaded (h : trace) (a : address) (entry : BondEntry) (ev : trace) :
  exec w h (Tools.load_bond additionalBonds a) = (Done entry, ev) ->
  w _ h (load_contract a) = resolved (bond entry) /\
  redeemHelper entry = negb (includes additionalBonds (DAO.contract_address (bond entry))).
Proof.
  unfold Tools.load_bond. cbn [await bind exec].
  destruct (w _ h (load_contract a)) as [e|bd] eqn:Hload; cbn [bind exec]; [discriminate|].
  match goal with
  | |- context [w _ ?h' (connectWallet ?c)] => destruct (w _ h' (connectWallet c)) as [e|u]
  end; cbn [bind exec]; [discriminate|].
  match goal with
  | |- context [w _ ?h' (helper_symbol a)] =>
      destruct (w _ h' (helper_symbol a)) as [e|symbols]
  end; cbn [bind exec]; [discriminate|].
  match goal with
  | |- context [w _ ?h' (bond_terms ?c)] =>
      destruct (w _ h' (bond_terms c)) as [e|terms]
  end; cbn [bind exec]; [discriminate|].
  unfold toNumber. destruct (Z.abs (DAO.vestingTerm terms) <=? MAX_SAFE_INTEGER);
    cbn [bind exec]; [|discriminate].
  intros Heq. injection Heq as <- _. simpl. split; reflexivity.
Qed.

Lemma getBonds_each_inv (fuel : nat) :
  forall (addrs : list address) (result : Tools.Bonds) (h : trace)
         (bonds : Tools.Bonds) (ev : trace),
    exec w h (Tools.getBonds_each fuel additionalBonds addrs result) = (Done bonds, ev) ->
    NoDup (JsMap.keys result) ->
    (forall k e, In (k, e) result -> filed w additionalBonds k e) ->
    NoDup (JsMap.keys bonds) /\
    (forall k e, In (k, e) bonds -> filed w additionalBonds k e) /\
    (forall k, In k (JsMap.keys bonds) <-> In k (JsMap.keys result) \/ In k addrs).
Proof.
  induction addrs as [|a rest IH]; intros result h bonds ev.
  - simpl. intros Heq Hnd Hall. injection Heq as <- _.
    split; [exact Hnd|]. split; [exact Hall|]. intros k. tauto.
  - cbn [Tools.getBonds_each]. rewrite exec_bind.
    match goal with
    | |- context [exec w h (Tools.attempt fuel ?body ?oe)] =>
        destruct (exec w h (Tools.attempt fuel body oe)) as [[result'|e|] ev1] eqn:Hatt
    end; try discriminate.
    destruct (exec w (h ++ ev1) (Tools.getBonds_each fuel additionalBonds rest result'))
      as [[bonds'|e|] ev2] eqn:Hrest; try discriminate.
    intros Heq Hnd Hall. injection Heq as <- _.
    apply attempt_done_inv in Hatt. destruct Hatt as (ev0 & ev3 & _ & Hbody).
    rewrite exec_bind in Hbody.
    destruct (exec w (h ++ ev0) (Tools.load_bond additionalBonds a))
      as [[entry|e|] ev4] eqn:Hload; try discriminate.
    cbn [log bind exec] in Hbody. injection Hbody as <- _.
    apply load_bond_loaded in Hload. destruct Hload as (Hloaded & Hflag).
    destruct (IH _ _ _ _ Hrest) as (Hnd' & Hall' & Hkeys').
    + apply (NoDup_keys_set String.eqb String.eqb_spec). exact Hnd.
    + intros k e Hin. apply In_set in Hin. destruct Hin as [Heq|Hin].
      * injection Heq as -> ->. split; [exact Hflag|]. eexists. exact Hloaded.
      * apply Hall. exact Hin.
    + split; [exact Hnd'|]. split; [exact Hall'|].
      intros k. rewrite Hkeys'. rewrite (keys_set String.eqb String.eqb_spec).
      destruct (JsMap.has String.eqb result a) eqn:Hhas.
      * apply (has_In_keys String.eqb String.eqb_spec) in Hhas. simpl.
        split; [tauto|]. intros [H|[<-|H]]; auto.
      * rewrite in_app_iff. simpl. tauto.
Qed.

Lemma getBonds_each_never_throws (fuel : nat) :
  forall (addrs : list address) (result : Tools.Bonds) (h : trace) (e : string)
         (ev : trace),
    exec w h (Tools.getBonds_each fuel additionalBonds addrs result) <> (Thrown e, ev).
Proof.
  induction addrs as [|a rest IH]; intros result h e ev.
  - simpl. discriminate.
  - cbn [Tools.getBonds_each]. rewrite exec_bind.
    match goal with
    | |- context [exec w h (Tools.attempt fuel ?body ?oe)] =>
        pose proof (attempt_never_throws w fuel body lvl_warn
                      "Error loading bond ABI, pausing 2 seconds to try again..." [] h)
          as Hno;
        destruct (exec w h (Tools.attempt fuel body oe)) as [[result'|e'|] ev1] eqn:Hatt
    end.
    + destruct (exec w (h ++ ev1) (Tools.getBonds_each fuel additionalBonds rest result'))
        as [[bonds'|e'|] ev2] eqn:Hrest; try discriminate.
      exfalso. exact (IH _ _ _ _ Hrest).
    + exfalso. exact (Hno _ _ eq_refl).
    + discriminate.
Qed.
End Registry.

(** X8: the registry that [getBonds] returns.  The call is rejected only
    when the redeem helper's list cannot be fetched.  When it returns, the
    registry has one entry per key, its keys are the addresses of the
    helper's list and the additional ones, every entry holds a contract
    that the scanner loaded for its key and is marked for the bulk redeem
    exactly when the address of that contract is not an additional one;
    with a scanner that answers with the contract at the address asked
    for, the registry is in step with the additional list. *)
Theorem getBonds_registry :
  forall (w : World) fuel maxBonds additionalBonds h o ev,
    exec w h (Tools.getBonds fuel maxBonds additionalBonds) = (o, ev) ->
    (forall e, o = Thrown e ->
       exists h', w _ h' (redeemHelper_getBonds maxBonds) = rejected e) /\
    (forall bonds, o = Done bonds ->
       NoDup (JsMap.keys bonds) /\
       (forall k e, In (k, e) bonds -> filed w additionalBonds k e) /\
       (exists h' discovered,
          w _ h' (redeemHelper_getBonds maxBonds) = resolved discovered /\
          forall k, In k (JsMap.keys bonds) <-> In k (discovered ++ additionalBonds)) /\
       (loads_faithfully w -> registry_of additionalBonds bonds)).
Proof.
  intros w fuel maxBonds additionalBonds h o ev.
  unfold Tools.getBonds. cbn [log bind exec await].
  match goal with
  | |- context [w _ ?h' (redeemHelper_getBonds maxBonds)] =>
      destruct (w _ h' (redeemHelper_getBonds maxBonds)) as [e|discovered] eqn:Hlist
  end.
  - cbn [bind exec]. intros Heq. injection Heq as <- _. split.
    + intros e' He. injection He as <-. eexists. exact Hlist.
    + intros bonds Hd. discriminate.
  - cbn [bind exec]. rewrite exec_bind.
    match goal with
    | |- context [exec w ?h' (Tools.getBonds_each fuel additionalBonds ?l ?r)] =>
        pose proof (getBonds_each_never_throws w additionalBonds fuel l r h') as Hno;
        destruct (exec w h' (Tools.getBonds_each fuel additionalBonds l r))
          as [[result|e|] ev1] eqn:Heach
    end.
    + cbn [log bind exec]. intros Heq. injection Heq as <- _. split; [discriminate|].
      intros bonds Hd. injection Hd as <-.
      apply getBonds_each_inv in Heach; [|constructor|intros k e []].
      destruct Heach as (Hnd & Hall & Hkeys).
      split; [exact Hnd|]. split; [exact Hall|]. split.
      * eexists. exists discovered. split; [exact Hlist|].
        intros k. rewrite Hkeys. simpl. tauto.
      * intros Hfaithful. split; [exact Hnd|].
        intros k e Hin. destruct (Hall k e Hin) as (Hflag & h1 & Hload).
        apply Hfaithful in Hload. split; [symmetry; exact Hload|].
        rewrite Hflag, Hload. reflexivity.
    + exfalso. exact (Hno _ _ eq_refl).
    + intros Heq. injection Heq as <- _. split; discriminate.
Qed.

Lemma getBonds_registry_witness :
  fst (exec (Scenario.healthy Scenario.both_pending) []
         (Tools.getBonds 1 20 ["0xSUPP"])) = Done Scenario.bonds /\
  registry_of ["0xSUPP"] Scenario.bonds.
Proof.
  split; [vm_compute; reflexivity|].
  refine (proj2 (proj2 (proj2 (proj2 (getBonds_registry
            (Scenario.healthy Scenario.both_pending) 1%nat 20 ["0xSUPP"] []
            (Done Scenario.bonds)
            (snd (exec (Scenario.healthy Scenario.both_pending) []
                    (Tools.getBonds 1 20 ["0xSUPP"]))) _)
            Scenario.bonds eq_refl))) _).
  - vm_compute. reflexivity.
  - intros h a bd Hload. simpl in Hload. injection Hload as <-. reflexivity.
Defined.

(** ** Where transactions come from *)

Lemma attempt_quiet {A : Type} (w : World) (body : prog A) (l : level)
    (format : string) (args : list arg) :
  (forall h, executed (snd (exec w h body)) = []) ->
  forall (fuel : nat) (h : trace),
    executed (snd (exec w h (Tools.attempt fuel body (log l format args)))) = [].
Proof.
  intros Hbody. induction fuel as [|fuel IH]; intros h.
  - reflexivity.
  - rewrite attempt_S, exec_try_catch.
    pose proof (Hbody h) as Hnow.
    destruct (exec w h body) as [[a|e|] ev1]; simpl in Hnow; try exact Hnow.
    cbn [log bind exec].
    match goal with
    | |- context [exec w ?h' (Tools.attempt fuel body ?oe)] =>
        pose proof (IH h') as Hnext;
        destruct (exec w h' (Tools.attempt fuel body oe)) as [o ev2]
    end.
    simpl in Hnext. simpl. rewrite executed_app, Hnow. simpl. exact Hnext.
Qed.

Lemma getLoopData_executes_nothing (w : World) (fuel : nat)
    (staking stakedToken timetracker wallet : address) (h : trace) :
  executed (snd (exec w h (Tools.getLoopData fuel staking stakedToken timetracker wallet)))
  = [].
Proof.
  unfold Tools.getLoopData. apply attempt_quiet. clear h. intros h.
  unfold Tools.getLoopData_body, toNumber. cbn [await bind exec].
  destruct (w _ h (helper_info staking stakedToken timetracker wallet)) as [e|i];
    cbn [bind exec]; [reflexivity|].
  repeat match goal with
         | |- context [if ?c then _ else _] => destruct c; cbn [bind exec]
         end; reflexivity.
Qed.

Lemma evaluate_executes_nothing (cfg : Config) (bonds : Tools.Bonds) (fuel : nat)
    (w : World) (h : trace) :
  executed (snd (exec w h (Index.evaluate cfg bonds fuel))) = [].
Proof.
  unfold Index.evaluate. rewrite exec_bind.
  pose proof (getLoopData_executes_nothing w fuel (STAKING_CONTRACT cfg)
                (STAKED_TOKEN_CONTRACT cfg) (BLOCK_TIME_TRACKER cfg)
                (myStakingWallet cfg) h) as Hloop.
  destruct (exec w h (Tools.getLoopData fuel (STAKING_CONTRACT cfg)
                        (STAKED_TOKEN_CONTRACT cfg) (BLOCK_TIME_TRACKER cfg)
                        (myStakingWallet cfg))) as [[i|e|] ev1];
    simpl in Hloop; try exact Hloop.
  rewrite exec_bind.
  pose proof (checkBonds_executes_nothing w fuel bonds (myStakingWallet cfg) false
                (h ++ ev1)) as Hcheck.
  destruct (exec w (h ++ ev1) (Tools.checkBonds fuel bonds (myStakingWallet cfg) false))
    as [[q|e|] ev2]; simpl in Hcheck; simpl snd;
    try (rewrite executed_app, Hloop, Hcheck; reflexivity).
  unfold Tools.secondsToHuman.
  destruct (Z.abs (Tools.delta i * 1000) <=? 8640000000000000); cbn [await bind exec].
  - destruct (w _ ((h ++ ev1) ++ ev2) wallet_getBalance); cbn [bind exec snd];
      rewrite !executed_app, Hloop, Hcheck; reflexivity.
  - cbn [snd]. rewrite !executed_app, Hloop, Hcheck. reflexivity.
Qed.

Lemma record_executes_nothing (w : World) (e : Z) (rs : list ethers.ContractReceipt) :
  forall (h : trace) (b : Bot),
    executed (snd (exec w h (Index.record e rs b))) = [].
Proof.
  induction rs as [|r rest IH]; intros h b.
  - reflexivity.
  - cbn [Index.record log bind exec].
    match goal with
    | |- context [exec w ?h' (Index.record e rest ?b1)] =>
        pose proof (IH h' b1) as Hnext;
        destruct (exec w h' (Index.record e rest b1)) as [o ev]
    end.
    exact Hnext.
Qed.

(** The transactions of a tick are those of the redeem procedure, run
    after the trigger was found satisfied. *)
Lemma tick_executed (w : World) (cfg : Config) (bonds : Tools.Bonds) (fuel : nat)
    (h : trace) (b : Bot) (o : outcome Bot) (ev : trace) :
  exec w h (Index.tick cfg bonds fuel b) = (o, ev) ->
  executed ev = [] \/
  exists info payout ev0 o' ev1,
    exec w h (Index.evaluate cfg bonds fuel) = (Done (info, payout), ev0) /\
    Index.trigger info payout b = true /\
    exec w ((h ++ ev0) ++ [trigger_line])
      (Tools.redeemBonds fuel (myStakingWallet cfg) bonds (ADDITIONAL_BONDS cfg))
    = (o', ev1) /\
    executed ev = executed ev1.
Proof.
  rewrite tick_exec.
  pose proof (evaluate_executes_nothing cfg bonds fuel w h) as Hquiet.
  destruct (exec w h (Index.evaluate cfg bonds fuel)) as [[[info payout]|e|] ev0];
    simpl in Hquiet.
  - cbn [fst snd]. destruct (Index.trigger info payout b) eqn:Htr.
    + rewrite act_exec. unfold Index.redeem_and_record. rewrite exec_bind.
      destruct (exec w ((h ++ ev0) ++ [trigger_line])
                  (Tools.redeemBonds fuel (myStakingWallet cfg) bonds
                     (ADDITIONAL_BONDS cfg))) as [o1 ev1] eqn:Hred.
      destruct o1 as [rs|e|].
      * match goal with
        | |- context [exec w ?h' (Index.record ?e rs ?b0)] =>
            pose proof (record_executes_nothing w e rs h' b0) as Hrec;
            destruct (exec w h' (Index.record e rs b0)) as [[b1|e1|] ev2]
        end; simpl in Hrec; intros Heq; injection Heq as <- <-; right;
          exists info, payout, ev0, (Done rs), ev1;
          repeat (split; [assumption || reflexivity|]);
          repeat (rewrite executed_app; simpl);
          rewrite Hquiet, Hrec; simpl; rewrite ?app_nil_r; reflexivity.
      * intros Heq. injection Heq as <- <-. right.
        exists info, payout, ev0, (Thrown e), ev1.
        repeat (split; [assumption || reflexivity|]).
        repeat (rewrite executed_app; simpl).
        rewrite Hquiet. simpl. rewrite ?app_nil_r. reflexivity.
      * intros Heq. injection Heq as <- <-. right.
        exists info, payout, ev0, Stalled, ev1.
        repeat (split; [assumption || reflexivity|]).
        repeat (rewrite executed_app; simpl).
        rewrite Hquiet. reflexivity.
    + intros Heq. injection Heq as <- <-. left. exact Hquiet.
  - intros Heq. injection Heq as <- <-. left. exact Hquiet.
  - intros Heq. injection Heq as <- <-. left. exact Hquiet.
Qed.



(** ** A registry in step with the list, and the ledger *)

Lemma pending_total_nonneg (p : address -> Z) (ignoreAdditional : bool)
    (entries : list (address * BondEntry)) :
  (forall a, 0 <= p a) -> 0 <= pending_total p ignoreAdditional entries.
Proof.
  intros Hp. induction entries as [|[k e] rest IH]; simpl; [lia|].
  destruct (ignoreAdditional && negb (redeemHelper e)); [exact IH|].
  pose proof (Hp (DAO.contract_address (bond e))). lia.
Qed.

(** Something pending overall is pending in bulk or on a position that is
    not marked for the bulk redeem. *)
Lemma pending_somewhere (p : address -> Z) (entries : list (address * BondEntry)) :
  (forall a, 0 <= p a) ->
  0 < pending_total p false entries ->
  0 < pending_total p true entries \/
  exists k e, In (k, e) entries /\ redeemHelper e = false /\
              0 < p (DAO.contract_address (bond e)).
Proof.
  intros Hp. induction entries as [|[k e] rest IH]; simpl; [lia|].
  pose proof (Hp (DAO.contract_address (bond e))) as Hnow.
  pose proof (pending_total_nonneg p true rest Hp) as Hrest.
  intros Hpos. destruct (redeemHelper e) eqn:Hflag; simpl.
  - destruct (Z.eq_dec (p (DAO.contract_address (bond e))) 0) as [Hz|Hnz].
    + destruct IH as [Hb|(k' & e' & Hin & Hf & Hp')]; [lia | left; lia |].
      right. exists k', e'. auto.
    + left. lia.
  - destruct (Z.eq_dec (p (DAO.contract_address (bond e))) 0) as [Hz|Hnz].
    + destruct IH as [Hb|(k' & e' & Hin & Hf & Hp')]; [lia | left; exact Hb |].
      right. exists k', e'. auto.
    + right. exists k, e. split; [left; reflexivity|]. split; [exact Hflag | lia].
Qed.

Lemma get_In_NoDup (m : Tools.Bonds) (k : address) (e : BondEntry) :
  NoDup (JsMap.keys m) -> In (k, e) m -> JsMap.get String.eqb m k = Some e.
Proof.
  induction m as [|[k0 e0] rest IH]; simpl; [contradiction|].
  intros Hnd [Heq|Hin].
  - injection Heq as -> ->. rewrite String.eqb_refl. reflexivity.
  - inversion Hnd as [|? ? Hnotin Hnd']; subst.
    destruct (String.eqb_spec k0 k) as [->|Hne].
    + exfalso. apply Hnotin. apply (in_map fst) in Hin. exact Hin.
    + apply IH; assumption.
Qed.

Lemma includes_In (l : list string) (x : string) : includes l x = true -> In x l.
Proof.
  unfold includes. rewrite existsb_exists. intros (y & Hin & Heq).
  apply String.eqb_eq in Heq. subst. exact Hin.
Qed.

(** With a registry in step with the list, something pending means that
    the redeem procedure has a transaction to send. *)
Lemma registry_has_work (p : address -> Z) (wallet : address) (bonds : Tools.Bonds)
    (additionalBonds : list address) :
  registry_of additionalBonds bonds ->
  (forall a, 0 <= p a) ->
  0 < pending_total p false bonds ->
  (if 0 <? pending_total p true bonds then [redeemAll wallet true] else [])
  ++ due p wallet bonds additionalBonds <> [].
Proof.
  intros (Hnd & Hreg) Hp Hpos.
  destruct (pending_somewhere p bonds Hp Hpos) as [Hbulk|(k & e & Hin & Hflag & Hpe)].
  - apply Z.ltb_lt in Hbulk. rewrite Hbulk. discriminate.
  - destruct (Hreg k e Hin) as (Hkey & Hmark).
    rewrite Hflag in Hmark. symmetry in Hmark. apply negb_false_iff in Hmark.
    apply includes_In in Hmark.
    assert (Hget : Tools.getBond bonds k = Some (bond e)).
    { unfold Tools.getBond, JsMap.has. rewrite (get_In_NoDup bonds k e Hnd Hin).
      reflexivity. }
    pose proof (due_In p wallet bonds additionalBonds k (bond e) Hmark Hget Hpe) as Hdue.
    intros Hnil. apply app_eq_nil in Hnil. destruct Hnil as [_ Hnil].
    rewrite Hnil in Hdue. contradiction.
Qed.

(** The ledger keeps the block of the last receipt. *)
Lemma record_last (w : World) (e : Z) (r : ethers.ContractReceipt) :
  forall (rs : list ethers.ContractReceipt) (h : trace) (b b' : Bot) (ev : trace),
    exec w h (Index.record e (rs ++ [r]) b) = (Done b', ev) ->
    JsMap.get Z.eqb (epochs b') e = Some (ethers.blockNumber r).
Proof.
  induction rs as [|r0 rest IH]; intros h b b' ev.
  - simpl. intros Heq. injection Heq as <- _. simpl.
    rewrite (get_set Z.eqb Z.eqb_spec), Z.eqb_refl. reflexivity.
  - cbn [app Index.record log bind exec].
    match goal with
    | |- context [exec w ?h' (Index.record e (rest ++ [r]) ?b1)] =>
        destruct (exec w h' (Index.record e (rest ++ [r]) b1)) as [o ev'] eqn:Hrec
    end.
    intros Heq. injection Heq as -> _. exact (IH _ _ _ _ Hrec).
Qed.

Section RegistryInStep.
Variable w : World.
Variable p : address -> Z.
Variable rc : transaction -> ethers.ContractReceipt.
Variable cfg : Config.
Variable bonds : Tools.Bonds.
Variable fuel : nat.
Hypothesis payouts : answers_payout w p.
Hypothesis nonneg : forall a, 0 <= p a.
Hypothesis confirmed : confirms w rc.
Hypothesis in_step : registry_of (ADDITIONAL_BONDS cfg) bonds.

Lemma triggered_tick (h : trace) (b : Bot) (info : Tools.StakingInformation)
    (payout : Q) (ev : trace) :
  exec w h (Index.evaluate cfg bonds (S fuel)) = (Done (info, payout), ev) ->
  Index.trigger info payout b = true ->
  exists b' ev' txs tx,
    exec w h (Index.tick cfg bonds (S fuel) b) = (Done b', ev') /\
    executed ev' = txs ++ [tx] /\
    txs ++ [tx] = to_send p cfg bonds /\
    JsMap.get Z.eqb (epochs b') (Tools.epochNumber info)
    = Some (ethers.blockNumber (rc tx)) /\
    paused b' = paused b.
Proof.
  intros Hev Htr. unfold to_send.
  pose proof payouts as Hp. pose proof nonneg as Hnonneg.
  pose proof confirmed as Hrc. pose proof in_step as Hreg.
  pose proof (evaluate_executes_nothing cfg bonds (S fuel) w h) as Hquiet.
  rewrite Hev in Hquiet. simpl in Hquiet.
  destruct (evaluate_inv _ _ _ _ _ _ _ _ Hev) as (ev1 & ev2 & _ & Hcheck & _).
  apply (checkBonds_total w p Hp) in Hcheck.
  pose proof Htr as Htr'. apply trigger_spec in Htr'. destruct Htr' as (_ & _ & Hpos).
  rewrite Hcheck in Hpos. apply gt0_spec in Hpos.
  change (gt0 (formatUnits_gwei (pending_total p false bonds)))
    with (0 <? pending_total p false bonds) in Hpos.
  apply Z.ltb_lt in Hpos.
  pose proof (registry_has_work p (myStakingWallet cfg) bonds (ADDITIONAL_BONDS cfg)
                Hreg Hnonneg Hpos) as Hwork.
  destruct (redeemBonds_confirmed w p Hp (myStakingWallet cfg) bonds rc fuel
              (ADDITIONAL_BONDS cfg) ((h ++ ev) ++ [trigger_line]) Hrc)
    as (ev3 & Hred & Hsent).
  cbv zeta in Hred, Hsent.
  destruct (exists_last Hwork) as (txs & tx & Hlast).
  rewrite Hlast in Hred, Hsent. rewrite map_app in Hred. simpl in Hred.
  destruct (record_done w (Tools.epochNumber info)
              (map rc txs ++ [rc tx]) (((h ++ ev) ++ [trigger_line]) ++ ev3) (toggle b))
    as (b1 & ev4 & Hrec & _ & Hpaused & _).
  pose proof (record_last w _ _ _ _ _ _ _ Hrec) as Hget.
  pose proof (record_executes_nothing w (Tools.epochNumber info)
                (map rc txs ++ [rc tx]) (((h ++ ev) ++ [trigger_line]) ++ ev3) (toggle b))
    as Hrecq.
  rewrite Hrec in Hrecq. simpl in Hrecq.
  exists (toggle b1), (ev ++ trigger_line :: ev3 ++ ev4), txs, tx.
  split.
  { rewrite tick_exec, Hev. cbn [fst snd]. rewrite Htr, act_exec.
    unfold Index.redeem_and_record. rewrite exec_bind, Hred, Hrec. reflexivity. }
  split.
  { rewrite executed_app, Hquiet. simpl. rewrite executed_app, Hsent, Hrecq.
    apply app_nil_r. }
  split; [symmetry; exact Hlast|].
  split; [exact Hget|].
  simpl. rewrite Hpaused. simpl. apply negb_involutive.
Qed.

(** While the epoch stands still the status report comes out the same,
    whatever happened before. *)
Lemma evaluate_steady (i : DAOInformationHelper.Info) (h : trace) :
  steady_epoch w cfg i ->
  all_safe i ->
  Z.abs (Tools.delta (reported i) * 1000) <= 8640000000000000 ->
  exists ev,
    exec w h (Index.evaluate cfg bonds (S fuel))
    = (Done (reported i, formatUnits_gwei (pending_total p false bonds)), ev).
Proof.
  intros (Hinfo & Hbal) Hsafe Hdate.
  unfold Index.evaluate. rewrite exec_bind.
  unfold Tools.getLoopData. rewrite attempt_S, exec_try_catch.
  rewrite (getLoopData_body_resolved w _ _ _ _ h i (Hinfo h) Hsafe).
  rewrite exec_bind.
  destruct (checkBonds_steady w p payouts (myStakingWallet cfg) fuel bonds false
              (h ++ [Called (helper_info (STAKING_CONTRACT cfg) (STAKED_TOKEN_CONTRACT cfg)
                               (BLOCK_TIME_TRACKER cfg) (myStakingWallet cfg))]))
    as (ev2 & Hcheck & _).
  rewrite Hcheck. unfold Tools.secondsToHuman.
  apply Z.leb_le in Hdate. rewrite Hdate. cbn [await bind exec].
  match goal with
  | |- context [w _ ?h' wallet_getBalance] => destruct (Hbal h') as (v & Hv); rewrite Hv
  end.
  cbn [bind exec]. eexists. reflexivity.
Qed.

(** Once the epoch is in the ledger, a tick changes nothing and sends
    nothing. *)
Lemma recorded_tick (i : DAOInformationHelper.Info) (h : trace) (b : Bot) :
  steady_epoch w cfg i ->
  all_safe i ->
  Z.abs (Tools.delta (reported i) * 1000) <= 8640000000000000 ->
  JsMap.has Z.eqb (epochs b) (Tools.epochNumber (reported i)) = true ->
  exists ev,
    exec w h (Index.tick cfg bonds (S fuel) b) = (Done b, ev) /\ executed ev = [].
Proof.
  intros Hsteady Hsafe Hdate Hhas. rewrite tick_exec.
  destruct (evaluate_steady i h Hsteady Hsafe Hdate) as (ev & Hev).
  pose proof (evaluate_executes_nothing cfg bonds (S fuel) w h) as Hquiet.
  rewrite Hev in *. cbn [fst snd] in *.
  assert (Hno : Index.trigger (reported i)
                  (formatUnits_gwei (pending_total p false bonds)) b = false).
  { unfold Index.trigger. rewrite Hhas. simpl. rewrite andb_false_r. reflexivity. }
  rewrite Hno. exists ev. auto.
Qed.

Lemma steps_recorded (i : DAOInformationHelper.Info) :
  steady_epoch w cfg i ->
  all_safe i ->
  Z.abs (Tools.delta (reported i) * 1000) <= 8640000000000000 ->
  forall s s',
    steps w (Index.tick cfg bonds (S fuel)) s s' ->
    JsMap.has Z.eqb (epochs (snd s)) (Tools.epochNumber (reported i)) = true ->
    executed (fst s') = executed (fst s) /\ snd s' = snd s.
Proof.
  intros Hsteady Hsafe Hdate s s' Hsteps.
  induction Hsteps as [s|s1 s2 s3 Hstep _ IH]; intros Hhas; [auto|].
  assert (Hone : executed (fst s2) = executed (fst s1) /\ snd s2 = snd s1).
  { destruct Hstep as [h b b' ev Hex|h b e ev Hex]; cbn [fst snd] in *;
      destruct (recorded_tick i h b Hsteady Hsafe Hdate Hhas) as (ev0 & Hex0 & Hquiet);
      rewrite Hex0 in Hex; [injection Hex as <- <- | discriminate].
    rewrite executed_app, Hquiet, app_nil_r. auto. }
  destruct Hone as (Hsent & Hsame).
  rewrite Hsame in IH. destruct (IH Hhas) as (Hsent' & Hsame').
  split; congruence.
Qed.

(** From a ledger without the epoch the loop sends the transactions of
    the redeem procedure on its first step and none after that. *)
Lemma steps_once (i : DAOInformationHelper.Info) (h : trace) (b : Bot)
    (s' : trace * Bot) :
  steady_epoch w cfg i ->
  all_safe i ->
  -8640000000000 <= Tools.delta (reported i) <= 300 ->
  0 < pending_total p false bonds ->
  JsMap.has Z.eqb (epochs b) (Tools.epochNumber (reported i)) = false ->
  steps w (Index.tick cfg bonds (S fuel)) (h, b) s' ->
  s' = (h, b) \/
  exists txs tx,
    to_send p cfg bonds = txs ++ [tx] /\
    executed (fst s') = executed h ++ to_send p cfg bonds /\
    JsMap.get Z.eqb (epochs (snd s')) (Tools.epochNumber (reported i))
    = Some (ethers.blockNumber (rc tx)) /\
    paused (snd s') = paused b.
Proof.
  intros Hsteady Hsafe Hdelta Hpos Hfresh Hsteps.
  assert (Hdate : Z.abs (Tools.delta (reported i) * 1000) <= 8640000000000000)
    by (apply Z.abs_le; lia).
  destruct (evaluate_steady i h Hsteady Hsafe Hdate) as (ev & Hev).
  assert (Htr : Index.trigger (reported i)
                  (formatUnits_gwei (pending_total p false bonds)) b = true).
  { apply trigger_spec. split; [apply Hdelta|]. split; [exact Hfresh|].
    apply gt0_spec. apply Z.ltb_lt. exact Hpos. }
  destruct (triggered_tick h b _ _ ev Hev Htr)
    as (b' & ev' & txs & tx & Htick & Hsent & Hlist & Hget & Hpaused).
  inversion Hsteps as [s Hs|s1 s2 s3 Hstep Hrest]; subst; [left; reflexivity|].
  right. exists txs, tx. split; [symmetry; exact Hlist|].
  assert (Hs2 : s2 = (h ++ ev', b')).
  { inversion Hstep as [h0 b0 b1 ev0 Hex|h0 b0 e ev0 Hex]; subst;
      rewrite Htick in Hex; [injection Hex as <- <-; reflexivity | discriminate]. }
  subst s2.
  destruct (steps_recorded i Hsteady Hsafe Hdate _ _ Hrest (has_get _ _ _ Hget))
    as (Hsame_sent & Hsame_bot).
  simpl in Hsame_sent, Hsame_bot.
  rewrite Hsame_sent, Hsame_bot, executed_app, Hsent, Hlist.
  split; [reflexivity|]. split; [exact Hget | exact Hpaused].
Qed.
End RegistryInStep.

(** X9: with a registry in step with the list of additional positions,
    in a world that reports fixed payouts, none negative, and confirms
    every transaction, a tick that finds the trigger satisfied sends at
    least one transaction, ends normally and leaves the epoch in the
    ledger, under the block in which the last transaction it sent was
    confirmed; the transactions of the tick are the bulk redeem, when
    the bulk-eligible total is positive, followed by the individual
    redemptions that are due. *)
Theorem triggered_tick_records_epoch :
  forall (w : World) p rc cfg bonds fuel h b info payout ev,
    answers_payout w p ->
    (forall a, 0 <= p a) ->
    confirms w rc ->
    registry_of (ADDITIONAL_BONDS cfg) bonds ->
    exec w h (Index.evaluate cfg bonds (S fuel)) = (Done (info, payout), ev) ->
    Index.trigger info payout b = true ->
    exists b' ev' txs tx,
      exec w h (Index.tick cfg bonds (S fuel) b) = (Done b', ev') /\
      executed ev' = txs ++ [tx] /\
      txs ++ [tx] = to_send p cfg bonds /\
      JsMap.get Z.eqb (epochs b') (Tools.epochNumber info)
      = Some (ethers.blockNumber (rc tx)) /\
      paused b' = paused b.
Proof.
  intros w p rc cfg bonds fuel h b info payout ev Hp Hnonneg Hrc Hreg.
  apply (triggered_tick w p rc cfg bonds fuel Hp Hnonneg Hrc Hreg).
Qed.

Lemma triggered_tick_records_epoch_witness :
  exists b' ev' txs tx,
    exec (Scenario.healthy Scenario.only_single_pending) []
      (Index.tick Scenario.cfg Scenario.bonds 1 start) = (Done b', ev') /\
    executed ev' = txs ++ [tx] /\
    txs ++ [tx] = to_send Scenario.only_single_pending Scenario.cfg Scenario.bonds /\
    JsMap.get Z.eqb (epochs b') (Tools.epochNumber Scenario.info12)
    = Some (ethers.blockNumber (Scenario.receipt_of tx)) /\
    paused b' = paused start.
Proof.
  apply (triggered_tick_records_epoch
           (Scenario.healthy Scenario.only_single_pending) Scenario.only_single_pending
           Scenario.receipt_of Scenario.cfg Scenario.bonds 0%nat [] start
           Scenario.info12 (5 # 1000000000) Scenario.seen).
  - intros h b a. reflexivity.
  - intros a. unfold Scenario.only_single_pending.
    destruct (String.eqb a "0xSUPP"); lia.
  - intros h tx n. reflexivity.
  - split.
    + simpl. constructor; [simpl; intros [H|[]]; discriminate|].
      constructor; [simpl; tauto | constructor].
    + intros k e [H|[H|[]]]; injection H as <- <-; split; reflexivity.
  - reflexivity.
  - reflexivity.
Defined.

(** ** Start-up *)

Lemma or_undefined_none (v : option string) :
  Startup.or_undefined v = None <-> v = None \/ v = Some "".
Proof.
  unfold Startup.or_undefined. destruct v as [s|].
  - destruct (String.length s =? 0)%nat eqn:Hlen.
    + apply length_zero_empty in Hlen. subst. split; auto.
    + split; [discriminate|]. intros [H|H]; [discriminate|].
      injection H as ->. discriminate.
  - split; auto.
Qed.

Lemma or_undefined_some (v : option string) (s : string) :
  Startup.or_undefined v = Some s -> v = Some s /\ s <> "".
Proof.
  unfold Startup.or_undefined. destruct v as [s'|]; [|discriminate].
  destruct (String.length s' =? 0)%nat eqn:Hlen; [discriminate|].
  intros H. injection H as ->. split; [reflexivity|].
  intros ->. discriminate.
Qed.

(** X12: the checks before the loop.  The process exits exactly when
    DAO_WALLET_ADDRESS is unset or empty, and then only the lines about
    the wallet address are logged.  Otherwise the loop works with that
    address and with no additional position.  The address of the staked
    token is read from a variable spelled STAKED_TOKEN_CONTARCT: setting
    STAKED_TOKEN_CONTRACT changes none of the constants. *)
Theorem startup_constants :
  (forall env,
      snd (Startup.preflight (Startup.settings env)) = None <->
      env "DAO_WALLET_ADDRESS" = None \/ env "DAO_WALLET_ADDRESS" = Some "") /\
  (forall env,
      snd (Startup.preflight (Startup.settings env)) = None ->
      fst (Startup.preflight (Startup.settings env)) = Startup.no_wallet_lines) /\
  (forall env cfg,
      snd (Startup.preflight (Startup.settings env)) = Some cfg ->
      env "DAO_WALLET_ADDRESS" = Some (myStakingWallet cfg) /\
      myStakingWallet cfg <> "" /\
      ADDITIONAL_BONDS cfg = []) /\
  (forall env value,
      Startup.settings (Startup.setenv env "STAKED_TOKEN_CONTRACT" value)
      = Startup.settings env).
Proof.
  split; [|split; [|split]].
  - intros env. rewrite <- or_undefined_none.
    unfold Startup.preflight, Startup.settings. simpl.
    destruct (Startup.or_undefined (env "DAO_WALLET_ADDRESS")); simpl;
      split; auto; discriminate.
  - intros env. unfold Startup.preflight, Startup.settings. simpl.
    destruct (Startup.or_undefined (env "DAO_WALLET_ADDRESS")); simpl;
      [discriminate | reflexivity].
  - intros env cfg. unfold Startup.preflight, Startup.settings. simpl.
    destruct (Startup.or_undefined (env "DAO_WALLET_ADDRESS")) as [wallet|] eqn:Hw;
      simpl; [|discriminate].
    intros H. injection H as <-. simpl.
    apply or_undefined_some in Hw. destruct Hw as (Hset & Hne). auto.
  - intros env value. reflexivity.
Qed.

Lemma startup_constants_witness :
  snd (Startup.preflight
         (Startup.settings
            (Startup.setenv (fun _ => None) "DAO_WALLET_ADDRESS" "0xWALLET")))
  = Some (mkConfig "0xWALLET" "0x8b8d40f98a2f14e2dd972b3f2e2a2cc227d1e3be"
            "0x8de250c65636ef02a75e4999890c91cecd38d03d"
            "0x706e05D2b47cc6B1fb615EE76DD3789d2329E22e" []) /\
  Startup.setenv (fun _ => None) "DAO_WALLET_ADDRESS" "0xWALLET" "DAO_WALLET_ADDRESS"
  = Some "0xWALLET" /\
  "0xWALLET" <> "" /\
  @nil address = [].
Proof.
  split; [reflexivity|].
  exact (proj1 (proj2 (proj2 startup_constants))
           (Startup.setenv (fun _ => None) "DAO_WALLET_ADDRESS" "0xWALLET")
           (mkConfig "0xWALLET" "0x8b8d40f98a2f14e2dd972b3f2e2a2cc227d1e3be"
              "0x8de250c65636ef02a75e4999890c91cecd38d03d"
              "0x706e05D2b47cc6B1fb615EE76DD3789d2329E22e" [])
           eq_refl).
Defined.

(** ** The bot as it is shipped: no additional position *)

Lemma redeemBonds_no_additional (w : World) (fuel : nat) (wallet : address)
    (bonds : Tools.Bonds) (h : trace) (o : outcome (list ethers.ContractReceipt))
    (ev : trace) :
  exec w h (Tools.redeemBonds fuel wallet bonds []) = (o, ev) ->
  executed ev = [] \/ executed ev = [redeemAll wallet true].
Proof.
  unfold Tools.redeemBonds. rewrite exec_bind.
  pose proof (checkBonds_executes_nothing w fuel bonds wallet true h) as Hcheck.
  destruct (exec w h (Tools.checkBonds fuel bonds wallet true)) as [[q|e|] ev1];
    simpl in Hcheck.
  - destruct (gt0 q).
    + unfold Tools.attemptRedeemAll. cbn [log await bind exec Tools.redeem_each].
      match goal with
      | |- context [w _ ?h' (execute ?tx ?n)] =>
          destruct (w _ h' (execute tx n)) as [e|receipt]
      end; cbn [bind exec Tools.redeem_each]; intros Heq; injection Heq as <- <-;
        right; rewrite executed_app, Hcheck; reflexivity.
    + cbn [bind exec Tools.redeem_each]. intros Heq. injection Heq as <- <-.
      left. rewrite executed_app, Hcheck. reflexivity.
  - intros Heq. injection Heq as <- <-. left. exact Hcheck.
  - intros Heq. injection Heq as <- <-. left. exact Hcheck.
Qed.

Lemma getBonds_done (w : World) (fuel : nat) (maxBonds : Z)
    (additionalBonds : list address) (h : trace) (bonds : Tools.Bonds) (ev : trace) :
  exec w h (Tools.getBonds fuel maxBonds additionalBonds) = (Done bonds, ev) ->
  forall k e, In (k, e) bonds -> filed w additionalBonds k e.
Proof.
  unfold Tools.getBonds. cbn [log bind exec await].
  match goal with
  | |- context [w _ ?h' (redeemHelper_getBonds maxBonds)] =>
      destruct (w _ h' (redeemHelper_getBonds maxBonds)) as [e|discovered]
  end; cbn [bind exec]; [discriminate|].
  rewrite exec_bind.
  match goal with
  | |- context [exec w ?h' (Tools.getBonds_each fuel additionalBonds ?l ?r)] =>
      destruct (exec w h' (Tools.getBonds_each fuel additionalBonds l r))
        as [[result|e|] ev1] eqn:Heach
  end; try discriminate.
  cbn [log bind exec]. intros Heq. injection Heq as <- _.
  apply getBonds_each_inv in Heach; [|constructor|intros k e []].
  apply Heach.
Qed.

(** Without a supplemental position in the registry, [ignoreAdditional]
    makes no difference to [checkBonds]: the same queries, the same
    result. *)
Lemma checkBonds_all_bulk (w : World) (fuel : nat) (bonds : Tools.Bonds)
    (wallet : address) :
  (forall k elem, In (k, elem) bonds -> redeemHelper elem = true) ->
  forall h,
    exec w h (Tools.checkBonds fuel bonds wallet false)
    = exec w h (Tools.checkBonds fuel bonds wallet true).
Proof.
  intros Hall h. unfold Tools.checkBonds. rewrite !exec_bind.
  assert (Heach : forall entries,
             (forall k elem, In (k, elem) entries -> redeemHelper elem = true) ->
             forall h' result,
               exec w h' (Tools.checkBonds_each fuel entries wallet false result)
               = exec w h' (Tools.checkBonds_each fuel entries wallet true result)).
  { induction entries as [|[k elem] rest IH]; intros Hbulk h' result.
    - reflexivity.
    - cbn [Tools.checkBonds_each].
      rewrite (Hbulk k elem (or_introl eq_refl)). cbn [negb andb].
      rewrite !exec_bind.
      match goal with
      | |- context [exec w h' (Tools.attempt fuel ?body ?oe)] =>
          destruct (exec w h' (Tools.attempt fuel body oe)) as [[r|e|] ev1]
      end; try reflexivity.
      rewrite IH; [reflexivity|].
      intros k' elem' Hin. apply (Hbulk k' elem'). right. exact Hin. }
  rewrite (Heach bonds Hall). reflexivity.
Qed.



(** With a list of additional positions other than the shipped empty one
    the call of the handler would count the listed positions as well:
    under a list that holds 0xSUPP, and with 0xSUPP the only position
    with something pending, the tested value is 5 though the
    bulk-eligible total is 0. *)
Remark listed_position_would_count :
  ADDITIONAL_BONDS Scenario.cfg = ["0xSUPP"] /\
  exec (Scenario.healthy Scenario.only_single_pending) []
       (Index.evaluate Scenario.cfg Scenario.bonds 1)
  = (Done (Scenario.info12, 5 # 1000000000), Scenario.seen) /\
  pending_total Scenario.only_single_pending true Scenario.bonds = 0.
Proof. repeat split. Qed.

(** X13: the bot as shipped, with its empty list of additional positions.
    Whatever the environment and the remote side, a tick sends no
    transaction or exactly one, the bulk redeem in favour of the wallet of
    DAO_WALLET_ADDRESS with staking.  Every position that [getBonds]
    registers is marked for the bulk redeem, so the total that the trigger
    tests and the total that decides on the bulk redeem are the same
    sum. *)
Theorem shipped_bot_sends_only_bulk :
  forall env cfg,
    snd (Startup.preflight (Startup.settings env)) = Some cfg ->
    (forall (w : World) fuel bonds h b o ev,
        exec w h (Index.tick cfg bonds fuel b) = (o, ev) ->
        executed ev = [] \/
        exists wallet,
          env "DAO_WALLET_ADDRESS" = Some wallet /\
          executed ev = [redeemAll wallet true]) /\
    (forall (w : World) fuel maxBonds h bonds ev,
        exec w h (Tools.getBonds fuel maxBonds (ADDITIONAL_BONDS cfg)) = (Done bonds, ev) ->
        (forall k e, In (k, e) bonds -> redeemHelper e = true) /\
        forall p, pending_total p true bonds = pending_total p false bonds).
Proof.
  intros env cfg. unfold Startup.preflight, Startup.settings. simpl.
  destruct (Startup.or_undefined (env "DAO_WALLET_ADDRESS")) as [wallet|] eqn:Hw;
    simpl; [|discriminate].
  intros H. injection H as <-. simpl.
  apply or_undefined_some in Hw. destruct Hw as (Hset & _).
  split.
  - intros w fuel bonds h b o ev Hex.
    destruct (tick_executed w _ bonds fuel h b o ev Hex)
      as [Hnone|(info & payout & ev0 & o' & ev1 & _ & _ & Hred & Hsame)];
      [left; exact Hnone|].
    simpl in Hred. apply redeemBonds_no_additional in Hred.
    rewrite Hsame. destruct Hred as [Hnone|Hone]; [left; exact Hnone|].
    right. exists wallet. auto.
  - intros w fuel maxBonds h bonds ev Hex.
    assert (Hall : forall k e, In (k, e) bonds -> redeemHelper e = true).
    { intros k e Hin. destruct (getBonds_done _ _ _ _ _ _ _ Hex k e Hin) as (Hflag & _).
      exact Hflag. }
    split; [exact Hall|].
    intros p. apply pending_total_all_bulk. exact Hall.
Qed.

Lemma shipped_bot_sends_only_bulk_witness :
  executed (snd (exec (Scenario.healthy Scenario.both_pending) []
                   (Index.tick
                      (mkConfig "0xWALLET" "0x8b8d40f98a2f14e2dd972b3f2e2a2cc227d1e3be"
                         "0x8de250c65636ef02a75e4999890c91cecd38d03d"
                         "0x706e05D2b47cc6B1fb615EE76DD3789d2329E22e" [])
                      Scenario.only_bulk 1 start)))
  = [redeemAll "0xWALLET" true] /\
  (executed (snd (exec (Scenario.healthy Scenario.both_pending) []
                    (Index.tick
                       (mkConfig "0xWALLET" "0x8b8d40f98a2f14e2dd972b3f2e2a2cc227d1e3be"
                          "0x8de250c65636ef02a75e4999890c91cecd38d03d"
                          "0x706e05D2b47cc6B1fb615EE76DD3789d2329E22e" [])
                       Scenario.only_bulk 1 start))) = [] \/
   exists wallet,
     Startup.setenv (fun _ => None) "DAO_WALLET_ADDRESS" "0xWALLET" "DAO_WALLET_ADDRESS"
     = Some wallet /\
     executed (snd (exec (Scenario.healthy Scenario.both_pending) []
                      (Index.tick
                         (mkConfig "0xWALLET" "0x8b8d40f98a2f14e2dd972b3f2e2a2cc227d1e3be"
                            "0x8de250c65636ef02a75e4999890c91cecd38d03d"
                            "0x706e05D2b47cc6B1fb615EE76DD3789d2329E22e" [])
                         Scenario.only_bulk 1 start)))
     = [redeemAll wallet true]).
Proof.
  split; [vm_compute; reflexivity|].
  apply (proj1 (shipped_bot_sends_only_bulk
                  (Startup.setenv (fun _ => None) "DAO_WALLET_ADDRESS" "0xWALLET")
                  (mkConfig "0xWALLET" "0x8b8d40f98a2f14e2dd972b3f2e2a2cc227d1e3be"
                     "0x8de250c65636ef02a75e4999890c91cecd38d03d"
                     "0x706e05D2b47cc6B1fb615EE76DD3789d2329E22e" [])
                  eq_refl)
           (Scenario.healthy Scenario.both_pending) 1%nat Scenario.only_bulk [] start
           (fst (exec (Scenario.healthy Scenario.both_pending) []
                   (Index.tick
                      (mkConfig "0xWALLET" "0x8b8d40f98a2f14e2dd972b3f2e2a2cc227d1e3be"
                         "0x8de250c65636ef02a75e4999890c91cecd38d03d"
                         "0x706e05D2b47cc6B1fb615EE76DD3789d2329E22e" [])
                      Scenario.only_bulk 1 start)))).
  apply surjective_pairing.
Defined.

(** ** The wallet file *)

Section WalletFile.
Variable path : string -> string.
Variable createRandom : Startup.Wallet.
Variable encrypt : Startup.Wallet -> string -> settled string.
Variable fromEncryptedJson : string -> string -> settled Startup.Wallet.
Variable s : Startup.Settings.

Local Notation "'loadWallet'" :=
  (Startup.loadWallet path createRandom encrypt fromEncryptedJson s).
Local Notation "'file'" := (path (Startup.defaultWalletFilename s)).

Lemma loadWallet_existing (d : Startup.Disk) (data : string) :
  d file = Some data ->
  snd (fst (loadWallet d)) = d /\
  fst (fst (loadWallet d)) = fromEncryptedJson data (Startup.defaultWalletPassword s).
Proof.
  intros Hd. unfold Startup.loadWallet. rewrite Hd.
  destruct (fromEncryptedJson data (Startup.defaultWalletPassword s)); split; reflexivity.
Qed.

Lemma loadWallet_missing (d : Startup.Disk) :
  d file = None ->
  match encrypt createRandom (Startup.defaultWalletPassword s) with
  | inl e => loadWallet d
             = (rejected e, d,
                [Logged lvl_info "Created new wallet: %s"
                   [str (Startup.wallet_address createRandom)]])
  | inr json => loadWallet d
                = (resolved createRandom, Startup.writeFileSync d file json,
                   [Logged lvl_info "Created new wallet: %s"
                      [str (Startup.wallet_address createRandom)]])
  end.
Proof.
  intros Hd. unfold Startup.loadWallet, Startup.save. rewrite Hd.
  destruct (encrypt createRandom (Startup.defaultWalletPassword s)); reflexivity.
Qed.

Lemma writeFileSync_same (d : Startup.Disk) (f data : string) :
  Startup.writeFileSync d f data f = Some data.
Proof. unfold Startup.writeFileSync. rewrite String.eqb_refl. reflexivity. Qed.

Lemma writeFileSync_other (d : Startup.Disk) (f data g : string) :
  g <> f -> Startup.writeFileSync d f data g = d g.
Proof.
  intros Hne. unfold Startup.writeFileSync.
  destruct (String.eqb_spec g f); [contradiction | reflexivity].
Qed.
End WalletFile.

(** X14: the wallet file.  [loadWallet] never writes to a wallet file that
    exists: the disk is left as it was, whether the file can be decrypted
    or not.  Without the file it writes that one file and no other, and
    only once the new wallet has been encrypted.  When decrypting, with
    the configured password, undoes encrypting, the wallet that the first
    start creates is the wallet that the next start loads, from a disk it
    leaves unchanged. *)
Theorem loadWallet_keeps_the_wallet :
  forall path createRandom encrypt fromEncryptedJson s,
    let loadWallet := Startup.loadWallet path createRandom encrypt fromEncryptedJson s in
    let file := path (Startup.defaultWalletFilename s) in
    (forall d data, d file = Some data -> snd (fst (loadWallet d)) = d) /\
    (forall d other,
        d file = None -> other <> file ->
        snd (fst (loadWallet d)) other = d other) /\
    (forall d e,
        d file = None ->
        fst (fst (loadWallet d)) = rejected e ->
        snd (fst (loadWallet d)) = d) /\
    ((forall wallet json,
         encrypt wallet (Startup.defaultWalletPassword s) = resolved json ->
         fromEncryptedJson json (Startup.defaultWalletPassword s) = resolved wallet) ->
     forall d wallet d',
       d file = None ->
       fst (loadWallet d) = (resolved wallet, d') ->
       wallet = createRandom /\
       fst (loadWallet d') = (resolved wallet, d')).
Proof.
  intros path createRandom encrypt fromEncryptedJson s loadWallet file.
  split; [|split; [|split]].
  - intros d data Hd.
    apply (loadWallet_existing path createRandom encrypt fromEncryptedJson s d data Hd).
  - intros d other Hd Hne.
    pose proof (loadWallet_missing path createRandom encrypt fromEncryptedJson s d Hd)
      as Hload.
    destruct (encrypt createRandom (Startup.defaultWalletPassword s)) as [e|json];
      subst loadWallet; cbv beta; rewrite Hload; simpl; [reflexivity|].
    apply writeFileSync_other. exact Hne.
  - intros d e Hd.
    pose proof (loadWallet_missing path createRandom encrypt fromEncryptedJson s d Hd)
      as Hload.
    destruct (encrypt createRandom (Startup.defaultWalletPassword s)) as [e'|json];
      subst loadWallet; cbv beta; rewrite Hload; simpl; [reflexivity | discriminate].
  - intros Hround d wallet d' Hd.
    pose proof (loadWallet_missing path createRandom encrypt fromEncryptedJson s d Hd)
      as Hload.
    destruct (encrypt createRandom (Startup.defaultWalletPassword s)) as [e'|json] eqn:Henc;
      subst loadWallet; cbv beta; rewrite Hload; simpl; [discriminate|].
    intros Heq. injection Heq as <- <-. split; [reflexivity|].
    pose proof (loadWallet_existing path createRandom encrypt fromEncryptedJson s
                  (Startup.writeFileSync d file json) json
                  (writeFileSync_same d file json)) as (Hdisk & Hwallet).
    rewrite (Hround _ _ Henc) in Hwallet.
    subst file.
    destruct (Startup.loadWallet path createRandom encrypt fromEncryptedJson s
                (Startup.writeFileSync d (path (Startup.defaultWalletFilename s)) json))
      as [[r d1] t].
    simpl in Hdisk, Hwallet. simpl. rewrite Hdisk, Hwallet. reflexivity.
Qed.

Lemma loadWallet_keeps_the_wallet_witness :
  fst (Startup.loadWallet StartupScenario.path StartupScenario.bot_wallet
         StartupScenario.encrypt StartupScenario.fromEncryptedJson
         (Startup.settings StartupScenario.env)
         (Startup.writeFileSync StartupScenario.empty_disk "/home/bot/token.wallet" "key"))
  = (resolved StartupScenario.bot_wallet,
     Startup.writeFileSync StartupScenario.empty_disk "/home/bot/token.wallet" "key").
Proof.
  refine (proj2 (proj2 (proj2 (proj2 (loadWallet_keeps_the_wallet
            StartupScenario.path StartupScenario.bot_wallet StartupScenario.encrypt
            StartupScenario.fromEncryptedJson (Startup.settings StartupScenario.env))))
            _ StartupScenario.empty_disk StartupScenario.bot_wallet _ eq_refl eq_refl)).
  intros [a k] json. unfold StartupScenario.encrypt, StartupScenario.fromEncryptedJson.
  simpl. destruct (String.eqb_spec a "0xBOT") as [->|Hne]; [|discriminate].
  intros H. injection H as <-. reflexivity.
Defined.


(** ** Handlers in flight *)

Section TimerFacts.
Variable w : World.
Variable cfg : Config.
Variable bonds : Tools.Bonds.
Variable fuel : nat.

Lemma exec_sync {A : Type} (p : prog A) :
  forall (h : trace) (ev : trace) (p' : prog A),
    Timer.sync p = (ev, p') ->
    forall o ev', exec w (h ++ ev) p' = (o, ev') -> exec w h p = (o, ev ++ ev').
Proof.
  induction p as [a|e| |X c k _|l s args k IH]; intros h ev p' Hs;
    try (injection Hs as <- <-; intros o ev'; rewrite app_nil_r; auto).
  cbn [Timer.sync] in Hs. destruct (Timer.sync k) as [ev0 p0] eqn:Hk.
  injection Hs as <- <-. intros o ev' Hex. cbn [exec].
  rewrite (IH (h ++ [Logged l s args]) ev0 p0 eq_refl o ev'); [reflexivity|].
  rewrite <- app_assoc. exact Hex.
Qed.

Lemma bind_later {A B : Type} (p p' : prog A) (f : A -> prog B) (h ev : trace) :
  (forall o ev', exec w (h ++ ev) p' = (o, ev') -> exec w h p = (o, ev ++ ev')) ->
  forall o ev', exec w (h ++ ev) (bind p' f) = (o, ev') ->
                exec w h (bind p f) = (o, ev ++ ev').
Proof.
  intros Hp o ev'. rewrite !exec_bind.
  destruct (exec w (h ++ ev) p') as [[a|e|] ev1] eqn:Hex;
    rewrite (Hp _ _ eq_refl).
  - rewrite !app_assoc.
    destruct (exec w ((h ++ ev) ++ ev1) (f a)) as [o2 ev2].
    intros Heq. injection Heq as <- <-. rewrite app_assoc. reflexivity.
  - intros Heq. injection Heq as <- <-. reflexivity.
  - intros Heq. injection Heq as <- <-. reflexivity.
Qed.

Lemma try_catch_later {A : Type} (p p' : prog A) (handler : string -> prog A)
    (h ev : trace) :
  (forall o ev', exec w (h ++ ev) p' = (o, ev') -> exec w h p = (o, ev ++ ev')) ->
  forall o ev', exec w (h ++ ev) (try_catch p' handler) = (o, ev') ->
                exec w h (try_catch p handler) = (o, ev ++ ev').
Proof.
  intros Hp o ev'. rewrite !exec_try_catch.
  destruct (exec w (h ++ ev) p') as [[a|e|] ev1] eqn:Hex;
    rewrite (Hp _ _ eq_refl).
  - intros Heq. injection Heq as <- <-. reflexivity.
  - rewrite !app_assoc.
    destruct (exec w ((h ++ ev) ++ ev1) (handler e)) as [o2 ev2].
    intros Heq. injection Heq as <- <-. rewrite app_assoc. reflexivity.
  - intros Heq. injection Heq as <- <-. reflexivity.
Qed.

Lemma final_later (h ev : trace) (b : Bot) (p p' : prog Bot) :
  (forall o ev', exec w (h ++ ev) p' = (o, ev') -> exec w h p = (o, ev ++ ev')) ->
  Timer.final (h ++ ev) b (exec w (h ++ ev) p') = Timer.final h b (exec w h p).
Proof.
  intros Hp. destruct (exec w (h ++ ev) p') as [[b'|e|] ev'] eqn:Hex;
    rewrite (Hp _ _ eq_refl); simpl; rewrite ?app_assoc; reflexivity.
Qed.

Lemma after_redeem_later (b : Bot) (info : Tools.StakingInformation)
    (p p' : prog (list ethers.ContractReceipt)) (h ev : trace) :
  (forall o ev', exec w (h ++ ev) p' = (o, ev') -> exec w h p = (o, ev ++ ev')) ->
  forall o ev', exec w (h ++ ev) (Timer.after_redeem b info p') = (o, ev') ->
                exec w h (Timer.after_redeem b info p) = (o, ev ++ ev').
Proof.
  intros Hp. unfold Timer.after_redeem.
  apply bind_later. apply try_catch_later. apply bind_later. exact Hp.
Qed.

Lemma after_report_later (b : Bot) (p p' : prog (Tools.StakingInformation * Q))
    (h ev : trace) :
  (forall o ev', exec w (h ++ ev) p' = (o, ev') -> exec w h p = (o, ev ++ ev')) ->
  forall o ev', exec w (h ++ ev) (Timer.after_report cfg bonds fuel b p') = (o, ev') ->
                exec w h (Timer.after_report cfg bonds fuel b p) = (o, ev ++ ev').
Proof.
  intros Hp. unfold Timer.after_report. apply bind_later. exact Hp.
Qed.

(** The [try] block catches whatever is thrown inside it. *)
Lemma after_redeem_never_throws (b : Bot) (info : Tools.StakingInformation)
    (p : prog (list ethers.ContractReceipt)) (h : trace) (e : string) (ev : trace) :
  exec w h (Timer.after_redeem b info p) <> (Thrown e, ev).
Proof.
  unfold Timer.after_redeem. rewrite exec_bind, exec_try_catch, exec_bind.
  destruct (exec w h p) as [[rs|e'|] ev1].
  - destruct (record_done w (Tools.epochNumber info) rs (h ++ ev1) b)
      as (b1 & ev2 & Hrec & _).
    rewrite Hrec. simpl. discriminate.
  - simpl. discriminate.
  - discriminate.
Qed.

(** A handler that runs on inside the [try] block ends where the rest of
    [Index.act], run on its own, ends. *)
Lemma land_redeeming_ending (h : trace) (b : Bot) (info : Tools.StakingInformation)
    (p : prog (list ethers.ContractReceipt)) :
  Timer.ending w cfg bonds fuel (Timer.land_redeeming w h b info p)
  = Timer.final h b (exec w h (Timer.after_redeem b info p)).
Proof.
  unfold Timer.land_redeeming.
  destruct (Timer.sync p) as [ev p'] eqn:Hs.
  pose proof (exec_sync p h ev p' Hs) as Hp.
  rewrite <- (final_later h ev b _ _ (after_redeem_later b info p p' h ev Hp)).
  destruct p' as [rs|e| |X c k|l s args k]; try reflexivity.
  - unfold Timer.after_redeem. rewrite exec_bind, exec_try_catch.
    cbn [bind].
    destruct (record_done w (Tools.epochNumber info) rs (h ++ ev) b)
      as (b1 & ev2 & Hrec & _).
    rewrite Hrec. simpl. rewrite app_nil_r. reflexivity.
Qed.

Lemma land_reporting_ending (h : trace) (b : Bot)
    (p : prog (Tools.StakingInformation * Q)) :
  Timer.ending w cfg bonds fuel (Timer.land_reporting w cfg bonds fuel h b p)
  = Timer.final h b (exec w h (Timer.after_report cfg bonds fuel b p)).
Proof.
  unfold Timer.land_reporting.
  destruct (Timer.sync p) as [ev p'] eqn:Hs.
  pose proof (exec_sync p h ev p' Hs) as Hp.
  rewrite <- (final_later h ev b _ _ (after_report_later b p p' h ev Hp)).
  destruct p' as [x|e| |X c k|l s args k]; try reflexivity.
  - unfold Timer.after_report. cbn [bind].
    destruct (Index.trigger (fst x) (snd x) b); [|simpl; rewrite app_nil_r; reflexivity].
    rewrite land_redeeming_ending.
    change (Index.act cfg bonds fuel (fst x) b)
      with (log lvl_warn "Trying to Redeem & Stake all Bonds" [] ;;;
            Timer.after_redeem (toggle b) (fst x)
              (Tools.redeemBonds fuel (myStakingWallet cfg) bonds (ADDITIONAL_BONDS cfg))).
    cbn [log bind exec]. fold trigger_line.
    pose proof (after_redeem_never_throws (toggle b) (fst x)
                  (Tools.redeemBonds fuel (myStakingWallet cfg) bonds
                     (ADDITIONAL_BONDS cfg)) ((h ++ ev) ++ [trigger_line])) as Hno.
    destruct (exec w ((h ++ ev) ++ [trigger_line])
                (Timer.after_redeem (toggle b) (fst x)
                   (Tools.redeemBonds fuel (myStakingWallet cfg) bonds
                      (ADDITIONAL_BONDS cfg)))) as [[b1|e|] ev1].
    + simpl. rewrite <- !app_assoc. reflexivity.
    + exfalso. exact (Hno e ev1 eq_refl).
    + reflexivity.
  - unfold Timer.after_report. simpl. rewrite app_nil_r. reflexivity.
Qed.

(** An answer to a handler that runs undisturbed does not change where it
    ends. *)
Lemma resume_ending (h : trace) (b : Bot) (t : Timer.task) :
  Timer.ending w cfg bonds fuel (Timer.resume w cfg bonds fuel h b t)
  = Timer.final h b (Timer.alone w cfg bonds fuel h b t).
Proof.
  destruct t as [p|info p].
  - destruct p as [x|e| |X c k|l s args k]; try reflexivity.
    cbn [Timer.resume Timer.alone]. rewrite land_reporting_ending.
    apply (final_later h [Called c] b
             (Timer.after_report cfg bonds fuel b (Await c k))
             (Timer.after_report cfg bonds fuel b (k (w X h c)))).
    intros o ev' Hex. unfold Timer.after_report in *. cbn [bind exec].
    rewrite Hex. reflexivity.
  - destruct p as [x|e| |X c k|l s args k]; try reflexivity.
    cbn [Timer.resume Timer.alone]. rewrite land_redeeming_ending.
    apply (final_later h [Called c] b
             (Timer.after_redeem b info (Await c k))
             (Timer.after_redeem b info (k (w X h c)))).
    intros o ev' Hex. unfold Timer.after_redeem in *. cbn [bind try_catch exec].
    rewrite Hex. reflexivity.
Qed.

Local Notation "'handler'" := (Index.tick cfg bonds fuel).

(** A handler that has ended undisturbed has made a step of the loop. *)
Lemma ended_step (q : trace * Bot) (h : trace) (b : Bot) :
  Some (h, b) = Timer.final (fst q) (snd q) (exec w (fst q) (handler (snd q))) ->
  step w handler q (h, b).
Proof.
  destruct q as [hq bq]. simpl.
  destruct (exec w hq (handler bq)) as [[b'|e|] ev] eqn:Hex; simpl;
    intros Heq; [| |discriminate]; injection Heq as -> ->.
  - apply step_done. exact Hex.
  - eapply step_thrown. exact Hex.
Qed.

Lemma landed_undisturbed (q : trace * Bot) (x : trace * Bot * option Timer.task) :
  Timer.ending w cfg bonds fuel x
  = Timer.final (fst q) (snd q) (exec w (fst q) (handler (snd q))) ->
  exists q',
    (q' = q \/ step w handler q q') /\
    Timer.undisturbed w cfg bonds fuel
      (Timer.mkSystem (fst (fst x)) (snd (fst x)) (Timer.in_flight (snd x))) q'.
Proof.
  destruct x as [[h b] [t|]]; intros Hend.
  - exists q. split; [left; reflexivity|]. exact Hend.
  - exists (h, b). split; [|reflexivity].
    right. apply ended_step. exact Hend.
Qed.

(** One move of a schedule in which ticks wait for the handler in flight:
    the loop stays where it is or makes one step. *)
Lemma play1_undisturbed (s : Timer.System) (q : trace * Bot) (m : Timer.move) :
  Timer.undisturbed w cfg bonds fuel s q ->
  (m = Timer.Tick -> Timer.flight s = []) ->
  exists q',
    (q' = q \/ step w handler q q') /\
    Timer.undisturbed w cfg bonds fuel (Timer.play1 w cfg bonds fuel s m) q'.
Proof.
  intros Hs Hm. destruct m as [|n].
  - specialize (Hm eq_refl). unfold Timer.play1.
    destruct (paused (Timer.bot s)).
    + exists q. split; [left; reflexivity | exact Hs].
    + unfold Timer.undisturbed in Hs. rewrite Hm in Hs. subst q.
      pose proof (land_reporting_ending (Timer.history s) (Timer.bot s)
                    (Index.evaluate cfg bonds fuel)) as Hend.
      change (Timer.after_report cfg bonds fuel (Timer.bot s)
                (Index.evaluate cfg bonds fuel))
        with (handler (Timer.bot s)) in Hend.
      destruct (landed_undisturbed (Timer.history s, Timer.bot s) _ Hend)
        as (q' & Hq' & Hund).
      exists q'. split; [exact Hq'|].
      destruct (Timer.land_reporting w cfg bonds fuel (Timer.history s) (Timer.bot s)
                  (Index.evaluate cfg bonds fuel)) as [[h b] t].
      rewrite Hm. exact Hund.
  - unfold Timer.play1. unfold Timer.undisturbed in Hs.
    destruct (Timer.flight s) as [|t [|t' rest]] eqn:Hflight; [| |contradiction].
    + destruct n; simpl; exists q; (split; [left; reflexivity|]);
        unfold Timer.undisturbed; rewrite Hflight; exact Hs.
    + destruct n as [|n].
      * cbn [nth_error].
        pose proof (resume_ending (Timer.history s) (Timer.bot s) t) as Hend.
        change (Timer.final (Timer.history s) (Timer.bot s)
                  (Timer.alone w cfg bonds fuel (Timer.history s) (Timer.bot s) t))
          with (Timer.ending w cfg bonds fuel
                  (Timer.history s, Timer.bot s, Some t)) in Hend.
        rewrite Hs in Hend.
        destruct (landed_undisturbed q _ Hend) as (q' & Hq' & Hund).
        exists q'. split; [exact Hq'|].
        destruct (Timer.resume w cfg bonds fuel (Timer.history s) (Timer.bot s) t)
          as [[h b] t1].
        cbn [firstn skipn app]. rewrite app_nil_r. exact Hund.
      * cbn [nth_error]. destruct n; cbn [nth_error];
          exists q; (split; [left; reflexivity|]);
          unfold Timer.undisturbed; rewrite Hflight; exact Hs.
Qed.

Lemma play_undisturbed (ms : list Timer.move) :
  forall (s : Timer.System) (q : trace * Bot),
    Timer.undisturbed w cfg bonds fuel s q ->
    Timer.orderly w cfg bonds fuel s ms = true ->
    exists q',
      steps w handler q q' /\
      Timer.undisturbed w cfg bonds fuel (Timer.play w cfg bonds fuel s ms) q'.
Proof.
  induction ms as [|m rest IH]; intros s q Hs Hord.
  - exists q. split; [constructor | exact Hs].
  - assert (Hm : m = Timer.Tick -> Timer.flight s = []).
    { intros ->. cbn [Timer.orderly] in Hord.
      destruct (Timer.flight s); [reflexivity|discriminate]. }
    assert (Hrest : Timer.orderly w cfg bonds fuel (Timer.play1 w cfg bonds fuel s m) rest
                    = true).
    { destruct m as [|n]; cbn [Timer.orderly] in Hord; [|exact Hord].
      destruct (Timer.flight s) eqn:Hflight; [exact Hord | discriminate]. }
    destruct (play1_undisturbed s q m Hs Hm) as (q1 & Hq1 & Hund1).
    destruct (IH _ q1 Hund1 Hrest) as (q' & Hsteps & Hund).
    exists q'. split; [|exact Hund].
    destruct Hq1 as [->|Hstep]; [exact Hsteps|].
    eapply steps_next; [exact Hstep | exact Hsteps].
Qed.

(** When every tick finds no handler in flight, the moments at which no
    handler is in flight are states of the loop of [step]. *)
Lemma orderly_steps (s : Timer.System) (ms : list Timer.move) :
  Timer.flight s = [] ->
  Timer.orderly w cfg bonds fuel s ms = true ->
  Timer.flight (Timer.play w cfg bonds fuel s ms) = [] ->
  steps w handler (Timer.history s, Timer.bot s)
    (Timer.history (Timer.play w cfg bonds fuel s ms),
     Timer.bot (Timer.play w cfg bonds fuel s ms)).
Proof.
  intros Hquiet Hord Hend.
  destruct (play_undisturbed ms s (Timer.history s, Timer.bot s)) as (q' & Hsteps & Hund).
  - unfold Timer.undisturbed. rewrite Hquiet. reflexivity.
  - exact Hord.
  - unfold Timer.undisturbed in Hund. rewrite Hend in Hund. rewrite Hund. exact Hsteps.
Qed.
End TimerFacts.

(** X11: redeeming once per epoch, end to end, for a loop whose ticks
    find no handler in flight.  While the epoch stands still within 300
    blocks of its end, with fixed payouts, none negative and something
    pending, every transaction confirmed and a registry in step with the
    list: start with no handler in flight and without the epoch in the
    ledger, let the timer tick and the calls settle in any order in which
    no tick comes while a handler is in flight, and look at a moment when
    no handler is in flight.  Either nothing has happened yet, or the
    transactions of the redeem procedure have been sent exactly once, the
    ledger holds the epoch under the block of the last of them, and the
    timer is paused or running as it was.  Such moments are states of the
    loop of [step]. *)
Theorem redeems_once_per_epoch :
  forall (w : World) p rc cfg bonds fuel i s ms,
    steady_epoch w cfg i ->
    all_safe i ->
    answers_payout w p ->
    (forall a, 0 <= p a) ->
    confirms w rc ->
    registry_of (ADDITIONAL_BONDS cfg) bonds ->
    -8640000000000 <= Tools.delta (reported i) <= 300 ->
    0 < pending_total p false bonds ->
    JsMap.has Z.eqb (epochs (Timer.bot s)) (Tools.epochNumber (reported i)) = false ->
    Timer.flight s = [] ->
    Timer.orderly w cfg bonds (S fuel) s ms = true ->
    Timer.flight (Timer.play w cfg bonds (S fuel) s ms) = [] ->
    steps w (Index.tick cfg bonds (S fuel)) (Timer.history s, Timer.bot s)
      (Timer.history (Timer.play w cfg bonds (S fuel) s ms),
       Timer.bot (Timer.play w cfg bonds (S fuel) s ms)) /\
    ((Timer.history (Timer.play w cfg bonds (S fuel) s ms) = Timer.history s /\
      Timer.bot (Timer.play w cfg bonds (S fuel) s ms) = Timer.bot s) \/
     exists txs tx,
       to_send p cfg bonds = txs ++ [tx] /\
       executed (Timer.history (Timer.play w cfg bonds (S fuel) s ms))
       = executed (Timer.history s) ++ to_send p cfg bonds /\
       JsMap.get Z.eqb (epochs (Timer.bot (Timer.play w cfg bonds (S fuel) s ms)))
         (Tools.epochNumber (reported i))
       = Some (ethers.blockNumber (rc tx)) /\
       paused (Timer.bot (Timer.play w cfg bonds (S fuel) s ms)) = paused (Timer.bot s)).
Proof.
  intros w p rc cfg bonds fuel i s ms Hsteady Hsafe Hp Hnonneg Hrc Hreg Hdelta Hpos
    Hfresh Hquiet Hord Hend.
  pose proof (orderly_steps w cfg bonds (S fuel) s ms Hquiet Hord Hend) as Hsteps.
  split; [exact Hsteps|].
  destruct (steps_once w p rc cfg bonds fuel Hp Hnonneg Hrc Hreg i _ _ _
              Hsteady Hsafe Hdelta Hpos Hfresh Hsteps) as [Hsame|Honce].
  - left. injection Hsame as -> ->. auto.
  - right. exact Honce.
Qed.

Lemma redeems_once_per_epoch_witness :
  executed (Timer.history
              (Timer.play (Scenario.healthy Scenario.both_pending) Scenario.cfg_plain
                 Scenario.only_bulk 1 Overlap.begin Overlap.one_by_one))
  = [redeemAll "0xWALLET" true] /\
  (steps (Scenario.healthy Scenario.both_pending)
     (Index.tick Scenario.cfg_plain Scenario.only_bulk 1)
     (Timer.history Overlap.begin, Timer.bot Overlap.begin)
     (Timer.history
        (Timer.play (Scenario.healthy Scenario.both_pending) Scenario.cfg_plain
           Scenario.only_bulk 1 Overlap.begin Overlap.one_by_one),
      Timer.bot
        (Timer.play (Scenario.healthy Scenario.both_pending) Scenario.cfg_plain
           Scenario.only_bulk 1 Overlap.begin Overlap.one_by_one)) /\
   ((Timer.history
       (Timer.play (Scenario.healthy Scenario.both_pending) Scenario.cfg_plain
          Scenario.only_bulk 1 Overlap.begin Overlap.one_by_one)
     = Timer.history Overlap.begin /\
     Timer.bot
       (Timer.play (Scenario.healthy Scenario.both_pending) Scenario.cfg_plain
          Scenario.only_bulk 1 Overlap.begin Overlap.one_by_one)
     = Timer.bot Overlap.begin) \/
    exists txs tx,
      to_send Scenario.both_pending Scenario.cfg_plain Scenario.only_bulk = txs ++ [tx] /\
      executed (Timer.history
                  (Timer.play (Scenario.healthy Scenario.both_pending)
                     Scenario.cfg_plain Scenario.only_bulk 1 Overlap.begin
                     Overlap.one_by_one))
      = executed (Timer.history Overlap.begin)
        ++ to_send Scenario.both_pending Scenario.cfg_plain Scenario.only_bulk /\
      JsMap.get Z.eqb
        (epochs (Timer.bot
                   (Timer.play (Scenario.healthy Scenario.both_pending)
                      Scenario.cfg_plain Scenario.only_bulk 1 Overlap.begin
                      Overlap.one_by_one)))
        (Tools.epochNumber (reported Scenario.helper_answer))
      = Some (ethers.blockNumber (Scenario.receipt_of tx)) /\
      paused (Timer.bot
                (Timer.play (Scenario.healthy Scenario.both_pending)
                   Scenario.cfg_plain Scenario.only_bulk 1 Overlap.begin
                   Overlap.one_by_one))
      = paused (Timer.bot Overlap.begin))).
Proof.
  split; [vm_compute; reflexivity|].
  apply (redeems_once_per_epoch
           (Scenario.healthy Scenario.both_pending) Scenario.both_pending
           Scenario.receipt_of Scenario.cfg_plain Scenario.only_bulk 0%nat
           Scenario.helper_answer Overlap.begin Overlap.one_by_one).
  - split; intros h; [reflexivity | eexists; reflexivity].
  - unfold all_safe, safe. repeat split; vm_compute; discriminate.
  - intros h b a. reflexivity.
  - intros a. unfold Scenario.both_pending.
    destruct (String.eqb a "0xBULK"); [lia|]. destruct (String.eqb a "0xSUPP"); lia.
  - intros h tx n. reflexivity.
  - split.
    + simpl. constructor; [simpl; tauto | constructor].
    + intros k e [H|[]]; injection H as <- <-; split; reflexivity.
  - vm_compute. split; discriminate.
  - vm_compute. reflexivity.
  - reflexivity.
  - reflexivity.
  - vm_compute. reflexivity.
  - vm_compute. reflexivity.
Defined.

(** X15: the ticks have to wait.  When a second tick comes while the
    handler of the first is still awaiting its status report, both
    handlers test the trigger before either has recorded the epoch, both
    find it satisfied, and the bulk redeem is sent twice in one epoch:
    redeeming once per epoch does not hold for every schedule.  So it is
    on a chain that has nothing left to pay out once the first redeem is
    executed, when the second handler has made its bulk-eligible check
    before that. *)
Theorem overlapping_handlers_redeem_twice :
  ~ once_in_any_schedule /\
  Timer.orderly Overlap.settling Scenario.cfg_plain Scenario.only_bulk 1
    Overlap.begin Overlap.overlapping = false /\
  Timer.flight
    (Timer.play Overlap.settling Scenario.cfg_plain Scenario.only_bulk 1
       Overlap.begin Overlap.overlapping) = [] /\
  executed
    (Timer.history
       (Timer.play Overlap.settling Scenario.cfg_plain Scenario.only_bulk 1
          Overlap.begin Overlap.overlapping))
  = [redeemAll "0xWALLET" true; redeemAll "0xWALLET" true] /\
  Timer.orderly Overlap.settling Scenario.cfg_plain Scenario.only_bulk 1
    Overlap.begin Overlap.one_by_one = true /\
  executed
    (Timer.history
       (Timer.play Overlap.settling Scenario.cfg_plain Scenario.only_bulk 1
          Overlap.begin Overlap.one_by_one))
  = [redeemAll "0xWALLET" true].
Proof.
  split; [|repeat split; vm_compute; reflexivity].
  intros Hclaim.
  assert (Hsent : executed
                    (Timer.history
                       (Timer.play (Scenario.healthy Scenario.both_pending)
                          Scenario.cfg_plain Scenario.only_bulk 1 Overlap.begin
                          Overlap.overlapping))
                  = [redeemAll "0xWALLET" true; redeemAll "0xWALLET" true])
    by (vm_compute; reflexivity).
  destruct (Hclaim (Scenario.healthy Scenario.both_pending) Scenario.both_pending
              Scenario.receipt_of Scenario.cfg_plain Scenario.only_bulk 0%nat
              Scenario.helper_answer Overlap.begin Overlap.overlapping) as [Hnone|Honce].
  - split; intros h; [reflexivity | eexists; reflexivity].
  - unfold all_safe, safe. repeat split; vm_compute; discriminate.
  - intros h b a. reflexivity.
  - intros a. unfold Scenario.both_pending.
    destruct (String.eqb a "0xBULK"); [lia|]. destruct (String.eqb a "0xSUPP"); lia.
  - intros h tx n. reflexivity.
  - split.
    + simpl. constructor; [simpl; tauto | constructor].
    + intros k e [H|[]]; injection H as <- <-; split; reflexivity.
  - vm_compute. split; discriminate.
  - vm_compute. reflexivity.
  - reflexivity.
  - reflexivity.
  - vm_compute. reflexivity.
  - rewrite Hsent in Hnone. discriminate Hnone.
  - rewrite Hsent in Honce. discriminate Honce.
Qed.

(** ** What pausing the timer achieves *)

Section Pausing.
Variable w : World.
Variable cfg : Config.
Variable bonds : Tools.Bonds.
Variable fuel : nat.

Lemma land_redeeming_flag (h : trace) (b : Bot) (info : Tools.StakingInformation)
    (p : prog (list ethers.ContractReceipt)) :
  match snd (Timer.land_redeeming w h b info p) with
  | None => paused (snd (fst (Timer.land_redeeming w h b info p))) = negb (paused b)
  | Some (Timer.Redeeming _ _) => snd (fst (Timer.land_redeeming w h b info p)) = b
  | Some (Timer.Reporting _) => False
  end.
Proof.
  unfold Timer.land_redeeming. destruct (Timer.sync p) as [ev p'].
  destruct p' as [rs|e| |X c k|l s args k]; try reflexivity.
  destruct (record_done w (Tools.epochNumber info) rs (h ++ ev) b)
    as (b1 & ev2 & Hrec & _ & Hpaused & _).
  rewrite Hrec. simpl. rewrite Hpaused. reflexivity.
Qed.

Lemma land_reporting_flag (h : trace) (b : Bot)
    (p : prog (Tools.StakingInformation * Q)) :
  match snd (Timer.land_reporting w cfg bonds fuel h b p) with
  | None => paused (snd (fst (Timer.land_reporting w cfg bonds fuel h b p))) = paused b
  | Some (Timer.Reporting _) => snd (fst (Timer.land_reporting w cfg bonds fuel h b p)) = b
  | Some (Timer.Redeeming _ _) =>
      paused (snd (fst (Timer.land_reporting w cfg bonds fuel h b p))) = negb (paused b)
  end.
Proof.
  unfold Timer.land_reporting. destruct (Timer.sync p) as [ev p'].
  destruct p' as [x|e| |X c k|l s args k]; try reflexivity.
  destruct (Index.trigger (fst x) (snd x) b); [|reflexivity].
  pose proof (land_redeeming_flag ((h ++ ev) ++ [trigger_line]) (toggle b) (fst x)
                (Tools.redeemBonds fuel (myStakingWallet cfg) bonds
                   (ADDITIONAL_BONDS cfg))) as Hflag.
  destruct (Timer.land_redeeming w ((h ++ ev) ++ [trigger_line]) (toggle b) (fst x)
              (Tools.redeemBonds fuel (myStakingWallet cfg) bonds (ADDITIONAL_BONDS cfg)))
    as [[h' b'] [[p1|info1 p1]|]]; simpl in *.
  - contradiction.
  - rewrite Hflag. reflexivity.
  - rewrite Hflag. apply negb_involutive.
Qed.

(** The flag of the timer with one handler in flight, started while the
    timer was running: paused inside the [try] block, running otherwise. *)
Lemma lone_handler_flag (s : Timer.System) (answers : list Timer.move) :
  Forall (fun m => m <> Timer.Tick) answers ->
  match Timer.flight s with
  | [] => paused (Timer.bot s) = false
  | [Timer.Reporting _] => paused (Timer.bot s) = false
  | [Timer.Redeeming _ _] => paused (Timer.bot s) = true
  | _ => False
  end ->
  match Timer.flight (Timer.play w cfg bonds fuel s answers) with
  | [] => paused (Timer.bot (Timer.play w cfg bonds fuel s answers)) = false
  | [Timer.Reporting _] => paused (Timer.bot (Timer.play w cfg bonds fuel s answers)) = false
  | [Timer.Redeeming _ _] =>
      paused (Timer.bot (Timer.play w cfg bonds fuel s answers)) = true
  | _ => False
  end.
Proof.
  intros Hanswers. revert s.
  induction Hanswers as [|m rest Hm _ IH]; intros s Hs; [exact Hs|].
  cbn [Timer.play fold_left]. apply IH. clear IH.
  destruct m as [|n]; [contradiction|]. unfold Timer.play1. revert Hs.
  destruct (Timer.flight s) as [|t [|t' ts]] eqn:Hflight; intros Hs;
    [| |destruct t; contradiction].
  - destruct n; simpl; rewrite Hflight; exact Hs.
  - destruct n as [|n]; [|destruct n; simpl; rewrite Hflight; exact Hs].
    cbn [nth_error firstn skipn app].
    destruct t as [p|info p].
    + destruct p as [x|e| |X c k|l f args k]; try (simpl; exact Hs).
      cbn [Timer.resume].
      pose proof (land_reporting_flag (Timer.history s ++ [Called c]) (Timer.bot s)
                    (k (w X (Timer.history s) c))) as Hflag.
      destruct (Timer.land_reporting w cfg bonds fuel (Timer.history s ++ [Called c])
                  (Timer.bot s) (k (w X (Timer.history s) c)))
        as [[h' b'] [[p1|info1 p1]|]]; simpl in *.
      * subst b'. exact Hs.
      * rewrite Hflag, Hs. reflexivity.
      * rewrite Hflag. exact Hs.
    + destruct p as [x|e| |X c k|l f args k]; try (simpl; exact Hs).
      cbn [Timer.resume].
      pose proof (land_redeeming_flag (Timer.history s ++ [Called c]) (Timer.bot s) info
                    (k (w X (Timer.history s) c))) as Hflag.
      destruct (Timer.land_redeeming w (Timer.history s ++ [Called c]) (Timer.bot s) info
                  (k (w X (Timer.history s) c)))
        as [[h' b'] [[p1|info1 p1]|]]; simpl in *.
      * contradiction.
      * subst b'. exact Hs.
      * rewrite Hflag, Hs. reflexivity.
Qed.
End Pausing.

(** X16: what the two [timer.toggle()] calls achieve for a handler that is
    alone in flight, started by a tick of a running timer.  While the
    handler is inside the [try] block the timer is paused, and a tick that
    comes then starts no handler and changes nothing; while the handler
    awaits its status report the timer is running, so that a tick starts a
    second handler; and when the handler has ended the timer is running
    again, whatever the remote side did. *)
Theorem timer_paused_while_redeeming :
  forall (w : World) cfg bonds fuel s answers,
    Timer.flight s = [] ->
    paused (Timer.bot s) = false ->
    Forall (fun m => m <> Timer.Tick) answers ->
    match Timer.flight (Timer.play w cfg bonds fuel s (Timer.Tick :: answers)) with
    | [] =>
        paused (Timer.bot (Timer.play w cfg bonds fuel s (Timer.Tick :: answers))) = false
    | [Timer.Reporting _] =>
        paused (Timer.bot (Timer.play w cfg bonds fuel s (Timer.Tick :: answers))) = false
    | [Timer.Redeeming _ _] =>
        paused (Timer.bot (Timer.play w cfg bonds fuel s (Timer.Tick :: answers))) = true /\
        Timer.play1 w cfg bonds fuel
          (Timer.play w cfg bonds fuel s (Timer.Tick :: answers)) Timer.Tick
        = Timer.play w cfg bonds fuel s (Timer.Tick :: answers)
    | _ => False
    end.
Proof.
  intros w cfg bonds fuel s answers Hquiet Hrunning Hanswers.
  cbn [Timer.play fold_left].
  pose proof (lone_handler_flag w cfg bonds fuel
                (Timer.play1 w cfg bonds fuel s Timer.Tick) answers Hanswers) as Hflag.
  change (fold_left (Timer.play1 w cfg bonds fuel) answers
            (Timer.play1 w cfg bonds fuel s Timer.Tick))
    with (Timer.play w cfg bonds fuel (Timer.play1 w cfg bonds fuel s Timer.Tick) answers).
  assert (Hfirst :
            match Timer.flight (Timer.play1 w cfg bonds fuel s Timer.Tick) with
            | [] => paused (Timer.bot (Timer.play1 w cfg bonds fuel s Timer.Tick)) = false
            | [Timer.Reporting _] =>
                paused (Timer.bot (Timer.play1 w cfg bonds fuel s Timer.Tick)) = false
            | [Timer.Redeeming _ _] =>
                paused (Timer.bot (Timer.play1 w cfg bonds fuel s Timer.Tick)) = true
            | _ => False
            end).
  { unfold Timer.play1. rewrite Hrunning, Hquiet.
    pose proof (land_reporting_flag w cfg bonds fuel (Timer.history s) (Timer.bot s)
                  (Index.evaluate cfg bonds fuel)) as Hland.
    destruct (Timer.land_reporting w cfg bonds fuel (Timer.history s) (Timer.bot s)
                (Index.evaluate cfg bonds fuel)) as [[h' b'] [[p1|info1 p1]|]];
      simpl in *.
    - subst b'. exact Hrunning.
    - rewrite Hland, Hrunning. reflexivity.
    - rewrite Hland. exact Hrunning. }
  specialize (Hflag Hfirst).
  destruct (Timer.flight
              (Timer.play w cfg bonds fuel (Timer.play1 w cfg bonds fuel s Timer.Tick)
                 answers)) as [|[p|info p] [|t' ts]]; try exact Hflag.
  split; [exact Hflag|].
  unfold Timer.play1 at 1. rewrite Hflag. reflexivity.
Qed.

Lemma timer_paused_while_redeeming_witness :
  paused (Timer.bot
            (Timer.play (Scenario.healthy Scenario.both_pending) Scenario.cfg_plain
               Scenario.only_bulk 1 Overlap.begin
               [Timer.Tick; Timer.Answer 0; Timer.Answer 0; Timer.Answer 0])) = true /\
  Timer.play1 (Scenario.healthy Scenario.both_pending) Scenario.cfg_plain
    Scenario.only_bulk 1
    (Timer.play (Scenario.healthy Scenario.both_pending) Scenario.cfg_plain
       Scenario.only_bulk 1 Overlap.begin
       [Timer.Tick; Timer.Answer 0; Timer.Answer 0; Timer.Answer 0]) Timer.Tick
  = Timer.play (Scenario.healthy Scenario.both_pending) Scenario.cfg_plain
      Scenario.only_bulk 1 Overlap.begin
      [Timer.Tick; Timer.Answer 0; Timer.Answer 0; Timer.Answer 0].
Proof.
  refine (timer_paused_while_redeeming (Scenario.healthy Scenario.both_pending)
            Scenario.cfg_plain Scenario.only_bulk 1%nat Overlap.begin
            [Timer.Answer 0; Timer.Answer 0; Timer.Answer 0] eq_refl eq_refl _).
  repeat constructor; discriminate.
Defined.
